(** * Student tutor bot: the review workflow and the answer generator

    A shallow embedding of the JavaScript sources

      - utils/logger.js                    (module [logger])
      - models/question.js                 (module [QuestionModel])
      - services/deepseekService.js        (module [DeepseekService])
      - services/slackService.js           (module [SlackService])
      - services/telegramService.js        (module [TelegramService])
      - services/googleSheetService.js     (module [GoogleSheetsService])
      - services/geminiService.js          (module [GeminiService])
      - controllers/slackController.js     (module [SlackController])
      - controllers/telegramController.js  (module [TelegramController])

    Asynchronous functions are computations in a state-and-exception
    monad over a [World]: the Question collection, what was delivered to
    Telegram, Slack and the spreadsheet, the log, and the requests sent to
    the DeepSeek API.  Everything the program cannot decide itself (the
    outcome of a network call or of a file operation, the clock, the
    environment variables) is read from an [Env].  A request of Slack is
    what [JSON.parse] makes of its payload, a payload with the fields the
    handlers read or the error of the parser.

    The file has three parts: the embedding, the vocabulary in which the
    properties are stated, and the properties. *)

From Stdlib Require Import Ascii String QArith.
From stdpp Require Import base strings gmap list pretty.

Local Open Scope string_scope.
Local Open Scope list_scope.

(** ** JavaScript strings *)

(** [String.prototype.toLowerCase], on the ASCII range.  The strings the
    program searches for are ASCII; on other characters JavaScript's
    lower-casing differs, without effect on those searches. *)
Definition lower_ascii (c : ascii) : ascii :=
  let n := nat_of_ascii c in
  if ((65 <=? n) && (n <=? 90))%nat then ascii_of_nat (n + 32) else c.

Fixpoint toLowerCase (s : string) : string :=
  match s with
  | EmptyString => EmptyString
  | String c s' => String (lower_ascii c) (toLowerCase s')
  end.

(** [s.includes(sub)]. *)
Fixpoint includes (s sub : string) : bool :=
  String.prefix sub s ||
  match s with
  | EmptyString => false
  | String _ s' => includes s' sub
  end.

(** A JavaScript string is a sequence of UTF-16 units; a [string] here
    holds its UTF-8 encoding, byte by byte.  [continuation c] is the number
    of bytes that follow the lead byte [c] in the encoding of its character,
    and [units c] the number of UTF-16 units of that character: two for a
    character outside the basic plane, whose encoding has four bytes. *)
Definition continuation (c : ascii) : nat :=
  let n := nat_of_ascii c in
  if (n <? 192)%nat then 0
  else if (n <? 224)%nat then 1
  else if (n <? 240)%nat then 2
  else 3.

Definition units (c : ascii) : nat :=
  if (nat_of_ascii c <? 240)%nat then 1 else 2.

(** [s.length], the number of UTF-16 units; [skip] bytes of the character
    under way are still to be passed. *)
Fixpoint length_from (skip : nat) (s : string) : nat :=
  match s with
  | EmptyString => 0
  | String c s' =>
      match skip with
      | S skip' => length_from skip' s'
      | O => units c + length_from (continuation c) s'
      end
  end.

Definition js_length (s : string) : nat := length_from 0 s.

(** The high surrogate of the character whose encoding is the lead byte [c]
    and the bytes [rest], in the three-byte form of a single unit: what is
    left of the character when [substring] cuts it in two. *)
Definition high_surrogate (c : ascii) (rest : string) : string :=
  match rest with
  | String b1 (String b2 _) =>
      let h := ((nat_of_ascii c mod 8) * 256 + (nat_of_ascii b1 mod 64) * 4
                + (nat_of_ascii b2 mod 64) / 16 - 64)%nat in
      String (ascii_of_nat 237)
        (String (ascii_of_nat (160 + h / 64))
           (String (ascii_of_nat (128 + h mod 64)) EmptyString))
  | _ => EmptyString
  end.

(** The first [n] UTF-16 units of [s]. *)
Fixpoint take_units (n skip : nat) (s : string) : string :=
  match s with
  | EmptyString => EmptyString
  | String c s' =>
      match skip with
      | S skip' => String c (take_units n skip' s')
      | O =>
          match n with
          | O => EmptyString
          | S n' =>
              if (nat_of_ascii c <? 240)%nat
              then String c (take_units n' (continuation c) s')
              else match n' with
                   | O => high_surrogate c s'
                   | S n'' => String c (take_units n'' 3 s')
                   end
          end
      end
  end.

(** [s.substring(0, n)]. *)
Definition substring0 (n : nat) (s : string) : string := take_units n 0 s.

(** [a || b] on strings: the empty string is falsy. *)
Definition or_string (a : option string) (b : string) : string :=
  match a with
  | Some (String c s) => String c s
  | _ => b
  end.

(** ** Errors, completions and the monad *)

(** An error value: its [message] and, for an axios error, the response
    (status and serialized body) and the request it carries. *)
Record JsError := {
  message : string;
  response : option (nat * string);
  request : option string
}.

(** [new Error(msg)]. *)
Definition Error (msg : string) : JsError :=
  {| message := msg; response := None; request := None |}.

Inductive Level := info | warn | error.

(** A chat-completion request as [axios.post] sends it. *)
Record ChatRequest := {
  url : string;
  model : string;
  messages : list (string * string);   (* role, content *)
  max_tokens : Z;
  temperature : Q;
  headers : list (string * string);
  timeout : Z                          (* ms *)
}.

Inductive NetEvent :=
| Post (r : ChatRequest)
| Wait (ms : Z).                       (* setTimeout(resolve, ms) *)

(** What [axios.post] does: it rejects, or resolves with a response whose
    [data.choices] is absent ([None]) or a list of the contents
    [choices[i].message.content]; a content is a string or, as the API's
    schema allows, [null] ([None]). *)
Inductive AxiosReply :=
| Rejects (e : JsError)
| Resolves (choices : option (list (option string))).

(** A document of the Question collection (models/question.js).  Dates are
    milliseconds since the epoch. *)
Record Question := {
  _id : string;
  accountId : string;
  accountName : string;
  question : string;
  answer : string;
  editedAnswer : option string;
  isApproved : bool;
  isFromImage : bool;
  imageUrl : option string;
  createdAt : Z;
  updatedAt : Z;
  approvedAt : option Z;
  approvedBy : option string
}.

(** Slack block kit, as far as the program builds it. *)
Record Button := {
  button_text : string;
  button_style : string;
  button_value : string;
  button_action_id : string
}.

Inductive Block :=
| ContextMrkdwn (text : string)
| SectionMrkdwn (text : string)
| RichTextBold (text : option string)  (* the answer of a card may be null *)
| Divider
| Actions (block_id : string) (elements : list Button)
| InputText (block_id action_id initial_value label : string).

(** The private metadata of the edit modal; [JSON.stringify] on opening and
    [JSON.parse] on submission are taken as inverse to each other. *)
Record Metadata := {
  channel_id : string;
  message_ts : string;
  data_key : string
}.

Record View := {
  callback_id : string;
  title : string;
  submit : string;
  view_blocks : list Block;
  private_metadata : Metadata
}.

Inductive SlackCall :=
| ChatPostMessage (channel : string) (blocks : list Block) (text : string)
| ChatUpdate (channel ts text : string) (blocks : list Block)
| ViewsOpen (trigger_id : string) (view : View).

Inductive TelegramCall :=
| SendMessage (chatId text : string) (parse_mode : option string)
| SendChatAction (chatId action : string).

(** A row of the spreadsheet, columns A to E. *)
Record Row := {
  row_timestamp : Z;
  row_accountName : string;
  row_question : string;
  row_answer : string;
  row_editedAnswer : string
}.

(** The state the program acts on.  [telegram], [slack] and [sheet] hold the
    calls that succeeded, oldest first. *)
Record World := {
  questions : gmap string Question;
  telegram : list TelegramCall;
  slack : list SlackCall;
  sheet : list Row;
  sheets_initialized : bool;
  log : list (Level * string);
  net : list NetEvent;
  posts : nat;                         (* axios.post calls made so far *)
  ticks : nat;                         (* clock readings made so far *)
  responses : list (nat * string)      (* HTTP responses sent: status, body *)
}.

(** What the program reads from outside during one invocation of a
    handler.  The outcome of a call is a function of its arguments ([None]
    and [inr] are success, [Some e] and [inl e] the error thrown); the
    requests to the API and the readings of the clock are numbered, so that
    the same request can fail and then succeed. *)
Record Env := {
  clock : nat -> Z;                                    (* n-th reading *)
  DEEPSEEK_API_KEY : string;
  SLACK_CHANNEL_ID : option string;
  axios_post : nat -> ChatRequest -> AxiosReply;       (* n-th call *)
  db_findById : string -> option JsError;
  db_save : Question -> option JsError;
  slack_api : SlackCall -> option JsError;
  telegram_api : TelegramCall -> option JsError;
  sheets_auth : option JsError;
  sheets_append : Row -> JsError + string;             (* updatedRange *)
  new_ObjectId : string;                (* the _id a new document gets *)
  TELEGRAM_BOT_TOKEN : string;
  app_dir : string;                     (* the directory of app.js *)
  bot_getFile : string -> JsError + string;            (* file_path *)
  http_get : string -> option JsError;  (* axios GET, responseType stream *)
  write_stream : string -> option JsError;   (* piping a response into a file *)
  fs_existsSync : string -> bool;
  fs_mkdirSync : string -> option JsError;
  fs_copyFileSync : string -> string -> option JsError;
  fs_unlinkSync : string -> option JsError
}.

Inductive Completion (A : Type) :=
| Returns (a : A)
| Throws (e : JsError).
Arguments Returns {A} a.
Arguments Throws {A} e.

Definition Async (A : Type) : Type := World -> Completion A * World.

Global Instance Async_ret : MRet Async := fun A (a : A) w => (Returns a, w).

Global Instance Async_bind : MBind Async := fun A B (k : A -> Async B) (m : Async A) w =>
  match m w with
  | (Returns a, w') => k a w'
  | (Throws e, w') => (Throws e, w')
  end.

Definition throw {A} (e : JsError) : Async A := fun w => (Throws e, w).

(** [try { m } catch (e) { h e }]. *)
Definition try_catch {A} (m : Async A) (h : JsError -> Async A) : Async A :=
  fun w =>
    match m w with
    | (Returns a, w') => (Returns a, w')
    | (Throws e, w') => h e w'
    end.

Notation "'try' m 'catch' e => h" := (try_catch m (fun e => h))
  (at level 10, m at level 200, e name, h at level 200, only parsing).

Definition modify (f : World -> World) : Async unit := fun w => (Returns tt, f w).

Definition get : Async World := fun w => (Returns w, w).

(** The final state and the completion of a computation. *)
Definition exec {A} (m : Async A) (w : World) : World := snd (m w).
Definition completion {A} (m : Async A) (w : World) : Completion A := fst (m w).

Definition set_questions (f : gmap string Question -> gmap string Question) (w : World) : World :=
  {| questions := f (questions w); telegram := telegram w; slack := slack w;
     sheet := sheet w; sheets_initialized := sheets_initialized w; log := log w;
     net := net w; posts := posts w; ticks := ticks w;
     responses := responses w |}.

Definition set_telegram (f : list TelegramCall -> list TelegramCall) (w : World) : World :=
  {| questions := questions w; telegram := f (telegram w); slack := slack w;
     sheet := sheet w; sheets_initialized := sheets_initialized w; log := log w;
     net := net w; posts := posts w; ticks := ticks w;
     responses := responses w |}.

Definition set_slack (f : list SlackCall -> list SlackCall) (w : World) : World :=
  {| questions := questions w; telegram := telegram w; slack := f (slack w);
     sheet := sheet w; sheets_initialized := sheets_initialized w; log := log w;
     net := net w; posts := posts w; ticks := ticks w;
     responses := responses w |}.

Definition set_sheet (f : list Row -> list Row) (w : World) : World :=
  {| questions := questions w; telegram := telegram w; slack := slack w;
     sheet := f (sheet w); sheets_initialized := sheets_initialized w; log := log w;
     net := net w; posts := posts w; ticks := ticks w;
     responses := responses w |}.

Definition set_sheets_initialized (b : bool) (w : World) : World :=
  {| questions := questions w; telegram := telegram w; slack := slack w;
     sheet := sheet w; sheets_initialized := b; log := log w;
     net := net w; posts := posts w; ticks := ticks w;
     responses := responses w |}.

Definition set_log (f : list (Level * string) -> list (Level * string)) (w : World) : World :=
  {| questions := questions w; telegram := telegram w; slack := slack w;
     sheet := sheet w; sheets_initialized := sheets_initialized w; log := f (log w);
     net := net w; posts := posts w; ticks := ticks w;
     responses := responses w |}.

Definition set_net (f : list NetEvent -> list NetEvent) (g : nat -> nat) (w : World) : World :=
  {| questions := questions w; telegram := telegram w; slack := slack w;
     sheet := sheet w; sheets_initialized := sheets_initialized w; log := log w;
     net := f (net w); posts := g (posts w); ticks := ticks w;
     responses := responses w |}.

Definition set_ticks (f : nat -> nat) (w : World) : World :=
  {| questions := questions w; telegram := telegram w; slack := slack w;
     sheet := sheet w; sheets_initialized := sheets_initialized w; log := log w;
     net := net w; posts := posts w; ticks := f (ticks w);
     responses := responses w |}.

Definition set_responses (f : list (nat * string) -> list (nat * string)) (w : World) : World :=
  {| questions := questions w; telegram := telegram w; slack := slack w;
     sheet := sheet w; sheets_initialized := sheets_initialized w; log := log w;
     net := net w; posts := posts w; ticks := ticks w;
     responses := f (responses w) |}.

(** ** utils/logger.js *)
Module logger.
Definition write (l : Level) (msg : string) : Async unit :=
  modify (set_log (fun entries => entries ++ [(l, msg)])).
Definition info := write info.
Definition warn := write warn.
Definition error := write error.
End logger.

(** [Date.now()] and [new Date()]. *)
Definition Date_now (env : Env) : Async Z :=
  fun w => (Returns (clock env (ticks w)), set_ticks S w).

(** ** models/question.js *)
Module QuestionModel.

(** [new Question({accountId, accountName, question, answer, isApproved,
    isFromImage, imageUrl})]: the schema defaults fill the other paths;
    [createdAt] and [updatedAt] each default to [Date.now].  The answer
    given is a string or [null].  A document whose [answer] is [null] is held
    with the empty string in that path: the [required] validator refuses the
    one as the other with the same message, so that such a document is never
    written, and the program does not read it again. *)
Definition new (env : Env) (accountId accountName question : string)
    (answer : option string)
    (isApproved isFromImage : bool) (imageUrl : option string) : Async Question :=
  created ← Date_now env;
  updated ← Date_now env;
  mret {| _id := new_ObjectId env;
          accountId := accountId; accountName := accountName;
          question := question; answer := or_string answer EmptyString;
          editedAnswer := None;
          isApproved := isApproved; isFromImage := isFromImage;
          imageUrl := imageUrl;
          createdAt := created; updatedAt := updated;
          approvedAt := None; approvedBy := None |}.

Definition set_updatedAt (t : Z) (q : Question) : Question :=
  {| _id := _id q; accountId := accountId q; accountName := accountName q;
     question := question q; answer := answer q; editedAnswer := editedAnswer q;
     isApproved := isApproved q; isFromImage := isFromImage q;
     imageUrl := imageUrl q; createdAt := createdAt q; updatedAt := t;
     approvedAt := approvedAt q; approvedBy := approvedBy q |}.

(** The assignments the approval handlers make on a document before they
    save it. *)
Definition set_editedAnswer (a : string) (q : Question) : Question :=
  {| _id := _id q; accountId := accountId q; accountName := accountName q;
     question := question q; answer := answer q; editedAnswer := Some a;
     isApproved := isApproved q; isFromImage := isFromImage q;
     imageUrl := imageUrl q; createdAt := createdAt q; updatedAt := updatedAt q;
     approvedAt := approvedAt q; approvedBy := approvedBy q |}.

Definition set_isApproved (b : bool) (q : Question) : Question :=
  {| _id := _id q; accountId := accountId q; accountName := accountName q;
     question := question q; answer := answer q; editedAnswer := editedAnswer q;
     isApproved := b; isFromImage := isFromImage q;
     imageUrl := imageUrl q; createdAt := createdAt q; updatedAt := updatedAt q;
     approvedAt := approvedAt q; approvedBy := approvedBy q |}.

Definition set_approvedAt (t : Z) (q : Question) : Question :=
  {| _id := _id q; accountId := accountId q; accountName := accountName q;
     question := question q; answer := answer q; editedAnswer := editedAnswer q;
     isApproved := isApproved q; isFromImage := isFromImage q;
     imageUrl := imageUrl q; createdAt := createdAt q; updatedAt := updatedAt q;
     approvedAt := Some t; approvedBy := approvedBy q |}.

Definition set_approvedBy (u : string) (q : Question) : Question :=
  {| _id := _id q; accountId := accountId q; accountName := accountName q;
     question := question q; answer := answer q; editedAnswer := editedAnswer q;
     isApproved := isApproved q; isFromImage := isFromImage q;
     imageUrl := imageUrl q; createdAt := createdAt q; updatedAt := updatedAt q;
     approvedAt := approvedAt q; approvedBy := Some u |}.

(** The paths the schema declares [required: true], in its order; on a
    String path the validator refuses the empty string.  The error names
    every path that fails. *)
Definition required_paths (doc : Question) : list (string * string) :=
  [("accountId", accountId doc); ("accountName", accountName doc);
   ("question", question doc); ("answer", answer doc)].

Definition validate (doc : Question) : option JsError :=
  match filter (fun pv => String.eqb (snd pv) EmptyString) (required_paths doc) with
  | [] => None
  | failing =>
      Some (Error ("Question validation failed: "
                   +:+ String.concat ", "
                         (map (fun pv => fst pv +:+ ": Path `" +:+ fst pv
                                         +:+ "` is required.") failing)))
  end.

(** [doc.save()]: a new document is validated; the pre-save hook sets
    [updatedAt]; then the document is written under its [_id].  A new
    document ([isNew]) whose [_id] is taken is refused by the collection.  A
    document read from the collection has its required paths unmodified, and
    they are not validated again. *)
Definition save (env : Env) (isNew : bool) (doc : Question) : Async Question :=
  (if isNew
   then match validate doc with
        | Some e => throw e
        | None => mret tt
        end
   else mret tt);;
  now ← Date_now env;
  let doc := set_updatedAt now doc in
  w ← get;
  match db_save env doc with
  | Some e => throw e
  | None =>
      if isNew && bool_decide (is_Some (questions w !! _id doc))
      then throw (Error "E11000 duplicate key error collection: questions")
      else modify (set_questions (insert (_id doc) doc));; mret doc
  end.

(** [Question.findById(id)]. *)
Definition findById (env : Env) (id : string) : Async (option Question) :=
  match db_findById env id with
  | Some e => throw e
  | None => w ← get; mret (questions w !! id)
  end.

End QuestionModel.

(** The double-quote character, for serialized JSON. *)
Definition dq : string := String (ascii_of_nat 34) EmptyString.

(** ** services/deepseekService.js *)
Module DeepseekService.

Definition apiUrl : string := "https://api.deepseek.com/v1/chat/completions".

Definition systemPrompt : string :=
  "You are an expert tutor. Explain concepts simply with proper math notation.".

(** Configuration for retries. *)
Definition maxRetries : nat := 2.
Definition retryDelay : Z := 1000.

Definition request_headers (env : Env) : list (string * string) :=
  [("Content-Type", "application/json");
   ("Authorization", "Bearer " +:+ DEEPSEEK_API_KEY env)].

(** The request of [_makeRequest]. *)
Definition primary_request (env : Env) (question : string) : ChatRequest :=
  {| url := apiUrl;
     model := "deepseek-chat";
     messages := [("system", systemPrompt); ("user", question)];
     max_tokens := 1000;
     temperature := 0.7%Q;
     headers := request_headers env;
     timeout := 30000 |}.

(** The request of [_makeSimplifiedRequest]. *)
Definition simplified_request (env : Env) (question : string) : ChatRequest :=
  {| url := apiUrl;
     model := "deepseek-chat";
     messages := [("user", "Answer this as briefly as possible: " +:+ question)];
     max_tokens := 100;
     temperature := 0.5%Q;
     headers := request_headers env;
     timeout := 15000 |}.

(** [await axios.post(url, body, config)]. *)
Definition post (env : Env) (r : ChatRequest)
    : Async (option (list (option string))) :=
  fun w =>
    let w' := set_net (fun t => t ++ [Post r]) S w in
    match axios_post env (posts w) r with
    | Rejects e => (Throws e, w')
    | Resolves choices => (Returns choices, w')
    end.

(** [await new Promise((resolve) => setTimeout(resolve, ms))]. *)
Definition sleep (ms : Z) : Async unit :=
  modify (set_net (fun t => t ++ [Wait ms]) id).

Definition request_config_json : string :=
  "{" +:+ dq +:+ "url" +:+ dq +:+ ":" +:+ dq +:+ apiUrl +:+ dq +:+ ","
  +:+ dq +:+ "method" +:+ dq +:+ ":" +:+ dq +:+ "post" +:+ dq +:+ ","
  +:+ dq +:+ "headers" +:+ dq +:+ ":{"
  +:+ dq +:+ "Content-Type" +:+ dq +:+ ":" +:+ dq +:+ "application/json" +:+ dq +:+ ","
  +:+ dq +:+ "Authorization" +:+ dq +:+ ":" +:+ dq +:+ "Bearer [REDACTED]" +:+ dq
  +:+ "}}".

Definition _makeRequest (env : Env) (question : string) : Async string :=
  logger.info ("Making DeepSeek API request for question: "
               +:+ substring0 50 question +:+ "...");;
  try
    (choices ← post env (primary_request env question);
     match choices with
     | Some (Some answer :: _) =>
         logger.info ("Successfully received answer from DeepSeek ("
                      +:+ pretty (js_length answer) +:+ " chars)");;
         mret answer
     | Some (None :: _) =>
         (* [answer.length] on a null content *)
         throw (Error "Cannot read properties of null (reading 'length')")
     | _ => throw (Error "Invalid response format from DeepSeek API")
     end)
  catch error =>
    ((match response error with
      | Some (status, data) =>
          logger.error ("DeepSeek API status: " +:+ pretty status);;
          logger.error ("DeepSeek API response: " +:+ data);;
          logger.error ("Request config: " +:+ request_config_json)
      | None =>
          match request error with
          | Some req =>
              logger.error ("No response received from DeepSeek. Request: " +:+ req)
          | None => mret tt
          end
      end);;
     throw error).

(** The content is returned as it came: it may be [null]. *)
Definition _makeSimplifiedRequest (env : Env) (question : string)
    : Async (option string) :=
  logger.info "Making simplified DeepSeek API request...";;
  choices ← post env (simplified_request env question);
  match choices with
  | Some (content :: _) => mret content
  | _ => throw (Error "Invalid response format from simplified DeepSeek API request")
  end.

Definition fallback_mathematics : string :=
  "The formula you're asking about appears to involve mathematical concepts. A teacher will review your question and provide a detailed answer shortly.".
Definition fallback_physics : string :=
  "Your physics question requires careful explanation. A teacher will review your question and provide a detailed answer shortly.".
Definition fallback_chemistry : string :=
  "Your chemistry question involves specific concepts. A teacher will review your question and provide a detailed answer shortly.".
Definition fallback_generic : string :=
  "I'll help with your question. A teacher will review it and provide a detailed answer shortly.".

Definition _getFallbackResponse (question : string) : Async string :=
  logger.info ("Generating fallback response for: "
               +:+ substring0 30 question +:+ "...");;
  let q := toLowerCase question in
  if includes q "math" || includes q "formula"
     || includes q "equation" || includes q "calculate"
  then mret fallback_mathematics
  else if includes q "physics" || includes q "force"
          || includes q "energy" || includes q "motion"
  then mret fallback_physics
  else if includes q "chemistry" || includes q "reaction"
          || includes q "molecule"
  then mret fallback_chemistry
  else mret fallback_generic.

(** The loop [while (retries <= maxRetries)] of [generateAnswer], by
    recursion on the number [left] of iterations still allowed, which is
    [maxRetries + 1 - retries].  [Some answer] is the [return] inside the
    loop, [None] is the loop running out. *)
Fixpoint retry_loop (env : Env) (question : string) (left retries : nat)
    : Async (option string) :=
  match left with
  | O => mret None
  | S left' =>
      try
        ((if (0 <? retries)%nat
          then
            logger.info ("Retry attempt " +:+ pretty retries +:+ " for question: "
                         +:+ substring0 30 question +:+ "...");;
            sleep (retryDelay * Z.of_nat retries)
          else mret tt);;
         answer ← _makeRequest env question;
         mret (Some answer))
      catch error =>
        (logger.error ("DeepSeek API error (attempt " +:+ pretty (retries + 1)%nat
                       +:+ "): " +:+ message error);;
         retry_loop env question left' (S retries))
  end.

(** What [generateAnswer] resolves to is a string or [null] ([None]). *)
Definition generateAnswer (env : Env) (question : string) : Async (option string) :=
  result ← retry_loop env question (maxRetries + 1 - 0) 0;
  match result with
  | Some answer => mret (Some answer)
  | None =>
      try
        (logger.info "Trying simplified request as last resort...";;
         _makeSimplifiedRequest env question)
      catch error =>
        (logger.error ("Simplified request also failed: " +:+ message error);;
         answer ← _getFallbackResponse question;
         mret (Some answer))
  end.

End DeepseekService.

(** ** services/slackService.js *)
Module SlackService.

(** [process.env.SLACK_CHANNEL_ID || "testing"]. *)
Definition channelId (env : Env) : string := or_string (SLACK_CHANNEL_ID env) "testing".

(** A call of the Slack web client. *)
Definition call (env : Env) (c : SlackCall) : Async unit :=
  match slack_api env c with
  | Some e => throw e
  | None => modify (set_slack (fun cs => cs ++ [c]))
  end.

Definition approval_blocks (question : string) (answer : option string)
    (recordId studentName : string) (isFromImage : bool) : list Block :=
  ContextMrkdwn ("*From:* " +:+ studentName +:+ " | *Source:* "
                 +:+ (if isFromImage then "Image" else "Text"))
  :: [RichTextBold (Some question);
      Divider;
      RichTextBold answer;
      Actions "approval_buttons"
        [{| button_text := "Approve"; button_style := "primary";
            button_value := recordId; button_action_id := "approve_button" |};
         {| button_text := "Edit"; button_style := "danger";
            button_value := recordId; button_action_id := "edited_button" |}]].

Definition sendQuestionForApproval (env : Env)
    (question : string) (answer : option string) (recordId studentName : string)
    (isFromImage : bool) : Async unit :=
  try
    call env (ChatPostMessage (channelId env)
                (approval_blocks question answer recordId studentName isFromImage)
                ("New question from " +:+ studentName +:+ ": "
                 +:+ substring0 50 question +:+ "..."))
  catch error =>
    (logger.error ("Error sending message to Slack: " +:+ message error);;
     throw (Error ("Failed to send message to Slack: " +:+ message error))).

Definition approved_blocks (text : string) : list Block :=
  [SectionMrkdwn "*Approved Answer:*";
   SectionMrkdwn text;
   ContextMrkdwn ":white_check_mark: Approved and sent to student"].

Definition updateMessage (env : Env) (messageTs text : string) : Async unit :=
  try
    call env (ChatUpdate (channelId env) messageTs text (approved_blocks text))
  catch error =>
    (logger.error ("Error updating Slack message: " +:+ message error);;
     throw (Error ("Failed to update Slack message: " +:+ message error))).

Definition edit_view (recordId channelId messageTs question answer : string) : View :=
  {| callback_id := "edit_response_modal";
     title := "Edit Response";
     submit := "Submit";
     view_blocks :=
       [SectionMrkdwn ("*Original Question:*" +:+ String (ascii_of_nat 10) question);
        InputText "edited_response" "response_text" answer "Edit Response"];
     private_metadata :=
       {| channel_id := channelId; message_ts := messageTs; data_key := recordId |} |}.

Definition openEditModal (env : Env)
    (triggerId recordId channelId messageTs question answer : string) : Async unit :=
  try
    call env (ViewsOpen triggerId
                (edit_view recordId channelId messageTs question answer))
  catch error =>
    (logger.error ("Error opening edit modal: " +:+ message error);;
     throw (Error ("Failed to open edit modal: " +:+ message error))).

End SlackService.

(** ** services/telegramService.js *)
Module TelegramService.

(** A call of the bot API. *)
Definition call (env : Env) (c : TelegramCall) : Async unit :=
  match telegram_api env c with
  | Some e => throw e
  | None => modify (set_telegram (fun cs => cs ++ [c]))
  end.

Definition sendMessage (env : Env) (chatId text : string) : Async unit :=
  try
    (call env (SendMessage chatId text (Some "HTML"));;
     logger.info ("Message sent to Telegram user: " +:+ chatId))
  catch error =>
    (logger.error ("Error sending message to Telegram: " +:+ message error);;
     throw (Error ("Failed to send message to Telegram: " +:+ message error))).

End TelegramService.

(** ** services/googleSheetService.js *)
Module GoogleSheetsService.

(** The argument of [saveRecord]. *)
Record Record_ := {
  rec_accountName : string;
  rec_question : string;
  rec_answer : string;
  rec_editedAnswer : option string
}.

Definition initialize (env : Env) : Async unit :=
  try
    (match sheets_auth env with
     | Some e => throw e
     | None => mret tt
     end;;
     modify (set_sheets_initialized true);;
     logger.info "Google Sheets service initialized")
  catch error =>
    (logger.error ("Error initializing Google Sheets: " +:+ message error);;
     throw (Error ("Failed to initialize Google Sheets: " +:+ message error))).

(** [this.sheets.spreadsheets.values.append(...)]; returns
    [response.data.updates.updatedRange]. *)
Definition append (env : Env) (row : Row) : Async string :=
  match sheets_append env row with
  | inl e => throw e
  | inr range => modify (set_sheet (fun rows => rows ++ [row]));; mret range
  end.

Definition saveRecord (env : Env) (record : Record_) : Async unit :=
  try
    (w ← get;
     (if negb (sheets_initialized w) then initialize env else mret tt);;
     now ← Date_now env;
     let values :=
       {| row_timestamp := now;
          row_accountName := rec_accountName record;
          row_question := rec_question record;
          row_answer := rec_answer record;
          row_editedAnswer := or_string (rec_editedAnswer record) (rec_answer record) |} in
     updatedRange ← append env values;
     logger.info ("Record saved to Google Sheets: " +:+ updatedRange))
  catch error =>
    (logger.error ("Error saving to Google Sheets: " +:+ message error);;
     throw (Error ("Failed to save to Google Sheets: " +:+ message error))).

(** [record[header] = value] on a record made by an object literal:
    assigning a string to [__proto__] leaves the object as it is. *)
Definition assign (header value : string) (record : gmap string string)
    : gmap string string :=
  if String.eqb header "__proto__" then record else <[header := value]> record.

(** [headers.forEach((header, i) => { record[header] = row[i] || ... })],
    from index [i] on; the default is the empty string. *)
Fixpoint assign_from (i : nat) (headers row : list string) (record : gmap string string)
    : gmap string string :=
  match headers with
  | [] => record
  | header :: rest =>
      assign_from (S i) rest row
        (assign header (or_string (row !! i) EmptyString) record)
  end.

Definition record_of (headers row : list string) : gmap string string :=
  assign_from 0 headers row ∅.

Definition default_headers : list string :=
  ["timestamp"; "accountName"; "question"; "answer"; "editedAnswer"].

(** [getAllRecords]; [values_get] is what
    [this.sheets.spreadsheets.values.get(...)] does: it rejects, or resolves
    with [response.data.values], which is absent when the range is empty and
    whose cells are strings. *)
Definition getAllRecords (env : Env) (values_get : JsError + option (list (list string)))
    : Async (list (gmap string string)) :=
  try
    (w ← get;
     (if negb (sheets_initialized w) then initialize env else mret tt);;
     values ← match values_get with
              | inl e => throw e
              | inr values => mret values
              end;
     let rows := default [] values in
     let headers :=
       match rows with
       | row :: _ => row
       | [] => default_headers
       end in
     let records := map (record_of headers) (tail rows) in
     mret records)
  catch error =>
    (logger.error ("Error getting records from Google Sheets: " +:+ message error);;
     throw (Error ("Failed to get records from Google Sheets: " +:+ message error))).


End GoogleSheetsService.

(** ** controllers/slackController.js *)
Module SlackController.

Record Action := {
  action_id : string;
  value : string
}.

(** A [block_actions] payload: [actions], [user.id], [message.ts],
    [channel.id], [trigger_id]. *)
Record BlockActions := {
  actions : list Action;
  user_id : string;
  message_ts_ : string;
  channel_id_ : string;
  trigger_id_ : string
}.

(** A [view_submission] payload: [user.id], the parsed
    [view.private_metadata] and
    [view.state.values.edited_response.response_text.value]. *)
Record ViewSubmission := {
  submitter_id : string;
  metadata : Metadata;
  response_text : string
}.

Inductive Payload :=
| block_actions (p : BlockActions)
| view_submission (p : ViewSubmission)
| other (type : string).

(** The body of a request:
    [req.body.payload ? JSON.parse(req.body.payload) : req.body].  It is a
    payload ([parsed], also when there is nothing to parse and the body is
    the payload), or [JSON.parse] gives [null], or it throws. *)
Inductive Request :=
| parsed (payload : Payload)
| parsed_null
| malformed (e : JsError).

Definition handleApproval (env : Env) (payload : BlockActions)
    (questionRecord : Question) : Async unit :=
  try
    (let questionRecord := QuestionModel.set_isApproved true questionRecord in
     now ← Date_now env;
     let questionRecord := QuestionModel.set_approvedAt now questionRecord in
     let questionRecord := QuestionModel.set_approvedBy (user_id payload) questionRecord in
     questionRecord ← QuestionModel.save env false questionRecord;
     SlackService.updateMessage env (message_ts_ payload) (answer questionRecord);;
     TelegramService.sendMessage env (accountId questionRecord) (answer questionRecord);;
     GoogleSheetsService.saveRecord env
       {| GoogleSheetsService.rec_accountName := accountName questionRecord;
          GoogleSheetsService.rec_question := question questionRecord;
          GoogleSheetsService.rec_answer := answer questionRecord;
          GoogleSheetsService.rec_editedAnswer := None |};;
     logger.info ("Approved answer sent to student: " +:+ _id questionRecord))
  catch error =>
    logger.error ("Error handling approval: " +:+ message error).

Definition handleEditRequest (env : Env) (payload : BlockActions)
    (questionRecord : Question) : Async unit :=
  try
    (SlackService.openEditModal env (trigger_id_ payload) (_id questionRecord)
       (channel_id_ payload) (message_ts_ payload)
       (question questionRecord) (answer questionRecord);;
     logger.info ("Edit modal opened for question: " +:+ _id questionRecord))
  catch error =>
    logger.error ("Error handling edit request: " +:+ message error).

Definition handleBlockActions (env : Env) (payload : BlockActions) : Async unit :=
  try
    match actions payload with
    | [] => throw (Error "Cannot read properties of undefined (reading 'value')")
    | action :: _ =>
        let recordId := value action in
        questionRecord ← QuestionModel.findById env recordId;
        match questionRecord with
        | None => logger.error ("Question record not found: " +:+ recordId)
        | Some questionRecord =>
            if String.eqb (action_id action) "approve_button"
            then handleApproval env payload questionRecord
            else if String.eqb (action_id action) "edited_button"
            then handleEditRequest env payload questionRecord
            else mret tt
        end
    end
  catch error =>
    logger.error ("Error handling block actions: " +:+ message error).

Definition handleViewSubmission (env : Env) (payload : ViewSubmission) : Async unit :=
  try
    (let recordId := data_key (metadata payload) in
     let channelId := channel_id (metadata payload) in
     let messageTs := message_ts (metadata payload) in
     let editedAnswer := response_text payload in
     questionRecord ← QuestionModel.findById env recordId;
     match questionRecord with
     | None => logger.error ("Question record not found: " +:+ recordId)
     | Some questionRecord =>
         let questionRecord := QuestionModel.set_editedAnswer editedAnswer questionRecord in
         let questionRecord := QuestionModel.set_isApproved true questionRecord in
         now ← Date_now env;
         let questionRecord := QuestionModel.set_approvedAt now questionRecord in
         let questionRecord :=
           QuestionModel.set_approvedBy (submitter_id payload) questionRecord in
         questionRecord ← QuestionModel.save env false questionRecord;
         SlackService.updateMessage env messageTs editedAnswer;;
         TelegramService.sendMessage env (accountId questionRecord) editedAnswer;;
         GoogleSheetsService.saveRecord env
           {| GoogleSheetsService.rec_accountName := accountName questionRecord;
              GoogleSheetsService.rec_question := question questionRecord;
              GoogleSheetsService.rec_answer := answer questionRecord;
              GoogleSheetsService.rec_editedAnswer := Some editedAnswer |};;
         logger.info ("Edited answer sent to student: " +:+ recordId)
     end)
  catch error =>
    logger.error ("Error handling view submission: " +:+ message error).

(** [res.status(200).send(...)], with an empty body. *)
Definition acknowledge : Async unit :=
  modify (set_responses (fun rs => rs ++ [(200, EmptyString)])).

Definition handleInteraction (env : Env) (req : Request) : Async unit :=
  try
    (payload ←
       match req with
       | parsed payload => mret (Some payload)
       | parsed_null => mret None
       | malformed e => throw e
       end;
     acknowledge;;
     match payload with
     | Some (block_actions p) => handleBlockActions env p
     | Some (view_submission p) => handleViewSubmission env p
     | Some (other type) => logger.warn ("Unknown Slack interaction type: " +:+ type)
     | None => throw (Error "Cannot read properties of null (reading 'type')")
     end)
  catch error =>
    logger.error ("Error handling Slack interaction: " +:+ message error).

End SlackController.

(** A payload stands for the request that parses to it. *)
Coercion SlackController.parsed : SlackController.Payload >-> SlackController.Request.

(** ** Node's [path] module, on POSIX paths *)

(** The part of [s] after the last [c], when [c] occurs in [s]. *)
Fixpoint after_last (c : ascii) (s : string) : option string :=
  match s with
  | EmptyString => None
  | String d s' =>
      match after_last c s' with
      | Some t => Some t
      | None => if Ascii.eqb c d then Some s' else None
      end
  end.

(** [path.basename(p)]. *)
Definition basename (p : string) : string :=
  match after_last "/" p with
  | Some name => name
  | None => p
  end.

(** [path.extname(p)]: from the last dot of the base name, unless that dot
    starts it. *)
Definition extname (p : string) : string :=
  match basename p with
  | EmptyString => EmptyString
  | String _ rest =>
      match after_last "." rest with
      | Some ext => "." +:+ ext
      | None => EmptyString
      end
  end.

(** [path.join(dir, name)]. *)
Definition path_join (dir name : string) : string := dir +:+ "/" +:+ name.

(** ** services/geminiService.js *)
Module GeminiService.

Definition extractTextFromImage (env : Env) (imagePath : string) : Async string :=
  try
    (logger.info ("Processing image: " +:+ imagePath);;
     let debugDir := path_join (app_dir env) "debug" in
     (if negb (fs_existsSync env debugDir)
      then match fs_mkdirSync env debugDir with
           | Some e => throw e
           | None => mret tt
           end
      else mret tt);;
     let filename := basename imagePath in
     let debugPath := path_join debugDir ("debug-" +:+ filename) in
     match fs_copyFileSync env imagePath debugPath with
     | Some e => throw e
     | None => mret tt
     end;;
     logger.info ("Saved debug copy of image to: " +:+ debugPath);;
     let ext := toLowerCase (extname imagePath) in
     let extractedText :=
       if String.eqb ext ".jpg" || String.eqb ext ".jpeg"
       then "Find the derivative of f(x) = 3x² + 2x - 5 with respect to x."
       else if String.eqb ext ".png"
       then "If a circle has a radius of 5 cm, calculate its area and circumference."
       else "Solve the following equation: 2x + 5 = 13" in
     logger.info ("Generated mock text from image: " +:+ dq +:+ extractedText +:+ dq);;
     mret extractedText)
  catch error =>
    (logger.error ("Error in mock image processing: " +:+ message error);;
     mret "This appears to be an image with a question. A teacher will review it shortly.").

End GeminiService.

(** ** controllers/telegramController.js *)
Module TelegramController.

Record PhotoSize := {
  file_id : string
}.

(** A Telegram message: [chat.id], [from.id], [from.first_name], [text]
    and [photo]. *)
Record Message := {
  chat_id : Z;
  from_id : Z;
  first_name : string;
  text : option string;
  photo : list PhotoSize
}.

(** The calls on the [bot] instance. *)
Definition bot_sendMessage (env : Env) (chatId : Z) (text : string) : Async unit :=
  TelegramService.call env (SendMessage (pretty chatId) text None).

Definition bot_sendChatAction (env : Env) (chatId : Z) (action : string) : Async unit :=
  TelegramService.call env (SendChatAction (pretty chatId) action).

Definition getPhotoUrl (env : Env) (fileId : string) : Async string :=
  try
    match bot_getFile env fileId with
    | inl e => throw e
    | inr file_path =>
        mret ("https://api.telegram.org/file/bot" +:+ TELEGRAM_BOT_TOKEN env
              +:+ "/" +:+ file_path)
    end
  catch error =>
    (logger.error ("Error getting file from Telegram: " +:+ message error);;
     throw (Error ("Failed to get file from Telegram: " +:+ message error))).

(** The promise [downloadPhoto] returns is not awaited inside its [try]: a
    failure of the write stream reaches the caller as it is. *)
Definition downloadPhoto (env : Env) (url : string) : Async string :=
  tempPath ←
    (try
       (match http_get env url with
        | Some e => throw e
        | None => mret tt
        end;;
        let tempDir := path_join (app_dir env) "temp" in
        (if negb (fs_existsSync env tempDir)
         then match fs_mkdirSync env tempDir with
              | Some e => throw e
              | None => mret tt
              end
         else mret tt);;
        now ← Date_now env;
        mret (path_join tempDir (pretty now +:+ ".jpg")))
     catch error =>
       (logger.error ("Error downloading photo: " +:+ message error);;
        throw (Error ("Failed to download photo: " +:+ message error))));
  match write_stream env tempPath with
  | Some e => throw e
  | None => mret tempPath
  end.

(** The block of [processTextMessage] and [processPhotoMessage] that stores
    the question; it returns [questionData._id]. *)
Definition storeQuestion (env : Env) (userId : Z) (firstName questionText : string)
    (answer : option string)
    (isFromImage : bool) (imageUrl : option string) (saved : string -> string)
    : Async string :=
  try
    (questionData ← QuestionModel.new env (pretty userId) firstName questionText answer
                      false isFromImage imageUrl;
     questionData ← QuestionModel.save env true questionData;
     logger.info (saved (_id questionData));;
     mret (_id questionData))
  catch dbError =>
    (logger.error ("Error saving to database: " +:+ message dbError);;
     now ← Date_now env;
     mret ("temp-" +:+ pretty now)).

Definition processTextMessage (env : Env) (msg : Message) (questionText : string)
    : Async unit :=
  let chatId := chat_id msg in
  let userId := from_id msg in
  let firstName := first_name msg in
  try
    (logger.info ("Processing text message: " +:+ dq
                  +:+ substring0 50 questionText +:+ "..." +:+ dq);;
     bot_sendChatAction env chatId "typing";;
     answer ←
       (try
          (answer ← DeepseekService.generateAnswer env questionText;
           logger.info "Generated answer for text question";;
           mret answer)
        catch aiError =>
          (logger.error ("Error generating answer: " +:+ message aiError);;
           mret (Some "I encountered a technical issue. A teacher will help with your question shortly.")));
     questionData_id ←
       storeQuestion env userId firstName questionText answer false None
         (fun id => "Saved question to database with ID: " +:+ id);
     (try
        (SlackService.sendQuestionForApproval env questionText answer questionData_id
           firstName false;;
         logger.info "Sent question to Slack for approval")
      catch slackError =>
        logger.error ("Error sending to Slack: " +:+ message slackError));;
     bot_sendMessage env chatId
       "I've received your question and am working on it. A teacher will review the answer shortly.";;
     logger.info "Sent acknowledgment to user")
  catch error =>
    (logger.error ("Error processing text message: " +:+ message error);;
     bot_sendMessage env chatId
       "Sorry, there was an error processing your question. Please try again later.").

Definition processPhotoMessage (env : Env) (msg : Message) : Async unit :=
  let chatId := chat_id msg in
  let userId := from_id msg in
  let firstName := first_name msg in
  try
    (logger.info ("Processing photo message from " +:+ firstName);;
     bot_sendChatAction env chatId "typing";;
     fileId ←
       match last (photo msg) with
       | Some photo => mret (file_id photo)
       | None => throw (Error "Cannot read properties of undefined (reading 'file_id')")
       end;
     download ←
       (try
          (fileUrl ← getPhotoUrl env fileId;
           filePath ← downloadPhoto env fileUrl;
           logger.info ("Downloaded photo to " +:+ filePath);;
           mret (fileUrl, filePath))
        catch downloadError =>
          (logger.error ("Error downloading photo: " +:+ message downloadError);;
           throw (Error ("Could not download image: " +:+ message downloadError))));
     let fileUrl := fst download in
     let filePath := snd download in
     extractedText ←
       (try
          (extractedText ← GeminiService.extractTextFromImage env filePath;
           logger.info ("Extracted text from image: " +:+ dq
                        +:+ substring0 50 extractedText +:+ "..." +:+ dq);;
           mret extractedText)
        catch extractError =>
          (logger.error ("Error extracting text: " +:+ message extractError);;
           mret "This appears to be an image with a question, but I couldn't extract the text."));
     answer ←
       (try
          (answer ← DeepseekService.generateAnswer env extractedText;
           logger.info "Generated answer for image question";;
           mret answer)
        catch aiError =>
          (logger.error ("Error generating answer: " +:+ message aiError);;
           mret (Some "I encountered a technical issue processing this image. A teacher will help with your question shortly.")));
     questionData_id ←
       storeQuestion env userId firstName extractedText answer true (Some fileUrl)
         (fun id => "Saved image question to database with ID: " +:+ id);
     (try
        (SlackService.sendQuestionForApproval env extractedText answer questionData_id
           firstName true;;
         logger.info "Sent image question to Slack for approval")
      catch slackError =>
        logger.error ("Error sending to Slack: " +:+ message slackError));;
     bot_sendMessage env chatId
       "I've received your image and am processing it. A teacher will review the answer shortly.";;
     logger.info "Sent acknowledgment to user for image";;
     (if negb (String.eqb filePath EmptyString)
      then
        try
          (match fs_unlinkSync env filePath with
           | Some e => throw e
           | None => mret tt
           end;;
           logger.info "Cleaned up temporary file")
        catch cleanupError =>
          logger.error ("Error cleaning up file: " +:+ message cleanupError)
      else mret tt))
  catch error =>
    (logger.error ("Error processing photo message: " +:+ message error);;
     bot_sendMessage env chatId
       "Sorry, there was an error processing your image. Please try again later.").

Definition processMessage (env : Env) (msg : Message) : Async unit :=
  try
    (let chatId := chat_id msg in
     let userId := from_id msg in
     let firstName := first_name msg in
     logger.info ("Received message from " +:+ firstName
                  +:+ " (" +:+ pretty userId +:+ ")");;
     match photo msg, text msg with
     | _ :: _, _ => processPhotoMessage env msg
     | [], Some (String c s) => processTextMessage env msg (String c s)
     | [], _ =>
         bot_sendMessage env chatId
           "Sorry, I can only process text or images. Please try again."
     end)
  catch error =>
    (logger.error ("Error processing Telegram message: " +:+ message error);;
     try
       bot_sendMessage env (chat_id msg)
         "Sorry, there was an error processing your message. Please try again later."
     catch sendError =>
       logger.error ("Error sending error message: " +:+ message sendError)).

End TelegramController.

(** * Vocabulary of the specification *)

(** ** Worlds *)

(** A world in which nothing has happened yet. *)
Definition empty_world : World :=
  {| questions := ∅; telegram := []; slack := []; sheet := [];
     sheets_initialized := false; log := []; net := []; posts := 0; ticks := 0;
     responses := [] |}.

(** Appending entries to the log. *)
Definition logged (entries : list (Level * string)) (w : World) : World :=
  set_log (fun old => old ++ entries) w.

(** One more request sent, and one more reply consumed. *)
Definition posted (r : ChatRequest) (w : World) : World :=
  set_net (fun t => t ++ [Post r]) S w.

(** A wait of [ms] milliseconds. *)
Definition waited (ms : Z) (w : World) : World :=
  set_net (fun t => t ++ [Wait ms]) id w.

(** The requests and waits [events] sent, and [n] replies consumed. *)
Definition neted (events : list NetEvent) (n : nat) (w : World) : World :=
  set_net (fun t => t ++ events) (Nat.add n) w.

(** The HTTP acknowledgement [handleInteraction] starts with. *)
Definition acknowledged (w : World) : World :=
  set_responses (fun rs => rs ++ [(200, EmptyString)]) w.

(** The world whose collection holds [r] and nothing else. *)
Definition world_with (r : Question) : World :=
  set_questions (insert (_id r) r) empty_world.

(** ** The fallback response *)

(** [q] contains [kw] up to the case of its letters ([kw] in lower case). *)
Definition contains_ci (q kw : string) : Prop :=
  exists pre mid post, q = pre +:+ mid +:+ post /\ toLowerCase mid = kw.

(** The keywords of the three fallback buckets. *)
Definition mathematics_keywords : list string := ["math"; "formula"; "equation"; "calculate"].
Definition physics_keywords : list string := ["physics"; "force"; "energy"; "motion"].
Definition chemistry_keywords : list string := ["chemistry"; "reaction"; "molecule"].

(** [q] contains one of the keywords [kws], in any case. *)
Definition mentions (q : string) (kws : list string) : Prop :=
  exists kw, In kw kws /\ contains_ci q kw.

(** The four fallback strings. *)
Definition fallback_strings : list string :=
  [DeepseekService.fallback_mathematics; DeepseekService.fallback_physics;
   DeepseekService.fallback_chemistry; DeepseekService.fallback_generic].

(** ** Replies of the API *)

(** What a reply of the API gives the primary request: the content of the
    first choice when the reply resolves with one and that content is a
    string, nothing otherwise. *)
Definition reply_content (r : AxiosReply) : option string :=
  match r with
  | Resolves (Some (Some content :: _)) => Some content
  | _ => None
  end.

(** What a reply gives the simplified request: the content of the first
    choice, a string or [null], when the reply resolves with a choice. *)
Definition simplified_content (r : AxiosReply) : option (option string) :=
  match r with
  | Resolves (Some (content :: _)) => Some content
  | _ => None
  end.

(** A string that was computed, as what [generateAnswer] resolves to,
    which is a string or [null]. *)
Definition as_nullable (c : Completion string) : Completion (option string) :=
  match c with
  | Returns a => Returns (Some a)
  | Throws e => Throws e
  end.

(** The error a primary request without a string content ends in: the
    rejection, the type error at the length of a null content, or the
    service's own complaint about the format; and the same for the
    simplified request, which does not look at the content. *)
Definition primary_error (r : AxiosReply) : JsError :=
  match r with
  | Rejects e => e
  | Resolves (Some (None :: _)) =>
      Error "Cannot read properties of null (reading 'length')"
  | _ => Error "Invalid response format from DeepSeek API"
  end.

Definition simplified_error (r : AxiosReply) : JsError :=
  match r with
  | Rejects e => e
  | _ => Error "Invalid response format from simplified DeepSeek API request"
  end.

(** ** The approval *)

(** A record as [new Question] makes it: pending, not edited, not approved
    by anyone. *)
Definition as_created (r : Question) : Prop :=
  isApproved r = false /\ editedAnswer r = None
  /\ approvedAt r = None /\ approvedBy r = None.

(** In [env], every call to the store, Slack, Telegram and the spreadsheet
    succeeds. *)
Definition all_calls_succeed (env : Env) : Prop :=
  (forall id, db_findById env id = None)
  /\ (forall doc, db_save env doc = None)
  /\ (forall c, slack_api env c = None)
  /\ (forall c, telegram_api env c = None)
  /\ sheets_auth env = None
  /\ (forall row, exists range, sheets_append env row = inr range).

(** The first action of a [block_actions] payload is a click on [button]
    of the card of record [id]. *)
Definition clicks (p : SlackController.BlockActions) (button id : string) : Prop :=
  exists a rest,
    SlackController.actions p = a :: rest
    /\ SlackController.action_id a = button
    /\ SlackController.value a = id.

(** The assignments of the approval, at time [t] by [reviewer]. *)
Definition approve_at (t : Z) (reviewer : string) (r : Question) : Question :=
  QuestionModel.set_approvedBy reviewer
    (QuestionModel.set_approvedAt t (QuestionModel.set_isApproved true r)).

(** The channel of the reviews: [SLACK_CHANNEL_ID], or [testing] when it is
    not set or empty. *)
Definition review_channel (env : Env) : string :=
  match SLACK_CHANNEL_ID env with
  | Some (String c s) => String c s
  | _ => "testing"
  end.

(** The call that rewrites the review card, and the one that delivers a
    text to a student. *)
Definition card_update (env : Env) (ts text : string) : SlackCall :=
  ChatUpdate (review_channel env) ts text
    [SectionMrkdwn "*Approved Answer:*";
     SectionMrkdwn text;
     ContextMrkdwn ":white_check_mark: Approved and sent to student"].

Definition delivery (chatId text : string) : TelegramCall :=
  SendMessage chatId text (Some "HTML").

(** What the approval handlers hand to [saveRecord]. *)
Definition archive_record (r : Question) (edited : option string)
    : GoogleSheetsService.Record_ :=
  {| GoogleSheetsService.rec_accountName := accountName r;
     GoogleSheetsService.rec_question := question r;
     GoogleSheetsService.rec_answer := answer r;
     GoogleSheetsService.rec_editedAnswer := edited |}.

(** The row [saveRecord] appends for a record, read at time [t]. *)
Definition row_of (t : Z) (record : GoogleSheetsService.Record_) : Row :=
  {| row_timestamp := t;
     row_accountName := GoogleSheetsService.rec_accountName record;
     row_question := GoogleSheetsService.rec_question record;
     row_answer := GoogleSheetsService.rec_answer record;
     row_editedAnswer :=
       or_string (GoogleSheetsService.rec_editedAnswer record)
         (GoogleSheetsService.rec_answer record) |}.

(** ** The invariants of the Question collection *)

(** [editedAnswer] is set only on an approved record; [approvedAt] and
    [approvedBy] are set exactly on the approved records. *)
Definition approval_invariant (r : Question) : Prop :=
  (editedAnswer r <> None -> isApproved r = true)
  /\ (approvedAt r <> None <-> isApproved r = true)
  /\ (approvedBy r <> None <-> isApproved r = true).

Definition record_invariant (r : Question) : Prop :=
  approval_invariant r /\ (createdAt r <= updatedAt r)%Z.

(** The clock never runs backwards. *)
Definition monotone_clock (clk : nat -> Z) : Prop :=
  forall i j, (i <= j)%nat -> (clk i <= clk j)%Z.

(** Every stored record is stored under its [_id], satisfies the record
    invariants, and was created before any reading of the clock still to
    come. *)
Definition store_invariant (clk : nat -> Z) (w : World) : Prop :=
  forall id r,
    questions w !! id = Some r ->
    _id r = id /\ record_invariant r
    /\ forall n, (ticks w <= n)%nat -> (createdAt r <= clk n)%Z.

(** A computation that leaves the collection alone and only reads the
    clock forward. *)
Definition touches_no_record {A} (m : Async A) : Prop :=
  forall w, questions (exec m w) = questions w /\ (ticks w <= ticks (exec m w))%nat.

(** A property of the world that such computations keep. *)
Definition steady (P : World -> Prop) : Prop :=
  forall w w',
    P w -> questions w' = questions w -> (ticks w <= ticks w')%nat -> P w'.

(** From a world in [P], the computation returns a value and a world in [Q],
    or throws in a world in [E]. *)
Definition triple {A} (P : World -> Prop) (m : Async A)
    (Q : A -> World -> Prop) (E : World -> Prop) : Prop :=
  forall w, P w ->
    match m w with
    | (Returns a, w') => Q a w'
    | (Throws _, w') => E w'
    end.

(** ** Sample data *)

(** An environment in which every call succeeds, the clock shows the
    number of its readings, and the API replies as [api] says. *)
Definition sample_env (api : nat -> ChatRequest -> AxiosReply) : Env :=
  {| clock := fun n => Z.of_nat n;
     DEEPSEEK_API_KEY := "sk-0000";
     SLACK_CHANNEL_ID := None;
     axios_post := api;
     db_findById := fun _ => None;
     db_save := fun _ => None;
     slack_api := fun _ => None;
     telegram_api := fun _ => None;
     sheets_auth := None;
     sheets_append := fun _ => inr "Sheet1!A2:E2";
     new_ObjectId := "65f000000000000000000001";
     TELEGRAM_BOT_TOKEN := "0000:token";
     app_dir := "/app";
     bot_getFile := fun _ => inr "photos/file_1.jpg";
     http_get := fun _ => None;
     write_stream := fun _ => None;
     fs_existsSync := fun _ => true;
     fs_mkdirSync := fun _ => None;
     fs_copyFileSync := fun _ _ => None;
     fs_unlinkSync := fun _ => None |}.

(** The API is down. *)
Definition api_down : nat -> ChatRequest -> AxiosReply :=
  fun _ _ => Rejects (Error "connect ECONNREFUSED").

(** An environment in which Slack is unreachable and every other call
    succeeds. *)
Definition slack_down_env : Env :=
  {| clock := fun n => Z.of_nat n;
     DEEPSEEK_API_KEY := "sk-0000";
     SLACK_CHANNEL_ID := None;
     axios_post := api_down;
     db_findById := fun _ => None;
     db_save := fun _ => None;
     slack_api := fun _ => Some (Error "An API error occurred: channel_not_found");
     telegram_api := fun _ => None;
     sheets_auth := None;
     sheets_append := fun _ => inr "Sheet1!A2:E2";
     new_ObjectId := "65f000000000000000000001";
     TELEGRAM_BOT_TOKEN := "0000:token";
     app_dir := "/app";
     bot_getFile := fun _ => inr "photos/file_1.jpg";
     http_get := fun _ => None;
     write_stream := fun _ => None;
     fs_existsSync := fun _ => true;
     fs_mkdirSync := fun _ => None;
     fs_copyFileSync := fun _ _ => None;
     fs_unlinkSync := fun _ => None |}.

(** A pending record, as the Telegram controller stores it. *)
Definition sample_question : Question :=
  {| _id := "65f000000000000000000001";
     accountId := "4242"; accountName := "Asha";
     question := "Solve the following equation: 2x + 5 = 13";
     answer := "x = 4";
     editedAnswer := None; isApproved := false; isFromImage := false;
     imageUrl := None; createdAt := 0; updatedAt := 0;
     approvedAt := None; approvedBy := None |}.

(** The click on the Approve button of the card of record [id], by
    [reviewer]. *)
Definition approve_actions (id reviewer ts channel trigger : string)
    : SlackController.BlockActions :=
  {| SlackController.actions :=
       [{| SlackController.action_id := "approve_button";
           SlackController.value := id |}];
     SlackController.user_id := reviewer;
     SlackController.message_ts_ := ts;
     SlackController.channel_id_ := channel;
     SlackController.trigger_id_ := trigger |}.

Definition approve_click (id reviewer ts channel trigger : string)
    : SlackController.Payload :=
  SlackController.block_actions (approve_actions id reviewer ts channel trigger).

(** The click on Approve for the sample record. *)
Definition sample_actions : SlackController.BlockActions :=
  approve_actions "65f000000000000000000001" "U07TEACHER"
    "1711111111.000100" "C0REVIEW" "trigger-1".

Definition sample_click : SlackController.Payload :=
  SlackController.block_actions sample_actions.

(** The submission of the edit form for record [id] with [text]. *)
Definition edit_submission (id reviewer channel ts text : string)
    : SlackController.ViewSubmission :=
  {| SlackController.submitter_id := reviewer;
     SlackController.metadata :=
       {| channel_id := channel; message_ts := ts; data_key := id |};
     SlackController.response_text := text |}.

(** A text message and a photo message from a student. *)
Definition sample_text_message : TelegramController.Message :=
  {| TelegramController.chat_id := 4242; TelegramController.from_id := 4242;
     TelegramController.first_name := "Asha";
     TelegramController.text := Some "What is 2+2?";
     TelegramController.photo := [] |}.

Definition sample_photo_message : TelegramController.Message :=
  {| TelegramController.chat_id := 4242; TelegramController.from_id := 4242;
     TelegramController.first_name := "Asha";
     TelegramController.text := None;
     TelegramController.photo :=
       [{| TelegramController.file_id := "AgACAgQ-small" |};
        {| TelegramController.file_id := "AgACAgQ-large" |}] |}.

(** The world after a student's text question, with the API down, and
    the record that question left in the collection. *)
Definition world_after_question : World :=
  exec (TelegramController.processMessage (sample_env api_down) sample_text_message)
    empty_world.

Definition created_question : Question :=
  {| _id := "65f000000000000000000001";
     accountId := "4242"; accountName := "Asha";
     question := "What is 2+2?";
     answer := DeepseekService.fallback_generic;
     editedAnswer := None; isApproved := false; isFromImage := false;
     imageUrl := None; createdAt := 0; updatedAt := 2;
     approvedAt := None; approvedBy := None |}.

(** ** Further vocabulary: the Telegram flows *)

(** Every character of [s] satisfies [p]. *)
Fixpoint all_chars (p : ascii -> bool) (s : string) : bool :=
  match s with
  | EmptyString => true
  | String c s' => p c && all_chars p s'
  end.

(** The characters of a printed integer: the digits and the sign. *)
Definition decimal_char (c : ascii) : bool :=
  let n := nat_of_ascii c in
  ((48 <=? n) && (n <=? 57) || (n =? 45))%nat.

(** In [env], every call to the Telegram bot succeeds. *)
Definition telegram_accepts (env : Env) : Prop :=
  forall c, telegram_api env c = None.

(** The API never resolves with a null or an empty content. *)
Definition contents_nonempty (env : Env) : Prop :=
  forall n r content,
    simplified_content (axios_post env n r) = Some content ->
    exists answer, content = Some answer /\ answer <> EmptyString.

(** The record [processTextMessage] and [processPhotoMessage] store for a
    question read at [created] and saved at [saved]. *)
Definition pending_record (env : Env) (userId : Z)
    (firstName questionText answerText : string)
    (fromImage : bool) (image : option string) (created saved : Z) : Question :=
  {| _id := new_ObjectId env;
     accountId := pretty userId; accountName := firstName;
     question := questionText; answer := answerText;
     editedAnswer := None; isApproved := false; isFromImage := fromImage;
     imageUrl := image; createdAt := created; updatedAt := saved;
     approvedAt := None; approvedBy := None |}.

(** The review card of a question, posted in the channel of the reviews:
    a context line with the student and the source, the question and the
    answer in bold, separated by a divider, and the two buttons, Approve and
    Edit, both with [recordId] as their value; the notification text quotes
    the first fifty UTF-16 units of the question.  The answer is what the
    generator returned, a string or [null]. *)
Definition review_card (env : Env) (questionText : string) (answer : option string)
    (recordId studentName : string) (fromImage : bool) : SlackCall :=
  ChatPostMessage (review_channel env)
    [ContextMrkdwn ("*From:* " +:+ studentName +:+ " | *Source:* "
                    +:+ (if fromImage then "Image" else "Text"));
     RichTextBold (Some questionText);
     Divider;
     RichTextBold answer;
     Actions "approval_buttons"
       [{| button_text := "Approve"; button_style := "primary";
           button_value := recordId; button_action_id := "approve_button" |};
        {| button_text := "Edit"; button_style := "danger";
           button_value := recordId; button_action_id := "edited_button" |}]]
    ("New question from " +:+ studentName +:+ ": "
     +:+ substring0 50 questionText +:+ "...").

(** The messages the Telegram controller sends to a chat. *)
Definition typing (chatId : Z) : TelegramCall := SendChatAction (pretty chatId) "typing".

Definition reply (chatId : Z) (text : string) : TelegramCall :=
  SendMessage (pretty chatId) text None.

Definition text_acknowledgement : string :=
  "I've received your question and am working on it. A teacher will review the answer shortly.".

Definition text_apology : string :=
  "Sorry, there was an error processing your question. Please try again later.".

Definition photo_acknowledgement : string :=
  "I've received your image and am processing it. A teacher will review the answer shortly.".

Definition photo_apology : string :=
  "Sorry, there was an error processing your image. Please try again later.".

Definition unsupported_reply : string :=
  "Sorry, I can only process text or images. Please try again.".


(** [w'] differs from [w] in the collection, the clock and the log at
    most. *)
Definition same_outside_store (w w' : World) : Prop :=
  telegram w' = telegram w /\ slack w' = slack w /\ sheet w' = sheet w
  /\ sheets_initialized w' = sheets_initialized w
  /\ net w' = net w /\ posts w' = posts w /\ responses w' = responses w.


(** The API always has an answer. *)
Definition api_answers (content : string) : nat -> ChatRequest -> AxiosReply :=
  fun _ _ => Resolves (Some [Some content]).

(** An environment in which the store refuses every document and every
    other call succeeds. *)
Definition store_down_env : Env :=
  {| clock := fun n => Z.of_nat n;
     DEEPSEEK_API_KEY := "sk-0000";
     SLACK_CHANNEL_ID := None;
     axios_post := api_answers "2 + 2 = 4";
     db_findById := fun _ => None;
     db_save := fun _ => Some (Error "MongoNetworkError: connection closed");
     slack_api := fun _ => None;
     telegram_api := fun _ => None;
     sheets_auth := None;
     sheets_append := fun _ => inr "Sheet1!A2:E2";
     new_ObjectId := "65f000000000000000000001";
     TELEGRAM_BOT_TOKEN := "0000:token";
     app_dir := "/app";
     bot_getFile := fun _ => inr "photos/file_1.jpg";
     http_get := fun _ => None;
     write_stream := fun _ => None;
     fs_existsSync := fun _ => true;
     fs_mkdirSync := fun _ => None;
     fs_copyFileSync := fun _ _ => None;
     fs_unlinkSync := fun _ => None |}.

(** An environment in which Telegram refuses the typing indicator and
    accepts messages, and every other call succeeds. *)
Definition typing_refused_env : Env :=
  {| clock := fun n => Z.of_nat n;
     DEEPSEEK_API_KEY := "sk-0000";
     SLACK_CHANNEL_ID := None;
     axios_post := api_answers "2 + 2 = 4";
     db_findById := fun _ => None;
     db_save := fun _ => None;
     slack_api := fun _ => None;
     telegram_api := fun c =>
       match c with
       | SendChatAction _ _ => Some (Error "ETELEGRAM: 429 Too Many Requests")
       | SendMessage _ _ _ => None
       end;
     sheets_auth := None;
     sheets_append := fun _ => inr "Sheet1!A2:E2";
     new_ObjectId := "65f000000000000000000001";
     TELEGRAM_BOT_TOKEN := "0000:token";
     app_dir := "/app";
     bot_getFile := fun _ => inr "photos/file_1.jpg";
     http_get := fun _ => None;
     write_stream := fun _ => None;
     fs_existsSync := fun _ => true;
     fs_mkdirSync := fun _ => None;
     fs_copyFileSync := fun _ _ => None;
     fs_unlinkSync := fun _ => None |}.

(** A sticker: a message with neither text nor photo. *)
Definition sample_sticker_message : TelegramController.Message :=
  {| TelegramController.chat_id := 4242; TelegramController.from_id := 4242;
     TelegramController.first_name := "Asha";
     TelegramController.text := None;
     TelegramController.photo := [] |}.


(** ** Further vocabulary: the photo flow *)

(** The URL [getPhotoUrl] builds for a file path, and the path
    [downloadPhoto] writes to at time [t]. *)
Definition photo_url (env : Env) (file_path : string) : string :=
  "https://api.telegram.org/file/bot" +:+ TELEGRAM_BOT_TOKEN env +:+ "/" +:+ file_path.

Definition temp_path (env : Env) (t : Z) : string :=
  path_join (path_join (app_dir env) "temp") (pretty t +:+ ".jpg").

(** The canned questions of the mock extractor, and what it returns when
    it fails. *)
Definition derivative_question : string :=
  "Find the derivative of f(x) = 3x² + 2x - 5 with respect to x.".

Definition circle_question : string :=
  "If a circle has a radius of 5 cm, calculate its area and circumference.".

Definition equation_question : string := "Solve the following equation: 2x + 5 = 13".

Definition extraction_fallback : string :=
  "This appears to be an image with a question. A teacher will review it shortly.".

(** In [env], downloads and file operations succeed. *)
Definition files_ok (env : Env) : Prop :=
  (forall u, http_get env u = None)
  /\ (forall d, fs_mkdirSync env d = None)
  /\ (forall p, write_stream env p = None)
  /\ (forall a b, fs_copyFileSync env a b = None).

(** The debug copy [extractTextFromImage] makes of [imagePath] succeeds. *)
Definition debug_copy_ok (env : Env) (imagePath : string) : bool :=
  let debugDir := path_join (app_dir env) "debug" in
  (fs_existsSync env debugDir || bool_decide (fs_mkdirSync env debugDir = None))
  && bool_decide
       (fs_copyFileSync env imagePath
          (path_join debugDir ("debug-" +:+ basename imagePath)) = None).

(** An environment in which Telegram has no file for the photo. *)
Definition no_file_env : Env :=
  {| clock := fun n => Z.of_nat n;
     DEEPSEEK_API_KEY := "sk-0000";
     SLACK_CHANNEL_ID := None;
     axios_post := api_answers "f'(x) = 6x + 2";
     db_findById := fun _ => None;
     db_save := fun _ => None;
     slack_api := fun _ => None;
     telegram_api := fun _ => None;
     sheets_auth := None;
     sheets_append := fun _ => inr "Sheet1!A2:E2";
     new_ObjectId := "65f000000000000000000001";
     TELEGRAM_BOT_TOKEN := "0000:token";
     app_dir := "/app";
     bot_getFile := fun _ => inl (Error "ETELEGRAM: 400 Bad Request: invalid file_id");
     http_get := fun _ => None;
     write_stream := fun _ => None;
     fs_existsSync := fun _ => true;
     fs_mkdirSync := fun _ => None;
     fs_copyFileSync := fun _ _ => None;
     fs_unlinkSync := fun _ => None |}.


(** ** Further vocabulary: the review in Slack *)

(** The computation leaves the part [f] of the world as it is. *)
Definition keeps {A B} (f : World -> B) (m : Async A) : Prop :=
  forall w, f (exec m w) = f w.

(** The metadata of the edit form a click [p] on the card of [r] opens: the
    channel and the timestamp of the card, and the [_id] of the record. *)
Definition edit_metadata (p : SlackController.BlockActions) (r : Question) : Metadata :=
  {| channel_id := SlackController.channel_id_ p;
     message_ts := SlackController.message_ts_ p;
     data_key := _id r |}.

(** The call that opens the edit form on a click [p] on the card of [r]: a
    modal with the trigger of the click, which shows the question of the
    record and has one text input, filled with the original answer. *)
Definition edit_modal (p : SlackController.BlockActions) (r : Question) : SlackCall :=
  ViewsOpen (SlackController.trigger_id_ p)
    {| callback_id := "edit_response_modal";
       title := "Edit Response";
       submit := "Submit";
       view_blocks :=
         [SectionMrkdwn ("*Original Question:*" +:+ String (ascii_of_nat 10) (question r));
          InputText "edited_response" "response_text" (answer r) "Edit Response"];
       private_metadata := edit_metadata p r |}.

(** The submission by [reviewer] of the form a click [p] on the card of [r]
    opened, with [text] typed in. *)
Definition submission_of (p : SlackController.BlockActions) (r : Question)
    (reviewer text : string) : SlackController.ViewSubmission :=
  {| SlackController.submitter_id := reviewer;
     SlackController.metadata := edit_metadata p r;
     SlackController.response_text := text |}.

(** The record a payload names: the value of the first button clicked, or
    the [data_key] of the form's metadata. *)
Definition named_record (payload : SlackController.Payload) : option string :=
  match payload with
  | SlackController.block_actions p =>
      match SlackController.actions p with
      | a :: _ => Some (SlackController.value a)
      | [] => None
      end
  | SlackController.view_submission v => Some (data_key (SlackController.metadata v))
  | SlackController.other _ => None
  end.

(** Every record is stored under its [_id]. *)
Definition keyed_by_id (w : World) : Prop :=
  forall id r, questions w !! id = Some r -> _id r = id.

(** The clicks on Edit and on a button the controller does not know. *)
Definition button_click (button id reviewer ts channel trigger : string)
    : SlackController.BlockActions :=
  {| SlackController.actions :=
       [{| SlackController.action_id := button; SlackController.value := id |}];
     SlackController.user_id := reviewer;
     SlackController.message_ts_ := ts;
     SlackController.channel_id_ := channel;
     SlackController.trigger_id_ := trigger |}.

Definition sample_edit_click : SlackController.BlockActions :=
  button_click "edited_button" "65f000000000000000000001" "U07TEACHER"
    "1711111111.000100" "C0REVIEW" "trigger-1".

Definition sample_unknown_click : SlackController.BlockActions :=
  button_click "reject_button" "65f000000000000000000001" "U07TEACHER"
    "1711111111.000100" "C0REVIEW" "trigger-1".


(** The collection holds [o] under [id]. *)
Definition record_kept (id : string) (o : option Question) (w : World) : Prop :=
  questions w !! id = o.


(** A second record, of another student, and the collection that holds it
    beside the sample record. *)
Definition other_question : Question :=
  {| _id := "65f000000000000000000002";
     accountId := "5151"; accountName := "Ravi";
     question := "What is the unit of force?";
     answer := "The newton.";
     editedAnswer := None; isApproved := false; isFromImage := false;
     imageUrl := None; createdAt := 0; updatedAt := 0;
     approvedAt := None; approvedBy := None |}.

Definition two_questions : World :=
  set_questions (insert (_id other_question) other_question) (world_with sample_question).


(** ** Further vocabulary: the spreadsheet *)

(** The spreadsheet accepts every row. *)
Definition sheet_accepts (env : Env) : Prop :=
  forall row, exists range, sheets_append env row = inr range.

(** An environment in which the credentials of the spreadsheet are
    refused, and every other call succeeds. *)
Definition no_credentials_env : Env :=
  {| clock := fun n => Z.of_nat n;
     DEEPSEEK_API_KEY := "sk-0000";
     SLACK_CHANNEL_ID := None;
     axios_post := api_down;
     db_findById := fun _ => None;
     db_save := fun _ => None;
     slack_api := fun _ => None;
     telegram_api := fun _ => None;
     sheets_auth := Some (Error "ENOENT: no such file, open '/etc/secrets/google-credentials.json'");
     sheets_append := fun _ => inr "Sheet1!A2:E2";
     new_ObjectId := "65f000000000000000000001";
     TELEGRAM_BOT_TOKEN := "0000:token";
     app_dir := "/app";
     bot_getFile := fun _ => inr "photos/file_1.jpg";
     http_get := fun _ => None;
     write_stream := fun _ => None;
     fs_existsSync := fun _ => true;
     fs_mkdirSync := fun _ => None;
     fs_copyFileSync := fun _ _ => None;
     fs_unlinkSync := fun _ => None |}.

(** A sheet with a header row and two rows, the second of them short. *)
Definition sample_header : list string :=
  ["timestamp"; "accountName"; "question"; "answer"; "editedAnswer"].

Definition sample_rows : list (list string) :=
  [["2024-03-12T10:00:00.000Z"; "Asha"; "What is 2+2?"; "4"; "4"];
   ["2024-03-12T11:00:00.000Z"; "Ravi"; "What is the unit of force?"]].


(** ** Further vocabulary: what a student is sent before the review *)

Definition message_apology : string :=
  "Sorry, there was an error processing your message. Please try again later.".

(** The fixed texts of the Telegram controller. *)
Definition canned_texts : list string :=
  [text_acknowledgement; text_apology; photo_acknowledgement; photo_apology;
   unsupported_reply; message_apology].

(** A call that shows the typing indicator in chat [chatId] or sends it one
    of the fixed texts. *)
Definition canned (chatId : Z) (c : TelegramCall) : Prop :=
  c = typing chatId \/ exists text, c = reply chatId text /\ In text canned_texts.

(** Since the calls [before], Telegram has got such calls only. *)
Definition only_canned (chatId : Z) (before : list TelegramCall) (w : World) : Prop :=
  exists sent, telegram w = before ++ sent /\ Forall (canned chatId) sent.


(** * Properties *)

(** ** Reasoning about computations *)

Lemma run_ret {A} (a : A) (w : World) : (mret a : Async A) w = (Returns a, w).
Proof. reflexivity. Qed.

Lemma run_bind {A B} (m : Async A) (k : A -> Async B) (w : World) :
  (m ≫= k) w =
  match m w with
  | (Returns a, w') => k a w'
  | (Throws e, w') => (Throws e, w')
  end.
Proof. reflexivity. Qed.

Lemma run_try_catch {A} (m : Async A) (h : JsError -> Async A) (w : World) :
  try_catch m h w =
  match m w with
  | (Returns a, w') => (Returns a, w')
  | (Throws e, w') => h e w'
  end.
Proof. reflexivity. Qed.

(** ** Strings *)

Lemma append_String (c : ascii) (a b : string) :
  String c a +:+ b = String c (a +:+ b).
Proof. reflexivity. Qed.

Lemma append_Empty (b : string) : EmptyString +:+ b = b.
Proof. reflexivity. Qed.

Lemma toLowerCase_app (a b : string) :
  toLowerCase (a +:+ b) = toLowerCase a +:+ toLowerCase b.
Proof.
  induction a as [|c a IH]; [reflexivity|].
  rewrite append_String. simpl. now rewrite IH, append_String.
Qed.

Lemma prefix_app (sub s : string) :
  String.prefix sub s = true <-> exists post, s = sub +:+ post.
Proof.
  revert s. induction sub as [|c sub IH]; intros s.
  - split; [intros _; exists s; reflexivity | destruct s; reflexivity].
  - setoid_rewrite append_String. destruct s as [|d s]; simpl.
    + split; [discriminate | intros [post H]; discriminate].
    + destruct (ascii_dec c d) as [->|Hne].
      * rewrite IH. split; intros [post H]; exists post; congruence.
      * split; [discriminate | intros [post H]; congruence].
Qed.

Lemma includes_app (s sub : string) :
  includes s sub = true <-> exists pre post, s = pre +:+ sub +:+ post.
Proof.
  induction s as [|c s IH].
  - change (includes EmptyString sub) with (String.prefix sub EmptyString || false).
    rewrite orb_false_r, prefix_app. split.
    + intros [post H]. exists EmptyString, post. exact H.
    + intros [pre [post H]]. destruct pre; [exists post; exact H|discriminate].
  - change (includes (String c s) sub)
      with (String.prefix sub (String c s) || includes s sub).
    rewrite orb_true_iff, prefix_app, IH. split.
    + intros [[post H]|[pre [post H]]].
      * exists EmptyString, post. exact H.
      * exists (String c pre), post. now rewrite append_String, H.
    + intros [pre [post H]]. destruct pre as [|d pre].
      * left. exists post. exact H.
      * right. exists pre, post. rewrite append_String in H. congruence.
Qed.

(** Splitting a lower-cased string splits the string. *)
Lemma toLowerCase_split (s a b : string) :
  toLowerCase s = a +:+ b ->
  exists s1 s2, s = s1 +:+ s2 /\ toLowerCase s1 = a /\ toLowerCase s2 = b.
Proof.
  revert s. induction a as [|c a IH]; intros s H.
  - exists EmptyString, s. auto.
  - destruct s as [|d s]; [discriminate|].
    rewrite append_String in H. simpl in H. injection H as Hc Ha.
    destruct (IH s Ha) as (s1 & s2 & -> & H1 & H2).
    exists (String d s1), s2. simpl. now rewrite H1, Hc.
Qed.

Lemma includes_toLowerCase (q kw : string) :
  includes (toLowerCase q) kw = true <-> contains_ci q kw.
Proof.
  rewrite includes_app. unfold contains_ci. split.
  - intros (pre & post & H).
    apply toLowerCase_split in H as (s1 & s2 & -> & H1 & H2).
    apply toLowerCase_split in H2 as (s3 & s4 & -> & H3 & H4).
    exists s1, s3, s4. auto.
  - intros (pre & mid & post & -> & H).
    exists (toLowerCase pre), (toLowerCase post).
    now rewrite !toLowerCase_app, H.
Qed.

Lemma includes_toLowerCase_false (q kw : string) :
  includes (toLowerCase q) kw = false <-> ~ contains_ci q kw.
Proof. rewrite <- includes_toLowerCase. destruct (includes _ _); split; congruence. Qed.

(** ** The fallback response *)

Lemma mentions_mathematics (q : string) :
  mentions q mathematics_keywords <->
  includes (toLowerCase q) "math" || includes (toLowerCase q) "formula"
  || includes (toLowerCase q) "equation" || includes (toLowerCase q) "calculate" = true.
Proof.
  rewrite !orb_true_iff, !includes_toLowerCase. unfold mentions. simpl. split.
  - intros (kw & [<-|[<-|[<-|[<-|[]]]]] & H); tauto.
  - intros [[[H|H]|H]|H]; eexists; (split; [|exact H]); tauto.
Qed.

Lemma mentions_physics (q : string) :
  mentions q physics_keywords <->
  includes (toLowerCase q) "physics" || includes (toLowerCase q) "force"
  || includes (toLowerCase q) "energy" || includes (toLowerCase q) "motion" = true.
Proof.
  rewrite !orb_true_iff, !includes_toLowerCase. unfold mentions. simpl. split.
  - intros (kw & [<-|[<-|[<-|[<-|[]]]]] & H); tauto.
  - intros [[[H|H]|H]|H]; eexists; (split; [|exact H]); tauto.
Qed.

Lemma mentions_chemistry (q : string) :
  mentions q chemistry_keywords <->
  includes (toLowerCase q) "chemistry" || includes (toLowerCase q) "reaction"
  || includes (toLowerCase q) "molecule" = true.
Proof.
  rewrite !orb_true_iff, !includes_toLowerCase. unfold mentions. simpl. split.
  - intros (kw & [<-|[<-|[<-|[]]]] & H); tauto.
  - intros [[H|H]|H]; eexists; (split; [|exact H]); tauto.
Qed.

Lemma not_true_false (b : bool) : b <> true <-> b = false.
Proof. destruct b; split; congruence. Qed.

(** The fallback response is decided by the three tests alone. *)
Lemma _getFallbackResponse_completion (question : string) (w : World) :
  completion (DeepseekService._getFallbackResponse question) w =
  Returns
    (let q := toLowerCase question in
     if includes q "math" || includes q "formula"
        || includes q "equation" || includes q "calculate"
     then DeepseekService.fallback_mathematics
     else if includes q "physics" || includes q "force"
             || includes q "energy" || includes q "motion"
     then DeepseekService.fallback_physics
     else if includes q "chemistry" || includes q "reaction" || includes q "molecule"
     then DeepseekService.fallback_chemistry
     else DeepseekService.fallback_generic).
Proof.
  unfold completion, DeepseekService._getFallbackResponse.
  rewrite run_bind. cbv zeta.
  unfold logger.info, logger.write, modify.
  repeat match goal with |- context [if ?c then _ else _] => destruct c end;
    reflexivity.
Qed.

(** The fallback response only adds a line to the log. *)
Lemma _getFallbackResponse_exec (question : string) (w : World) :
  exec (DeepseekService._getFallbackResponse question) w =
  logged [(info, "Generating fallback response for: "
                 +:+ substring0 30 question +:+ "...")] w.
Proof.
  unfold exec, DeepseekService._getFallbackResponse.
  rewrite run_bind. cbv zeta.
  unfold logger.info, logger.write, modify.
  repeat match goal with |- context [if ?c then _ else _] => destruct c end;
    reflexivity.
Qed.

(** C6: a question that contains "equation" in any case, and no physics or
    chemistry keyword, gets the mathematics fallback; a question that
    contains no keyword of any bucket gets the generic fallback. *)
Theorem fallback_keyword_routing (question : string) (w : World) :
  (contains_ci question "equation" ->
   ~ mentions question physics_keywords ->
   ~ mentions question chemistry_keywords ->
   completion (DeepseekService._getFallbackResponse question) w
   = Returns DeepseekService.fallback_mathematics)
  /\
  (~ mentions question mathematics_keywords ->
   ~ mentions question physics_keywords ->
   ~ mentions question chemistry_keywords ->
   completion (DeepseekService._getFallbackResponse question) w
   = Returns DeepseekService.fallback_generic).
Proof.
  rewrite _getFallbackResponse_completion. cbv zeta. split.
  - intros H _ _. apply includes_toLowerCase in H.
    now rewrite H, !orb_true_r.
  - rewrite mentions_mathematics, mentions_physics, mentions_chemistry.
    rewrite !not_true_false. intros -> -> ->. reflexivity.
Qed.

Lemma fallback_keyword_routing_witness :
  completion (DeepseekService._getFallbackResponse
                "Solve the following EQUATION: 2x + 5 = 13") empty_world
  = Returns DeepseekService.fallback_mathematics
  /\ completion (DeepseekService._getFallbackResponse "What is 2+2?") empty_world
     = Returns DeepseekService.fallback_generic.
Proof.
  split.
  - apply (proj1 (fallback_keyword_routing _ _)).
    + exists "Solve the following ", "EQUATION", ": 2x + 5 = 13".
      split; reflexivity.
    + rewrite mentions_physics. vm_compute. discriminate.
    + rewrite mentions_chemistry. vm_compute. discriminate.
  - apply (proj2 (fallback_keyword_routing _ _)).
    + rewrite mentions_mathematics. vm_compute. discriminate.
    + rewrite mentions_physics. vm_compute. discriminate.
    + rewrite mentions_chemistry. vm_compute. discriminate.
Defined.

(** C10: the buckets are tried in the order mathematics, physics,
    chemistry, generic: a mathematics keyword wins whatever else the
    question contains, a physics keyword wins over chemistry, and the
    generic string is what is left. *)
Theorem fallback_bucket_priority (question : string) (w : World) :
  (mentions question mathematics_keywords ->
   completion (DeepseekService._getFallbackResponse question) w
   = Returns DeepseekService.fallback_mathematics)
  /\
  (~ mentions question mathematics_keywords ->
   mentions question physics_keywords ->
   completion (DeepseekService._getFallbackResponse question) w
   = Returns DeepseekService.fallback_physics)
  /\
  (~ mentions question mathematics_keywords ->
   ~ mentions question physics_keywords ->
   mentions question chemistry_keywords ->
   completion (DeepseekService._getFallbackResponse question) w
   = Returns DeepseekService.fallback_chemistry)
  /\
  (~ mentions question mathematics_keywords ->
   ~ mentions question physics_keywords ->
   ~ mentions question chemistry_keywords ->
   completion (DeepseekService._getFallbackResponse question) w
   = Returns DeepseekService.fallback_generic).
Proof.
  rewrite _getFallbackResponse_completion. cbv zeta.
  rewrite mentions_mathematics, mentions_physics, mentions_chemistry.
  rewrite !not_true_false.
  split; [|split; [|split]].
  - intros ->. reflexivity.
  - intros -> ->. reflexivity.
  - intros -> -> ->. reflexivity.
  - intros -> -> ->. reflexivity.
Qed.

Lemma fallback_bucket_priority_witness :
  completion (DeepseekService._getFallbackResponse
                "Which equation gives the force in physics?") empty_world
  = Returns DeepseekService.fallback_mathematics
  /\ completion (DeepseekService._getFallbackResponse
                   "What force drives a chemical reaction?") empty_world
     = Returns DeepseekService.fallback_physics
  /\ completion (DeepseekService._getFallbackResponse
                   "How big is a water Molecule?") empty_world
     = Returns DeepseekService.fallback_chemistry
  /\ completion (DeepseekService._getFallbackResponse "Who was Newton?") empty_world
     = Returns DeepseekService.fallback_generic.
Proof.
  split; [|split; [|split]].
  - apply (proj1 (fallback_bucket_priority _ _)).
    rewrite mentions_mathematics. vm_compute. reflexivity.
  - apply (proj1 (proj2 (fallback_bucket_priority _ _))).
    + rewrite mentions_mathematics. vm_compute. discriminate.
    + rewrite mentions_physics. vm_compute. reflexivity.
  - apply (proj1 (proj2 (proj2 (fallback_bucket_priority _ _)))).
    + rewrite mentions_mathematics. vm_compute. discriminate.
    + rewrite mentions_physics. vm_compute. discriminate.
    + rewrite mentions_chemistry. vm_compute. reflexivity.
  - apply (proj2 (proj2 (proj2 (fallback_bucket_priority _ _)))).
    + rewrite mentions_mathematics. vm_compute. discriminate.
    + rewrite mentions_physics. vm_compute. discriminate.
    + rewrite mentions_chemistry. vm_compute. discriminate.
Defined.

(** ** The answer generator *)

Lemma logged_logged (l1 l2 : list (Level * string)) (w : World) :
  logged l2 (logged l1 w) = logged (l1 ++ l2) w.
Proof. unfold logged, set_log. simpl. now rewrite app_assoc. Qed.

Lemma logged_nil (w : World) : logged [] w = w.
Proof. destruct w. unfold logged, set_log. simpl. now rewrite app_nil_r. Qed.

Lemma run_log (l : Level) (msg : string) (w : World) :
  logger.write l msg w = (Returns tt, logged [(l, msg)] w).
Proof. reflexivity. Qed.

Lemma run_throw {A} (e : JsError) (w : World) : throw (A:=A) e w = (Throws e, w).
Proof. reflexivity. Qed.

Lemma run_post (env : Env) (r : ChatRequest) (w : World) :
  DeepseekService.post env r w =
  (match axios_post env (posts w) r with
   | Rejects e => Throws e
   | Resolves choices => Returns choices
   end, posted r w).
Proof. unfold DeepseekService.post. now destruct (axios_post env (posts w) r). Qed.

Lemma run_sleep (ms : Z) (w : World) :
  DeepseekService.sleep ms w = (Returns tt, waited ms w).
Proof. reflexivity. Qed.

(** Symbolic execution of a computation, one construct at a time. *)
Ltac run :=
  unfold logger.info, logger.warn, logger.error;
  repeat (progress (rewrite ?run_bind, ?run_try_catch, ?run_ret, ?run_log,
                      ?run_throw, ?run_post, ?run_sleep;
                    cbv beta iota zeta)).

Lemma _makeRequest_run (env : Env) (question : string) (w : World) :
  exists l1 l2,
    DeepseekService._makeRequest env question w =
    (match reply_content
             (axios_post env (posts w) (DeepseekService.primary_request env question)) with
     | Some answer => Returns answer
     | None =>
         Throws (primary_error
                   (axios_post env (posts w)
                      (DeepseekService.primary_request env question)))
     end,
     logged l2 (posted (DeepseekService.primary_request env question) (logged l1 w))).
Proof.
  unfold DeepseekService._makeRequest. eexists. run.
  change (posts (logged _ w)) with (posts w).
  destruct (axios_post env (posts w) _) as [e|[[|[answer|] rest]|]];
    run; cbn [reply_content primary_error].
  - destruct e as [msg [[status data]|] [req|]]; cbn [response request]; run;
      rewrite ?logged_logged; try (eexists; reflexivity).
    exists []. now rewrite logged_nil.
  - exists []. now rewrite logged_nil.
  - eexists. reflexivity.
  - exists []. now rewrite logged_nil.
  - exists []. now rewrite logged_nil.
Qed.

Lemma posted_neted (r : ChatRequest) (w : World) : posted r w = neted [Post r] 1 w.
Proof. reflexivity. Qed.

Lemma waited_neted (ms : Z) (w : World) : waited ms w = neted [Wait ms] 0 w.
Proof. reflexivity. Qed.

Lemma neted_logged (events : list NetEvent) (n : nat) (l : list (Level * string)) (w : World) :
  neted events n (logged l w) = logged l (neted events n w).
Proof. reflexivity. Qed.

Lemma neted_neted (e1 e2 : list NetEvent) (n1 n2 : nat) (w : World) :
  neted e2 n2 (neted e1 n1 w) = neted (e1 ++ e2) (n1 + n2) w.
Proof.
  unfold neted, set_net. simpl. f_equal; [symmetry; apply app_assoc | lia].
Qed.

Create Rewrite HintDb world.
#[local] Hint Rewrite posted_neted waited_neted neted_logged neted_neted logged_logged : world.

Lemma posts_logged_neted (l : list (Level * string)) (events : list NetEvent) (n : nat)
    (w : World) :
  posts (logged l (neted events n w)) = (n + posts w)%nat.
Proof. reflexivity. Qed.

(** One iteration of the loop of [generateAnswer] on a world that has seen
    [events] and [n] replies since [w]. *)
Lemma retry_iteration (env : Env) (question : string) (left retries : nat)
    (l : list (Level * string)) (events : list NetEvent) (n : nat) (w : World) :
  let r := DeepseekService.primary_request env question in
  let pause :=
    if (0 <? retries)%nat
    then [Wait (DeepseekService.retryDelay * Z.of_nat retries)] else [] in
  exists l',
    DeepseekService.retry_loop env question (S left) retries
      (logged l (neted events n w)) =
    match reply_content (axios_post env (n + posts w)%nat r) with
    | Some answer =>
        (Returns (Some answer), logged l' (neted (events ++ pause ++ [Post r]) (n + 1) w))
    | None =>
        DeepseekService.retry_loop env question left (S retries)
          (logged l' (neted (events ++ pause ++ [Post r]) (n + 1) w))
    end.
Proof.
  intros r pause. cbn [DeepseekService.retry_loop]. run.
  destruct (0 <? retries)%nat; run.
  - match goal with |- context [DeepseekService._makeRequest env question ?w1] =>
      destruct (_makeRequest_run env question w1) as (l1 & l2 & ->) end.
    autorewrite with world. rewrite posts_logged_neted, Nat.add_0_r. fold r.
    destruct (reply_content _); run; autorewrite with world;
      rewrite <- ?app_assoc, ?Nat.add_0_r; eexists; reflexivity.
  - match goal with |- context [DeepseekService._makeRequest env question ?w1] =>
      destruct (_makeRequest_run env question w1) as (l1 & l2 & ->) end.
    autorewrite with world. rewrite posts_logged_neted. fold r.
    destruct (reply_content _); run; autorewrite with world;
      rewrite <- ?app_assoc; eexists; reflexivity.
Qed.

Lemma logged_neted_nil (w : World) : logged [] (neted [] 0 w) = w.
Proof.
  destruct w. unfold logged, neted, set_log, set_net. simpl.
  now rewrite !app_nil_r.
Qed.

Lemma _makeSimplifiedRequest_run (env : Env) (question : string)
    (l : list (Level * string)) (events : list NetEvent) (n : nat) (w : World) :
  let r := DeepseekService.simplified_request env question in
  exists l',
    DeepseekService._makeSimplifiedRequest env question (logged l (neted events n w)) =
    (match simplified_content (axios_post env (n + posts w)%nat r) with
     | Some content => Returns content
     | None => Throws (simplified_error (axios_post env (n + posts w)%nat r))
     end,
     logged l' (neted (events ++ [Post r]) (n + 1) w)).
Proof.
  intros r. unfold DeepseekService._makeSimplifiedRequest. run.
  autorewrite with world. rewrite posts_logged_neted. fold r.
  destruct (axios_post env _ r) as [e|[[|content rest]|]];
    run; cbn [simplified_content simplified_error]; eexists; reflexivity.
Qed.

Lemma _getFallbackResponse_run (question : string) (w : World) :
  DeepseekService._getFallbackResponse question w =
  (completion (DeepseekService._getFallbackResponse question) w,
   logged [(info, "Generating fallback response for: "
                  +:+ substring0 30 question +:+ "...")] w).
Proof.
  rewrite <- (_getFallbackResponse_exec question w).
  unfold completion, exec. now destruct (DeepseekService._getFallbackResponse _ _).
Qed.

(** What [generateAnswer] returns and sends, by the replies to its requests:
    the three primary requests are the replies [posts w], [posts w + 1] and
    [posts w + 2], the simplified request is the reply [posts w + 3]. *)
Lemma generateAnswer_run (env : Env) (question : string) (w : World) :
  let P := DeepseekService.primary_request env question in
  let S_ := DeepseekService.simplified_request env question in
  exists l,
    DeepseekService.generateAnswer env question w =
    match reply_content (axios_post env (posts w) P),
          reply_content (axios_post env (S (posts w)) P),
          reply_content (axios_post env (S (S (posts w))) P),
          simplified_content (axios_post env (S (S (S (posts w)))) S_) with
    | Some answer, _, _, _ =>
        (Returns (Some answer), logged l (neted [Post P] 1 w))
    | None, Some answer, _, _ =>
        (Returns (Some answer), logged l (neted [Post P; Wait 1000; Post P] 2 w))
    | None, None, Some answer, _ =>
        (Returns (Some answer),
         logged l (neted [Post P; Wait 1000; Post P; Wait 2000; Post P] 3 w))
    | None, None, None, Some content =>
        (Returns content,
         logged l (neted [Post P; Wait 1000; Post P; Wait 2000; Post P; Post S_] 4 w))
    | None, None, None, None =>
        (as_nullable (completion (DeepseekService._getFallbackResponse question) w),
         logged l (neted [Post P; Wait 1000; Post P; Wait 2000; Post P; Post S_] 4 w))
    end.
Proof.
  intros P S_. unfold DeepseekService.generateAnswer.
  change (DeepseekService.maxRetries + 1 - 0)%nat with 3%nat.
  rewrite run_bind.
  replace (DeepseekService.retry_loop env question 3 0 w)
    with (DeepseekService.retry_loop env question 3 0 (logged [] (neted [] 0 w)))
    by now rewrite logged_neted_nil.
  destruct (retry_iteration env question 2 0 [] [] 0 w) as [l1 ->].
  cbn [Nat.ltb Nat.leb app Nat.add]. fold P.
  destruct (reply_content (axios_post env (posts w) P)) as [a0|].
  { run. eexists. reflexivity. }
  destruct (retry_iteration env question 1 1 l1 [Post P] 1 w) as [l2 ->].
  cbn [Nat.ltb Nat.leb app Nat.add]. fold P.
  change (DeepseekService.retryDelay * Z.of_nat 1)%Z with 1000%Z.
  destruct (reply_content (axios_post env (S (posts w)) P)) as [a1|].
  { run. eexists. reflexivity. }
  destruct (retry_iteration env question 0 2 l2 [Post P; Wait 1000; Post P] 2 w) as [l3 ->].
  cbn [Nat.ltb Nat.leb app Nat.add]. fold P.
  change (DeepseekService.retryDelay * Z.of_nat 2)%Z with 2000%Z.
  destruct (reply_content (axios_post env (S (S (posts w))) P)) as [a2|].
  { run. eexists. reflexivity. }
  cbn [DeepseekService.retry_loop]. run. autorewrite with world.
  destruct (_makeSimplifiedRequest_run env question (l3 ++ [(info, "Trying simplified request as last resort...")])
              [Post P; Wait 1000; Post P; Wait 2000; Post P] 3 w) as [l4 ->].
  cbn [app Nat.add]. fold S_.
  destruct (simplified_content (axios_post env (S (S (S (posts w)))) S_)) as [a3|].
  { eexists. reflexivity. }
  run. rewrite _getFallbackResponse_run. autorewrite with world.
  rewrite (_getFallbackResponse_completion question w).
  rewrite _getFallbackResponse_completion. cbv zeta. run.
  eexists. reflexivity.
Qed.

Lemma fallback_in_strings (question : string) (w : World) :
  exists answer,
    completion (DeepseekService._getFallbackResponse question) w = Returns answer
    /\ In answer fallback_strings.
Proof.
  rewrite _getFallbackResponse_completion. eexists. split; [reflexivity|].
  cbv zeta. unfold fallback_strings.
  repeat match goal with |- context [if ?c then _ else _] => destruct c end;
    simpl; tauto.
Qed.

Lemma fallback_strings_nonempty (answer : string) :
  In answer fallback_strings -> answer <> EmptyString.
Proof. intros [<-|[<-|[<-|[<-|[]]]]]; discriminate. Qed.

(** C5: the full-context request is sent at most three times
    ([maxRetries + 1]), with a wait of [retryDelay * attempt] (1000 ms, then
    2000 ms) before the second and the third; the simplified request is sent
    once, and only after three failures; the local fallback is produced only
    when the simplified request fails too.  The primary request carries the
    system role, 1000 tokens, 30 s and temperature 0.7; the simplified one no
    system role, 100 tokens, 15 s and temperature 0.5.  A primary request
    fails when it is rejected or its reply has no choice or a null content;
    the simplified request fails when it is rejected or its reply has no
    choice. *)
Theorem generateAnswer_schedule (env : Env) (question : string) (w : World) :
  let P := DeepseekService.primary_request env question in
  let S_ := DeepseekService.simplified_request env question in
  let run := DeepseekService.generateAnswer env question in
  (DeepseekService.maxRetries + 1 = 3)%nat
  /\ (DeepseekService.retryDelay * 1 = 1000 /\ DeepseekService.retryDelay * 2 = 2000)%Z
  /\ (messages P = [("system", DeepseekService.systemPrompt); ("user", question)]
      /\ max_tokens P = 1000%Z /\ timeout P = 30000%Z /\ temperature P = 0.7%Q)
  /\ (messages S_ = [("user", "Answer this as briefly as possible: " +:+ question)]
      /\ max_tokens S_ = 100%Z /\ timeout S_ = 15000%Z /\ temperature S_ = 0.5%Q)
  /\ match reply_content (axios_post env (posts w) P),
           reply_content (axios_post env (S (posts w)) P),
           reply_content (axios_post env (S (S (posts w))) P),
           simplified_content (axios_post env (S (S (S (posts w)))) S_) with
     | Some answer, _, _, _ =>
         net (exec run w) = net w ++ [Post P]
         /\ completion run w = Returns (Some answer)
     | None, Some answer, _, _ =>
         net (exec run w) = net w ++ [Post P; Wait 1000; Post P]
         /\ completion run w = Returns (Some answer)
     | None, None, Some answer, _ =>
         net (exec run w) = net w ++ [Post P; Wait 1000; Post P; Wait 2000; Post P]
         /\ completion run w = Returns (Some answer)
     | None, None, None, Some content =>
         net (exec run w)
         = net w ++ [Post P; Wait 1000; Post P; Wait 2000; Post P; Post S_]
         /\ completion run w = Returns content
     | None, None, None, None =>
         net (exec run w)
         = net w ++ [Post P; Wait 1000; Post P; Wait 2000; Post P; Post S_]
         /\ completion run w
            = as_nullable (completion (DeepseekService._getFallbackResponse question) w)
     end.
Proof.
  intros P S_ run.
  split; [reflexivity|]. split; [split; reflexivity|].
  split; [repeat split|]. split; [repeat split|].
  destruct (generateAnswer_run env question w) as [l H].
  fold P S_ run in H. unfold exec, completion. rewrite H.
  repeat match goal with |- context [match ?c with Some _ => _ | None => _ end] =>
    destruct c end; split; reflexivity.
Qed.

(** C4, as amended: no error leaves [generateAnswer], in any environment.
    It resolves to the content of the first of the three primary replies
    that carries a string content, as received; when none does, to the
    content of the reply to the simplified request, as received, a string or
    [null]; and when that request fails too, to the string
    [_getFallbackResponse] computes, one of the four fallback strings, which
    are not empty. *)
Theorem generateAnswer_total (env : Env) (question : string) (w : World) :
  let P := DeepseekService.primary_request env question in
  let S_ := DeepseekService.simplified_request env question in
  exists result,
    completion (DeepseekService.generateAnswer env question) w = Returns result
    /\ match reply_content (axios_post env (posts w) P),
             reply_content (axios_post env (S (posts w)) P),
             reply_content (axios_post env (S (S (posts w))) P),
             simplified_content (axios_post env (S (S (S (posts w)))) S_) with
       | Some answer, _, _, _ => result = Some answer
       | None, Some answer, _, _ => result = Some answer
       | None, None, Some answer, _ => result = Some answer
       | None, None, None, Some content => result = content
       | None, None, None, None =>
           exists fallback,
             result = Some fallback
             /\ completion (DeepseekService._getFallbackResponse question) w
                = Returns fallback
             /\ In fallback fallback_strings /\ fallback <> EmptyString
       end.
Proof.
  intros P S_. destruct (generateAnswer_run env question w) as [l H].
  fold P S_ in H. unfold completion at 1. rewrite H. clear H.
  destruct (reply_content (axios_post env (posts w) P)) as [a0|].
  { eexists. split; reflexivity. }
  destruct (reply_content (axios_post env (S (posts w)) P)) as [a1|].
  { eexists. split; reflexivity. }
  destruct (reply_content (axios_post env (S (S (posts w))) P)) as [a2|].
  { eexists. split; reflexivity. }
  destruct (simplified_content (axios_post env (S (S (S (posts w)))) S_)) as [a3|].
  { eexists. split; reflexivity. }
  destruct (fallback_in_strings question w) as (answer & Hc & Hin).
  cbn [fst]. rewrite Hc. cbn [as_nullable]. eexists. split; [reflexivity|].
  exists answer. split; [reflexivity|]. split; [reflexivity|].
  split; [exact Hin|now apply fallback_strings_nonempty].
Qed.

(** C4, as stated, fails when the API resolves with an empty content or
    with a null one: the first makes the answer the empty string at the
    first request, the second fails the three primary requests and makes the
    answer [null] at the simplified one. *)
Lemma generateAnswer_empty_answer :
  completion (DeepseekService.generateAnswer
                (sample_env (fun _ _ => Resolves (Some [Some EmptyString])))
                "What is 2+2?") empty_world
  = Returns (Some EmptyString)
  /\ completion (DeepseekService.generateAnswer
                   (sample_env (fun _ _ => Resolves (Some [None])))
                   "What is 2+2?") empty_world
     = Returns None.
Proof. split; vm_compute; reflexivity. Qed.

(** ** The services the approval handlers call *)

Lemma run_Date_now (env : Env) (w : World) :
  Date_now env w = (Returns (clock env (ticks w)), set_ticks S w).
Proof. reflexivity. Qed.

Lemma run_get (w : World) : get w = (Returns w, w).
Proof. reflexivity. Qed.

Lemma run_modify (f : World -> World) (w : World) : modify f w = (Returns tt, f w).
Proof. reflexivity. Qed.

Ltac run_io :=
  repeat (progress (run; rewrite ?run_Date_now, ?run_get, ?run_modify;
                    cbv beta iota zeta)).

Lemma findById_run (env : Env) (id : string) (w : World) :
  QuestionModel.findById env id w =
  match db_findById env id with
  | Some e => (Throws e, w)
  | None => (Returns (questions w !! id), w)
  end.
Proof. unfold QuestionModel.findById. now destruct (db_findById env id). Qed.

(** Saving a document that is in the collection already. *)
Lemma save_run (env : Env) (doc : Question) (w : World) :
  QuestionModel.save env false doc w =
  match db_save env (QuestionModel.set_updatedAt (clock env (ticks w)) doc) with
  | Some e => (Throws e, set_ticks S w)
  | None =>
      (Returns (QuestionModel.set_updatedAt (clock env (ticks w)) doc),
       set_questions
         (insert (_id doc) (QuestionModel.set_updatedAt (clock env (ticks w)) doc))
         (set_ticks S w))
  end.
Proof.
  unfold QuestionModel.save. run_io.
  destruct (db_save env _); run_io; reflexivity.
Qed.

Lemma updateMessage_run (env : Env) (messageTs text : string) (w : World) :
  SlackService.updateMessage env messageTs text w =
  let c := ChatUpdate (SlackService.channelId env) messageTs text
             (SlackService.approved_blocks text) in
  match slack_api env c with
  | Some e =>
      (Throws (Error ("Failed to update Slack message: " +:+ message e)),
       logged [(error, "Error updating Slack message: " +:+ message e)] w)
  | None => (Returns tt, set_slack (fun cs => cs ++ [c]) w)
  end.
Proof.
  unfold SlackService.updateMessage, SlackService.call. cbv zeta.
  rewrite run_try_catch.
  destruct (slack_api env _); run_io; reflexivity.
Qed.

Lemma sendMessage_run (env : Env) (chatId text : string) (w : World) :
  TelegramService.sendMessage env chatId text w =
  let c := SendMessage chatId text (Some "HTML") in
  match telegram_api env c with
  | Some e =>
      (Throws (Error ("Failed to send message to Telegram: " +:+ message e)),
       logged [(error, "Error sending message to Telegram: " +:+ message e)] w)
  | None =>
      (Returns tt,
       logged [(info, "Message sent to Telegram user: " +:+ chatId)]
         (set_telegram (fun cs => cs ++ [c]) w))
  end.
Proof.
  unfold TelegramService.sendMessage, TelegramService.call. cbv zeta.
  rewrite run_try_catch, run_bind.
  destruct (telegram_api env _); run_io; reflexivity.
Qed.

Lemma append_run (env : Env) (row : Row) (w : World) :
  GoogleSheetsService.append env row w =
  match sheets_append env row with
  | inl e => (Throws e, w)
  | inr range => (Returns range, set_sheet (fun rows => rows ++ [row]) w)
  end.
Proof.
  unfold GoogleSheetsService.append. destruct (sheets_append env row); run_io; reflexivity.
Qed.

(** [saveRecord] once the client is initialized, or when its
    initialization succeeds. *)
Lemma saveRecord_run (env : Env) (record : GoogleSheetsService.Record_) (w : World) :
  sheets_initialized w = true \/ sheets_auth env = None ->
  exists l w1,
    w1 = logged l (set_ticks S (set_sheets_initialized true w)) /\
    GoogleSheetsService.saveRecord env record w =
    match sheets_append env (row_of (clock env (ticks w)) record) with
    | inl e =>
        (Throws (Error ("Failed to save to Google Sheets: " +:+ message e)),
         logged [(error, "Error saving to Google Sheets: " +:+ message e)] w1)
    | inr range =>
        (Returns tt,
         logged [(info, "Record saved to Google Sheets: " +:+ range)]
           (set_sheet (fun rows => rows ++ [row_of (clock env (ticks w)) record]) w1))
    end.
Proof.
  intros H. unfold GoogleSheetsService.saveRecord. run_io.
  destruct (sheets_initialized w) eqn:Hinit; cbn [negb].
  - exists [], (set_ticks S (set_sheets_initialized true w)).
    split; [now rewrite logged_nil|].
    replace (set_sheets_initialized true w) with w
      by (clear - Hinit; destruct w; simpl in Hinit; now subst).
    run_io. rewrite append_run. unfold row_of.
    destruct (sheets_append env _); run_io; reflexivity.
  - destruct H as [H|H]; [discriminate|].
    unfold GoogleSheetsService.initialize. rewrite H. run_io.
    eexists [_], _. split; [reflexivity|].
    rewrite append_run. unfold row_of.
    cbn [ticks logged set_log set_sheets_initialized].
    destruct (sheets_append env _); run_io; reflexivity.
Qed.

(** [saveRecord] when the client cannot be initialized. *)
Lemma saveRecord_run_uninitialized (env : Env) (record : GoogleSheetsService.Record_)
    (w : World) (e : JsError) :
  sheets_initialized w = false -> sheets_auth env = Some e ->
  GoogleSheetsService.saveRecord env record w =
  (Throws (Error ("Failed to save to Google Sheets: "
                  +:+ "Failed to initialize Google Sheets: " +:+ message e)),
   logged [(error, "Error initializing Google Sheets: " +:+ message e);
           (error, "Error saving to Google Sheets: "
                   +:+ "Failed to initialize Google Sheets: " +:+ message e)] w).
Proof.
  intros Hinit Hauth. unfold GoogleSheetsService.saveRecord. run_io.
  rewrite Hinit. cbn [negb]. unfold GoogleSheetsService.initialize.
  rewrite Hauth. run_io. rewrite logged_logged. reflexivity.
Qed.

(** ** The approval handlers *)

(** A handler whose body is a [try] with a logging [catch] returns. *)
Lemma try_log_returns (m : Async unit) (msg : JsError -> string) (w : World) :
  completion (try_catch m (fun e => logger.error (msg e))) w = Returns tt.
Proof.
  unfold completion. rewrite run_try_catch.
  destruct (m w) as [[[]|e] w']; reflexivity.
Qed.

Lemma try_catch_returns {A} (m : Async A) (h : JsError -> Async A) (w : World) (a : A) :
  completion m w = Returns a -> try_catch m h w = m w.
Proof.
  unfold completion. rewrite run_try_catch.
  destruct (m w) as [[a'|e] w']; simpl; congruence.
Qed.

Lemma handleApproval_returns (env : Env) (p : SlackController.BlockActions)
    (r : Question) (w : World) :
  completion (SlackController.handleApproval env p r) w = Returns tt.
Proof. apply try_log_returns. Qed.

Lemma handleEditRequest_returns (env : Env) (p : SlackController.BlockActions)
    (r : Question) (w : World) :
  completion (SlackController.handleEditRequest env p r) w = Returns tt.
Proof. apply try_log_returns. Qed.

Lemma handleBlockActions_returns (env : Env) (p : SlackController.BlockActions) (w : World) :
  completion (SlackController.handleBlockActions env p) w = Returns tt.
Proof. apply try_log_returns. Qed.

Lemma handleViewSubmission_returns (env : Env) (p : SlackController.ViewSubmission)
    (w : World) :
  completion (SlackController.handleViewSubmission env p) w = Returns tt.
Proof. apply try_log_returns. Qed.

Lemma handleInteraction_returns (env : Env) (req : SlackController.Request) (w : World) :
  completion (SlackController.handleInteraction env req) w = Returns tt.
Proof. apply try_log_returns. Qed.

(** [handleInteraction] acknowledges and hands over to the handler of the
    payload's type. *)
Lemma handleInteraction_block_actions (env : Env) (p : SlackController.BlockActions)
    (w : World) :
  SlackController.handleInteraction env (SlackController.block_actions p) w =
  SlackController.handleBlockActions env p (acknowledged w).
Proof.
  unfold SlackController.handleInteraction.
  rewrite (try_catch_returns _ _ _ tt).
  - now rewrite run_bind.
  - unfold completion. rewrite run_bind. apply handleBlockActions_returns.
Qed.

Lemma handleInteraction_view_submission (env : Env) (p : SlackController.ViewSubmission)
    (w : World) :
  SlackController.handleInteraction env (SlackController.view_submission p) w =
  SlackController.handleViewSubmission env p (acknowledged w).
Proof.
  unfold SlackController.handleInteraction.
  rewrite (try_catch_returns _ _ _ tt).
  - now rewrite run_bind.
  - unfold completion. rewrite run_bind. apply handleViewSubmission_returns.
Qed.

(** A click on Approve for a record that is found runs [handleApproval]. *)
Lemma handleBlockActions_approve (env : Env) (p : SlackController.BlockActions)
    (r : Question) (id : string) (w : World) :
  clicks p "approve_button" id ->
  db_findById env id = None ->
  questions w !! id = Some r ->
  SlackController.handleBlockActions env p w = SlackController.handleApproval env p r w.
Proof.
  intros (a & rest & Ha & Hbutton & Hid) Hfind Hr.
  unfold SlackController.handleBlockActions.
  rewrite (try_catch_returns _ _ _ tt).
  - rewrite Ha. cbv zeta. rewrite run_bind, findById_run, Hid, Hfind, Hr, Hbutton.
    reflexivity.
  - unfold completion. rewrite Ha. cbv zeta.
    rewrite run_bind, findById_run, Hid, Hfind, Hr, Hbutton.
    apply handleApproval_returns.
Qed.

Ltac fields :=
  cbn [_id accountId accountName question answer editedAnswer isApproved isFromImage
       imageUrl createdAt updatedAt approvedAt approvedBy
       QuestionModel.set_updatedAt QuestionModel.set_editedAnswer
       QuestionModel.set_isApproved QuestionModel.set_approvedAt
       QuestionModel.set_approvedBy approve_at
       questions telegram slack sheet sheets_initialized log net posts ticks responses
       set_questions set_telegram set_slack set_sheet set_sheets_initialized set_log
       set_net set_ticks set_responses logged acknowledged fst snd].

(** The three side effects that follow the save, when they all succeed. *)
Lemma side_effects_ok (env : Env) (ts chat text done : string)
    (record : GoogleSheetsService.Record_) (w : World) :
  all_calls_succeed env ->
  let w' :=
    exec (SlackService.updateMessage env ts text;;
          TelegramService.sendMessage env chat text;;
          GoogleSheetsService.saveRecord env record;;
          logger.info done) w in
  completion (SlackService.updateMessage env ts text;;
              TelegramService.sendMessage env chat text;;
              GoogleSheetsService.saveRecord env record;;
              logger.info done) w = Returns tt
  /\ questions w' = questions w
  /\ slack w' = slack w ++ [card_update env ts text]
  /\ telegram w' = telegram w ++ [delivery chat text]
  /\ sheet w' = sheet w ++ [row_of (clock env (ticks w)) record]
  /\ ticks w' = S (ticks w).
Proof.
  intros (Hfind & Hsave & Hslack & Htg & Hauth & Happend) w'.
  subst w'. unfold exec, completion. run_io.
  rewrite updateMessage_run. cbv zeta. rewrite Hslack. run_io.
  rewrite sendMessage_run. cbv zeta. rewrite Htg. run_io.
  match goal with |- context [GoogleSheetsService.saveRecord env ?rec ?w1] =>
    destruct (saveRecord_run env rec w1 (or_intror Hauth)) as (l & w2 & Hw2 & ->);
    destruct (Happend (row_of (clock env (ticks w1)) rec)) as [range ->] end.
  run_io. subst w2. fields. repeat split; reflexivity.
Qed.

(** The approval when every call succeeds. *)
Lemma handleApproval_ok (env : Env) (p : SlackController.BlockActions) (r : Question)
    (w : World) :
  all_calls_succeed env ->
  let t0 := clock env (ticks w) in
  let t1 := clock env (S (ticks w)) in
  let t2 := clock env (S (S (ticks w))) in
  let doc := QuestionModel.set_updatedAt t1 (approve_at t0 (SlackController.user_id p) r) in
  let w' := exec (SlackController.handleApproval env p r) w in
  questions w' = <[_id r := doc]> (questions w)
  /\ slack w' = slack w ++ [card_update env (SlackController.message_ts_ p) (answer r)]
  /\ telegram w' = telegram w ++ [delivery (accountId r) (answer r)]
  /\ sheet w' = sheet w ++ [row_of t2 (archive_record r None)].
Proof.
  intros Hall t0 t1 t2 doc w'. pose proof Hall as (_ & Hsave & _).
  subst w'. unfold exec, SlackController.handleApproval.
  rewrite run_try_catch, run_bind, run_Date_now. cbv beta iota.
  rewrite run_bind, save_run, Hsave. cbv beta iota.
  match goal with
  | |- context [(SlackService.updateMessage env ?ts ?text;;
                 TelegramService.sendMessage env ?chat ?text;;
                 GoogleSheetsService.saveRecord env ?rec;;
                 logger.info ?done) ?w1] =>
      pose proof (side_effects_ok env ts chat text done rec w1 Hall) as H;
      cbv zeta in H; unfold exec, completion in H;
      destruct ((SlackService.updateMessage env ts text;;
                 TelegramService.sendMessage env chat text;;
                 GoogleSheetsService.saveRecord env rec;;
                 logger.info done) w1) as [c w2]
  end.
  cbn [fst snd] in H. destruct H as (-> & Hq & Hs & Ht & Hsh & _).
  cbn [snd]. rewrite Hq, Hs, Ht, Hsh. fields. repeat split; reflexivity.
Qed.

(** The edit submission when every call succeeds. *)
Lemma handleViewSubmission_ok (env : Env) (v : SlackController.ViewSubmission)
    (r : Question) (w : World) :
  all_calls_succeed env ->
  questions w !! data_key (SlackController.metadata v) = Some r ->
  let text := SlackController.response_text v in
  let t0 := clock env (ticks w) in
  let t1 := clock env (S (ticks w)) in
  let t2 := clock env (S (S (ticks w))) in
  let doc :=
    QuestionModel.set_updatedAt t1
      (approve_at t0 (SlackController.submitter_id v)
         (QuestionModel.set_editedAnswer text r)) in
  let w' := exec (SlackController.handleViewSubmission env v) w in
  questions w' = <[_id r := doc]> (questions w)
  /\ slack w' = slack w ++ [card_update env (message_ts (SlackController.metadata v)) text]
  /\ telegram w' = telegram w ++ [delivery (accountId r) text]
  /\ sheet w' = sheet w ++ [row_of t2 (archive_record r (Some text))].
Proof.
  intros Hall Hr text t0 t1 t2 doc w'. pose proof Hall as (Hfind & Hsave & _).
  subst w'. unfold exec, SlackController.handleViewSubmission. cbv zeta.
  rewrite run_try_catch, run_bind, findById_run, Hfind, Hr. cbv beta iota.
  rewrite run_bind, run_Date_now. cbv beta iota.
  rewrite run_bind, save_run, Hsave. cbv beta iota.
  match goal with
  | |- context [(SlackService.updateMessage env ?ts ?text;;
                 TelegramService.sendMessage env ?chat ?text;;
                 GoogleSheetsService.saveRecord env ?rec;;
                 logger.info ?done) ?w1] =>
      pose proof (side_effects_ok env ts chat text done rec w1 Hall) as H;
      cbv zeta in H; unfold exec, completion in H;
      destruct ((SlackService.updateMessage env ts text;;
                 TelegramService.sendMessage env chat text;;
                 GoogleSheetsService.saveRecord env rec;;
                 logger.info done) w1) as [c w2]
  end.
  cbn [fst snd] in H. destruct H as (-> & Hq & Hs & Ht & Hsh & _).
  cbn [snd]. rewrite Hq, Hs, Ht, Hsh. fields. repeat split; reflexivity.
Qed.

Lemma sample_env_succeeds (api : nat -> ChatRequest -> AxiosReply) :
  all_calls_succeed (sample_env api).
Proof.
  repeat split; try reflexivity. intros row. eexists. reflexivity.
Qed.

(** C1, as amended: a pending record, as created, on which the Approve
    button is clicked, when the store, Slack, Telegram and the spreadsheet
    accept their calls: the stored record is approved, still has no edited
    answer, carries the time of the click and the id of the reviewer who
    clicked; the student is sent the original answer, and the original
    answer is what is archived. *)
Theorem direct_approval_round_trip (env : Env) (w : World) (r : Question)
    (p : SlackController.BlockActions) :
  questions w !! _id r = Some r ->
  as_created r ->
  clicks p "approve_button" (_id r) ->
  all_calls_succeed env ->
  let w' := exec (SlackController.handleInteraction env
                    (SlackController.block_actions p)) w in
  (exists r',
     questions w' !! _id r = Some r'
     /\ isApproved r' = true
     /\ editedAnswer r' = None
     /\ approvedAt r' = Some (clock env (ticks w))
     /\ approvedBy r' = Some (SlackController.user_id p)
     /\ answer r' = answer r)
  /\ telegram w' = telegram w ++ [delivery (accountId r) (answer r)]
  /\ exists t,
       sheet w' = sheet w ++
         [{| row_timestamp := t; row_accountName := accountName r;
             row_question := question r; row_answer := answer r;
             row_editedAnswer := answer r |}].
Proof.
  intros Hr (_ & Hedited & _) Hclick Hall w'. subst w'.
  unfold exec. rewrite handleInteraction_block_actions.
  rewrite (handleBlockActions_approve env p r (_id r)); [|exact Hclick|apply Hall|exact Hr].
  destruct (handleApproval_ok env p r (acknowledged w) Hall) as (Hq & _ & Ht & Hsh).
  unfold exec in Hq, Ht, Hsh. rewrite Hq, Ht, Hsh. split; [|split].
  - eexists. split; [apply lookup_insert_eq|]. fields. now rewrite Hedited.
  - reflexivity.
  - eexists. reflexivity.
Qed.

Lemma direct_approval_round_trip_witness :
  let w' := exec (SlackController.handleInteraction (sample_env api_down) sample_click)
              world_after_question in
  (exists r',
     questions w' !! "65f000000000000000000001" = Some r'
     /\ isApproved r' = true
     /\ editedAnswer r' = None
     /\ approvedAt r' = Some 3%Z
     /\ approvedBy r' = Some "U07TEACHER"
     /\ answer r' = DeepseekService.fallback_generic)
  /\ telegram w'
     = telegram world_after_question
       ++ [delivery "4242" DeepseekService.fallback_generic]
  /\ exists t,
       sheet w' =
         [{| row_timestamp := t; row_accountName := "Asha";
             row_question := "What is 2+2?";
             row_answer := DeepseekService.fallback_generic;
             row_editedAnswer := DeepseekService.fallback_generic |}].
Proof.
  apply (direct_approval_round_trip (sample_env api_down) world_after_question
           created_question sample_actions).
  - reflexivity.
  - repeat split.
  - eexists _, _. repeat split.
  - apply sample_env_succeeds.
Defined.

(** C1, as stated, fails when a call fails.  When the store refuses the
    save, the record stays pending, nothing is sent to the student and
    nothing is archived. *)
Lemma direct_approval_store_down :
  let w' := exec (SlackController.handleInteraction store_down_env sample_click)
              (world_with sample_question) in
  (isApproved <$> questions w' !! "65f000000000000000000001") = Some false
  /\ (approvedBy <$> questions w' !! "65f000000000000000000001") = Some None
  /\ telegram w' = []
  /\ sheet w' = [].
Proof. vm_compute. repeat split. Qed.

(** C8, as amended: nothing in the approval looks at the approval flag.  On
    a record that is approved already, another click on Approve runs the
    whole transition again; when the store, Slack, Telegram and the
    spreadsheet accept their calls: the approval fields are set anew, the
    card is rewritten, the answer is sent to the student once more and a
    further row is archived. *)
Theorem duplicate_approval_redelivers (env : Env) (w : World) (r : Question)
    (p : SlackController.BlockActions) :
  questions w !! _id r = Some r ->
  isApproved r = true ->
  clicks p "approve_button" (_id r) ->
  all_calls_succeed env ->
  let w' := exec (SlackController.handleInteraction env
                    (SlackController.block_actions p)) w in
  (exists r',
     questions w' !! _id r = Some r'
     /\ isApproved r' = true
     /\ approvedAt r' = Some (clock env (ticks w))
     /\ approvedBy r' = Some (SlackController.user_id p))
  /\ slack w' = slack w ++ [card_update env (SlackController.message_ts_ p) (answer r)]
  /\ telegram w' = telegram w ++ [delivery (accountId r) (answer r)]
  /\ length (sheet w') = S (length (sheet w)).
Proof.
  intros Hr _ Hclick Hall w'. subst w'.
  unfold exec. rewrite handleInteraction_block_actions.
  rewrite (handleBlockActions_approve env p r (_id r)); [|exact Hclick|apply Hall|exact Hr].
  destruct (handleApproval_ok env p r (acknowledged w) Hall) as (Hq & Hs & Ht & Hsh).
  unfold exec in Hq, Hs, Ht, Hsh. rewrite Hq, Hs, Ht, Hsh. split; [|split; [|split]].
  - eexists. split; [apply lookup_insert_eq|]. fields. repeat split.
  - reflexivity.
  - reflexivity.
  - rewrite length_app. simpl. lia.
Qed.

(** The reviewer clicks Approve twice: the student gets the answer twice. *)
Lemma duplicate_approval_redelivers_witness :
  let click := approve_click "65f000000000000000000001" "U07TEACHER"
                 "1711111111.000100" "C0REVIEW" "trigger-1" in
  let env := sample_env api_down in
  let w1 := exec (SlackController.handleInteraction env click)
              (world_with sample_question) in
  let w2 := exec (SlackController.handleInteraction env click) w1 in
  (exists r',
     questions w2 !! "65f000000000000000000001" = Some r'
     /\ isApproved r' = true
     /\ approvedAt r' = Some 3%Z
     /\ approvedBy r' = Some "U07TEACHER")
  /\ slack w2 = slack w1 ++ [card_update env "1711111111.000100" "x = 4"]
  /\ telegram w2 = [delivery "4242" "x = 4"; delivery "4242" "x = 4"]
  /\ length (sheet w2) = 2.
Proof.
  intros click env w1 w2.
  apply (duplicate_approval_redelivers env w1
           (QuestionModel.set_updatedAt 1
              (approve_at 0 "U07TEACHER" sample_question))).
  - reflexivity.
  - reflexivity.
  - eexists _, _. repeat split.
  - apply sample_env_succeeds.
Defined.

(** C8, as stated, fails when a call fails: the second click re-enters the
    transition, but when Slack refuses the update of the card the answer is
    not delivered again and no further row is archived. *)
Lemma duplicate_approval_slack_down :
  let click := approve_click "65f000000000000000000001" "U07TEACHER"
                 "1711111111.000100" "C0REVIEW" "trigger-1" in
  let w1 := exec (SlackController.handleInteraction (sample_env api_down) click)
              (world_with sample_question) in
  let w2 := exec (SlackController.handleInteraction slack_down_env click) w1 in
  (isApproved <$> questions w1 !! "65f000000000000000000001") = Some true
  /\ telegram w1 = [delivery "4242" "x = 4"]
  /\ telegram w2 = telegram w1
  /\ sheet w2 = sheet w1.
Proof. vm_compute. repeat split. Qed.

(** C7: a callback whose record id is not in the store, whatever the
    button, and an edit submission likewise: no record changes, nothing is
    sent to a student, no card is rewritten and no modal opened, nothing is
    archived; one error line is logged and the handler returns. *)
Theorem unknown_record_dropped (env : Env) (w : World) (payload : SlackController.Payload)
    (id : string) :
  questions w !! id = None ->
  match payload with
  | SlackController.block_actions p =>
      exists a rest,
        SlackController.actions p = a :: rest /\ SlackController.value a = id
  | SlackController.view_submission v => data_key (SlackController.metadata v) = id
  | SlackController.other _ => False
  end ->
  let w' := exec (SlackController.handleInteraction env payload) w in
  completion (SlackController.handleInteraction env payload) w = Returns tt
  /\ questions w' = questions w
  /\ telegram w' = telegram w
  /\ slack w' = slack w
  /\ sheet w' = sheet w
  /\ exists msg, log w' = log w ++ [(error, msg)].
Proof.
  intros Hnone Hid w'. split; [apply handleInteraction_returns|].
  subst w'. unfold exec. destruct payload as [p|v|type]; [| |contradiction].
  - destruct Hid as (a & rest & Ha & Hid).
    rewrite handleInteraction_block_actions.
    unfold SlackController.handleBlockActions. rewrite Ha. cbv zeta.
    rewrite run_try_catch, run_bind, findById_run, Hid.
    destruct (db_findById env id) as [e|]; run_io.
    + fields. repeat split. eexists. reflexivity.
    + change (questions (acknowledged w)) with (questions w). rewrite Hnone.
      cbv iota. run_io. fields. repeat split. eexists. reflexivity.
  - rewrite handleInteraction_view_submission.
    unfold SlackController.handleViewSubmission. cbv zeta.
    rewrite run_try_catch, run_bind, findById_run, Hid.
    destruct (db_findById env id) as [e|]; run_io.
    + fields. repeat split. eexists. reflexivity.
    + change (questions (acknowledged w)) with (questions w). rewrite Hnone.
      cbv iota. run_io. fields. repeat split. eexists. reflexivity.
Qed.

Lemma unknown_record_dropped_witness :
  let env := sample_env api_down in
  let click := approve_click "65f0000000000000000000ff" "U07TEACHER"
                 "1711111111.000100" "C0REVIEW" "trigger-1" in
  let w := world_with sample_question in
  let w' := exec (SlackController.handleInteraction env click) w in
  completion (SlackController.handleInteraction env click) w = Returns tt
  /\ questions w' = questions w
  /\ telegram w' = telegram w
  /\ slack w' = slack w
  /\ sheet w' = sheet w
  /\ exists msg, log w' = log w ++ [(error, msg)].
Proof.
  intros env click w.
  apply (unknown_record_dropped env w click "65f0000000000000000000ff").
  - reflexivity.
  - eexists _, _. split; reflexivity.
Defined.

(** C2, as amended: an edit submission with a text that is not empty, for
    a stored record, when the store, Slack, Telegram and the spreadsheet
    accept their calls: the stored record holds the submitted text as its
    edited answer and is approved, the student is sent the submitted text,
    and the archived row keeps the original answer in its answer column and
    has the submitted text in its edited-answer column. *)
Theorem edit_round_trip (env : Env) (w : World) (r : Question)
    (v : SlackController.ViewSubmission) :
  questions w !! _id r = Some r ->
  data_key (SlackController.metadata v) = _id r ->
  SlackController.response_text v <> EmptyString ->
  all_calls_succeed env ->
  let text := SlackController.response_text v in
  let w' := exec (SlackController.handleInteraction env
                    (SlackController.view_submission v)) w in
  (exists r',
     questions w' !! _id r = Some r'
     /\ editedAnswer r' = Some text
     /\ isApproved r' = true)
  /\ telegram w' = telegram w ++ [delivery (accountId r) text]
  /\ exists row,
       sheet w' = sheet w ++ [row]
       /\ row_answer row = answer r
       /\ row_editedAnswer row = text.
Proof.
  intros Hr Hid Htext Hall text w'. subst w'.
  unfold exec. rewrite handleInteraction_view_submission.
  assert (Hr' : questions (acknowledged w) !! data_key (SlackController.metadata v)
                = Some r) by (rewrite Hid; exact Hr).
  destruct (handleViewSubmission_ok env v r (acknowledged w) Hall Hr')
    as (Hq & _ & Ht & Hsh).
  unfold exec in Hq, Ht, Hsh. rewrite Hq, Ht, Hsh. split; [|split].
  - eexists. split; [apply lookup_insert_eq|]. fields. split; reflexivity.
  - reflexivity.
  - eexists. split; [reflexivity|]. fold text.
    cbn [row_of archive_record row_answer row_editedAnswer
         GoogleSheetsService.rec_answer GoogleSheetsService.rec_editedAnswer].
    split; [reflexivity|]. subst text.
    destruct (SlackController.response_text v); [contradiction|reflexivity].
Qed.

Lemma edit_round_trip_witness :
  let env := sample_env api_down in
  let v := edit_submission "65f000000000000000000001" "U07TEACHER" "C0REVIEW"
             "1711111111.000100" "Try squaring both sides." in
  let w' := exec (SlackController.handleInteraction env
                    (SlackController.view_submission v))
              (world_with sample_question) in
  (exists r',
     questions w' !! "65f000000000000000000001" = Some r'
     /\ editedAnswer r' = Some "Try squaring both sides."
     /\ isApproved r' = true)
  /\ telegram w' = [delivery "4242" "Try squaring both sides."]
  /\ exists row,
       sheet w' = [row]
       /\ row_answer row = "x = 4"
       /\ row_editedAnswer row = "Try squaring both sides.".
Proof.
  intros env v.
  apply (edit_round_trip env (world_with sample_question) sample_question v).
  - reflexivity.
  - reflexivity.
  - discriminate.
  - apply sample_env_succeeds.
Defined.

(** C2, as stated, fails when a call fails.  When the store refuses the
    save, the record keeps no edited answer and stays pending, and nothing
    is sent to the student or archived. *)
Lemma edit_submission_store_down :
  let v := edit_submission "65f000000000000000000001" "U07TEACHER" "C0REVIEW"
             "1711111111.000100" "Try squaring both sides." in
  let w' := exec (SlackController.handleInteraction store_down_env
                    (SlackController.view_submission v))
              (world_with sample_question) in
  (editedAnswer <$> questions w' !! "65f000000000000000000001") = Some None
  /\ (isApproved <$> questions w' !! "65f000000000000000000001") = Some false
  /\ telegram w' = []
  /\ sheet w' = [].
Proof. vm_compute. repeat split. Qed.

(** ** The approval when a call fails *)

Ltac approval_start doc :=
  unfold exec, SlackController.handleApproval;
  rewrite run_try_catch, run_bind, run_Date_now; cbv beta iota;
  rewrite run_bind, save_run;
  match goal with |- context [db_save _ ?d] => change d with doc end.

Ltac approval_saved doc r Hsave :=
  approval_start doc; rewrite Hsave; cbv beta iota;
  repeat match goal with
    | |- context [answer doc] => change (answer doc) with (answer r)
    | |- context [accountId doc] => change (accountId doc) with (accountId r)
    | |- context [accountName doc] => change (accountName doc) with (accountName r)
    | |- context [question doc] => change (question doc) with (question r)
    | |- context [_id doc] => change (_id doc) with (_id r)
    end.

(** C3, as amended: the four side effects of the approval run in order
    inside one [try].  The first one that fails is logged and ends the
    transition: the steps after it are not run, and what the steps before
    it did stays.  A failed save leaves the store as it was; a failed card
    update leaves the record approved in the store, and nothing is delivered
    or archived; a failed delivery leaves the record approved and the card
    rewritten, and nothing is archived; a failed archival leaves the record
    approved, the card rewritten and the answer delivered.  The handler
    returns in every case. *)
Theorem approval_stops_at_first_failure (env : Env) (p : SlackController.BlockActions)
    (r : Question) (w : World) :
  let doc :=
    QuestionModel.set_updatedAt (clock env (S (ticks w)))
      (approve_at (clock env (ticks w)) (SlackController.user_id p) r) in
  let card := card_update env (SlackController.message_ts_ p) (answer r) in
  let msg := delivery (accountId r) (answer r) in
  let row := row_of (clock env (S (S (ticks w)))) (archive_record r None) in
  let w' := exec (SlackController.handleApproval env p r) w in
  completion (SlackController.handleApproval env p r) w = Returns tt
  /\ (forall e,
        db_save env doc = Some e ->
        questions w' = questions w /\ slack w' = slack w
        /\ telegram w' = telegram w /\ sheet w' = sheet w
        /\ log w' = log w ++ [(error, "Error handling approval: " +:+ message e)])
  /\ (forall e,
        db_save env doc = None -> slack_api env card = Some e ->
        questions w' = <[_id r := doc]> (questions w) /\ slack w' = slack w
        /\ telegram w' = telegram w /\ sheet w' = sheet w
        /\ log w' = log w ++
             [(error, "Error updating Slack message: " +:+ message e);
              (error, "Error handling approval: "
                      +:+ "Failed to update Slack message: " +:+ message e)])
  /\ (forall e,
        db_save env doc = None -> slack_api env card = None ->
        telegram_api env msg = Some e ->
        questions w' = <[_id r := doc]> (questions w) /\ slack w' = slack w ++ [card]
        /\ telegram w' = telegram w /\ sheet w' = sheet w
        /\ log w' = log w ++
             [(error, "Error sending message to Telegram: " +:+ message e);
              (error, "Error handling approval: "
                      +:+ "Failed to send message to Telegram: " +:+ message e)])
  /\ (forall e,
        db_save env doc = None -> slack_api env card = None ->
        telegram_api env msg = None ->
        (sheets_initialized w = false /\ sheets_auth env = Some e)
        \/ ((sheets_initialized w = true \/ sheets_auth env = None)
            /\ sheets_append env row = inl e) ->
        questions w' = <[_id r := doc]> (questions w) /\ slack w' = slack w ++ [card]
        /\ telegram w' = telegram w ++ [msg] /\ sheet w' = sheet w
        /\ exists l cause,
             log w' = log w ++ l ++
               [(error, "Error saving to Google Sheets: " +:+ cause);
                (error, "Error handling approval: "
                        +:+ "Failed to save to Google Sheets: " +:+ cause)]).
Proof.
  intros doc card msg row w'. split; [apply handleApproval_returns|].
  subst w'. split; [|split; [|split]].
  - intros e Hsave. approval_start doc. rewrite Hsave. run_io. fields.
    repeat split; reflexivity.
  - intros e Hsave Hslack. approval_saved doc r Hsave.
    rewrite run_bind, updateMessage_run. cbv zeta. change (ChatUpdate _ _ _ _) with card. rewrite Hslack.
    run_io. fields. repeat split; rewrite <- ?app_assoc; reflexivity.
  - intros e Hsave Hslack Htg. approval_saved doc r Hsave.
    rewrite run_bind, updateMessage_run. cbv zeta. change (ChatUpdate _ _ _ _) with card. rewrite Hslack.
    cbv beta iota. rewrite run_bind, sendMessage_run. cbv zeta. change (SendMessage _ _ _) with msg. rewrite Htg.
    run_io. fields. repeat split; rewrite <- ?app_assoc; reflexivity.
  - intros e Hsave Hslack Htg Hsheets. approval_saved doc r Hsave.
    rewrite run_bind, updateMessage_run. cbv zeta. change (ChatUpdate _ _ _ _) with card. rewrite Hslack.
    cbv beta iota. rewrite run_bind, sendMessage_run. cbv zeta. change (SendMessage _ _ _) with msg. rewrite Htg.
    cbv beta iota. rewrite run_bind.
    destruct Hsheets as [[Hinit Hauth]|[Hinit Happend]].
    + erewrite saveRecord_run_uninitialized; [|exact Hinit|exact Hauth].
      run_io. fields. repeat split; try reflexivity.
      eexists [_; _], _. rewrite <- !app_assoc. reflexivity.
    + match goal with |- context [GoogleSheetsService.saveRecord env ?rec ?w1] =>
        destruct (saveRecord_run env rec w1 Hinit) as (l & w2 & Hw2 & ->);
        change (row_of (clock env (ticks w1)) rec) with row
      end.
      rewrite Happend. run_io. subst w2. fields. repeat split; try reflexivity.
      eexists (_ :: l), _. rewrite <- !app_assoc. reflexivity.
Qed.

Lemma approval_stops_at_first_failure_witness :
  let w := world_with sample_question in
  let doc := QuestionModel.set_updatedAt 1 (approve_at 0 "U07TEACHER" sample_question) in
  let w' := exec (SlackController.handleApproval slack_down_env sample_actions
                    sample_question) w in
  questions w' = <[_id sample_question := doc]> (questions w)
  /\ slack w' = slack w
  /\ telegram w' = telegram w
  /\ sheet w' = sheet w
  /\ log w' = log w ++
       [(error, "Error updating Slack message: "
                +:+ "An API error occurred: channel_not_found");
        (error, "Error handling approval: " +:+ "Failed to update Slack message: "
                +:+ "An API error occurred: channel_not_found")].
Proof.
  intros w doc.
  apply (proj1 (proj2 (proj2 (approval_stops_at_first_failure slack_down_env
                                sample_actions sample_question w)))
           (Error "An API error occurred: channel_not_found")).
  - reflexivity.
  - reflexivity.
Defined.

(** C3, as stated, fails when the card update fails: the record is approved
    in the store, and the answer is neither delivered nor archived. *)
Lemma card_update_failure_stops_delivery :
  slack_api slack_down_env (card_update slack_down_env "1711111111.000100" "x = 4")
  = Some (Error "An API error occurred: channel_not_found")
  /\ (isApproved <$>
        questions (exec (SlackController.handleInteraction slack_down_env sample_click)
                     (world_with sample_question)) !! "65f000000000000000000001")
     = Some true
  /\ telegram (exec (SlackController.handleInteraction slack_down_env sample_click)
                 (world_with sample_question)) = []
  /\ sheet (exec (SlackController.handleInteraction slack_down_env sample_click)
              (world_with sample_question)) = [].
Proof. vm_compute. repeat split. Qed.

(** ** Computations that leave the collection alone *)

Lemma untouched_ret {A} (a : A) : touches_no_record (mret a : Async A).
Proof. intros w. split; [reflexivity | apply Nat.le_refl]. Qed.

Lemma untouched_throw {A} (e : JsError) : touches_no_record (throw (A:=A) e).
Proof. intros w. split; [reflexivity | apply Nat.le_refl]. Qed.

Lemma untouched_bind {A B} (m : Async A) (k : A -> Async B) :
  touches_no_record m -> (forall a, touches_no_record (k a)) ->
  touches_no_record (m ≫= k).
Proof.
  intros Hm Hk w. specialize (Hm w). unfold exec in *. rewrite run_bind.
  destruct (m w) as [[a|e] w1]; simpl in Hm; [|exact Hm].
  destruct (Hk a w1) as [Hq Ht]. unfold exec in *. destruct Hm as [Hq1 Ht1].
  split; [congruence | lia].
Qed.

Lemma untouched_try_catch {A} (m : Async A) (h : JsError -> Async A) :
  touches_no_record m -> (forall e, touches_no_record (h e)) ->
  touches_no_record (try_catch m h).
Proof.
  intros Hm Hh w. specialize (Hm w). unfold exec in *. rewrite run_try_catch.
  destruct (m w) as [[a|e] w1]; simpl in Hm; [exact Hm|].
  destruct (Hh e w1) as [Hq Ht]. unfold exec in *. destruct Hm as [Hq1 Ht1].
  split; [congruence | lia].
Qed.

Lemma untouched_log (l : Level) (msg : string) : touches_no_record (logger.write l msg).
Proof. intros w. split; [reflexivity | apply Nat.le_refl]. Qed.

Lemma untouched_Date_now (env : Env) : touches_no_record (Date_now env).
Proof. intros w. split; [reflexivity | simpl; lia]. Qed.

Lemma untouched_get : touches_no_record get.
Proof. intros w. split; [reflexivity | apply Nat.le_refl]. Qed.

Lemma untouched_modify (f : World -> World) :
  (forall w, questions (f w) = questions w /\ ticks (f w) = ticks w) ->
  touches_no_record (modify f).
Proof.
  intros H w. destruct (H w) as [Hq Ht]. unfold exec, modify. simpl.
  split; [exact Hq | lia].
Qed.

Lemma untouched_post (env : Env) (r : ChatRequest) :
  touches_no_record (DeepseekService.post env r).
Proof.
  intros w. unfold exec. rewrite run_post. split; [reflexivity | apply Nat.le_refl].
Qed.

(** Proves that a computation built from the constructs above leaves the
    collection alone. *)
Ltac untouched_step :=
  first
    [ apply untouched_ret
    | apply untouched_throw
    | apply untouched_log
    | apply untouched_Date_now
    | apply untouched_get
    | apply untouched_post
    | apply untouched_modify; intros ?; split; reflexivity
    | apply untouched_bind; [|intros ?]
    | apply untouched_try_catch; [|intros ?]
    | assumption
    | match goal with
      | |- touches_no_record (match ?x with _ => _ end) => destruct x
      | |- touches_no_record (let _ := _ in _) => cbv zeta
      end ].

Ltac untouched := repeat untouched_step.

Lemma untouched_retry_loop (env : Env) (question : string) (left retries : nat) :
  touches_no_record (DeepseekService.retry_loop env question left retries).
Proof.
  revert retries. induction left as [|left IH]; intros retries;
    cbn [DeepseekService.retry_loop].
  - untouched.
  - unfold DeepseekService._makeRequest, DeepseekService.sleep,
      logger.info, logger.error.
    untouched. apply IH.
Qed.

Lemma untouched_generateAnswer (env : Env) (question : string) :
  touches_no_record (DeepseekService.generateAnswer env question).
Proof.
  unfold DeepseekService.generateAnswer. apply untouched_bind.
  - apply untouched_retry_loop.
  - intros result.
    unfold DeepseekService._makeSimplifiedRequest, DeepseekService._getFallbackResponse,
      logger.info, logger.error.
    untouched.
Qed.

Ltac untouched_unfolding :=
  unfold SlackController.handleEditRequest, SlackController.acknowledge,
    TelegramController.bot_sendMessage, TelegramController.bot_sendChatAction,
    TelegramController.getPhotoUrl, TelegramController.downloadPhoto,
    GeminiService.extractTextFromImage,
    SlackService.sendQuestionForApproval, SlackService.updateMessage,
    SlackService.openEditModal, SlackService.call,
    TelegramService.sendMessage, TelegramService.call,
    GoogleSheetsService.saveRecord, GoogleSheetsService.initialize,
    GoogleSheetsService.append,
    logger.info, logger.warn, logger.error;
  untouched.

Lemma untouched_sendQuestionForApproval (env : Env)
    (question : string) (answer : option string) (recordId studentName : string)
    (isFromImage : bool) :
  touches_no_record
    (SlackService.sendQuestionForApproval env question answer recordId studentName
       isFromImage).
Proof. untouched_unfolding. Qed.

Lemma untouched_updateMessage (env : Env) (messageTs text : string) :
  touches_no_record (SlackService.updateMessage env messageTs text).
Proof. untouched_unfolding. Qed.

Lemma untouched_sendMessage (env : Env) (chatId text : string) :
  touches_no_record (TelegramService.sendMessage env chatId text).
Proof. untouched_unfolding. Qed.

Lemma untouched_bot_sendMessage (env : Env) (chatId : Z) (text : string) :
  touches_no_record (TelegramController.bot_sendMessage env chatId text).
Proof. untouched_unfolding. Qed.

Lemma untouched_bot_sendChatAction (env : Env) (chatId : Z) (action : string) :
  touches_no_record (TelegramController.bot_sendChatAction env chatId action).
Proof. untouched_unfolding. Qed.

Lemma untouched_saveRecord (env : Env) (record : GoogleSheetsService.Record_) :
  touches_no_record (GoogleSheetsService.saveRecord env record).
Proof. untouched_unfolding. Qed.

Lemma untouched_extractTextFromImage (env : Env) (imagePath : string) :
  touches_no_record (GeminiService.extractTextFromImage env imagePath).
Proof. untouched_unfolding. Qed.

Lemma untouched_getPhotoUrl (env : Env) (fileId : string) :
  touches_no_record (TelegramController.getPhotoUrl env fileId).
Proof. untouched_unfolding. Qed.

Lemma untouched_downloadPhoto (env : Env) (url : string) :
  touches_no_record (TelegramController.downloadPhoto env url).
Proof. untouched_unfolding. Qed.

Lemma untouched_handleEditRequest (env : Env) (p : SlackController.BlockActions)
    (r : Question) :
  touches_no_record (SlackController.handleEditRequest env p r).
Proof. untouched_unfolding. Qed.

Lemma untouched_acknowledge : touches_no_record SlackController.acknowledge.
Proof. untouched_unfolding. Qed.

(** The same for a computation that calls the services. *)
Ltac untouched_calls :=
  unfold logger.info, logger.warn, logger.error;
  repeat first
    [ apply untouched_generateAnswer
    | apply untouched_sendQuestionForApproval
    | apply untouched_updateMessage
    | apply untouched_sendMessage
    | apply untouched_bot_sendMessage
    | apply untouched_bot_sendChatAction
    | apply untouched_saveRecord
    | apply untouched_extractTextFromImage
    | apply untouched_getPhotoUrl
    | apply untouched_downloadPhoto
    | apply untouched_handleEditRequest
    | apply untouched_acknowledge
    | untouched_step ].

(** ** Triples *)

Lemma triple_ret {A} (a : A) (Q : A -> World -> Prop) (E : World -> Prop) :
  triple (Q a) (mret a) Q E.
Proof. intros w H. exact H. Qed.

Lemma triple_throw {A} (e : JsError) (Q : A -> World -> Prop) (E : World -> Prop) :
  triple E (throw e) Q E.
Proof. intros w H. exact H. Qed.

Lemma triple_bind {A B} (P : World -> Prop) (m : Async A) (k : A -> Async B)
    (Q : A -> World -> Prop) (R : B -> World -> Prop) (E : World -> Prop) :
  triple P m Q E -> (forall a, triple (Q a) (k a) R E) -> triple P (m ≫= k) R E.
Proof.
  intros Hm Hk w HP. specialize (Hm w HP). rewrite run_bind.
  destruct (m w) as [[a|e] w1]; [apply (Hk a w1 Hm) | exact Hm].
Qed.

Lemma triple_try_catch {A} (P : World -> Prop) (m : Async A) (h : JsError -> Async A)
    (Q : A -> World -> Prop) (E' E : World -> Prop) :
  triple P m Q E' -> (forall e, triple E' (h e) Q E) -> triple P (try_catch m h) Q E.
Proof.
  intros Hm Hh w HP. specialize (Hm w HP). rewrite run_try_catch.
  destruct (m w) as [[a|e] w1]; [exact Hm | apply (Hh e w1 Hm)].
Qed.

Lemma triple_weaken {A} (P P' : World -> Prop) (m : Async A)
    (Q Q' : A -> World -> Prop) (E E' : World -> Prop) :
  triple P m Q E ->
  (forall w, P' w -> P w) -> (forall a w, Q a w -> Q' a w) -> (forall w, E w -> E' w) ->
  triple P' m Q' E'.
Proof.
  intros Hm HP HQ HE w H. specialize (Hm w (HP w H)).
  destruct (m w) as [[a|e] w1]; auto.
Qed.

(** A steady property survives a computation that touches no record. *)
Lemma triple_untouched {A} (P : World -> Prop) (m : Async A) :
  steady P -> touches_no_record m -> triple P m (fun _ => P) P.
Proof.
  intros HP Hm w H. destruct (Hm w) as [Hq Ht]. unfold exec in *.
  destruct (m w) as [[a|e] w1]; simpl in *; apply (HP w w1 H Hq Ht).
Qed.

Lemma triple_frame {A} (P : World -> Prop) (m : Async A)
    (Q : A -> World -> Prop) (E : World -> Prop) :
  steady P -> touches_no_record m ->
  (forall a w, P w -> Q a w) -> (forall w, P w -> E w) ->
  triple P m Q E.
Proof.
  intros HP Hm HQ HE.
  apply (triple_weaken P P m (fun _ => P) Q P E); auto using triple_untouched.
Qed.

Lemma triple_exec {A} (P R : World -> Prop) (m : Async A) (w : World) :
  triple P m (fun _ => R) R -> P w -> R (exec m w).
Proof.
  intros Hm HP. specialize (Hm w HP). unfold exec.
  destruct (m w) as [[a|e] w1]; exact Hm.
Qed.

(** ** The invariants of the collection *)

Lemma steady_store_invariant (clk : nat -> Z) : steady (store_invariant clk).
Proof.
  intros w w' H Hq Ht id r Hr. rewrite Hq in Hr.
  destruct (H id r Hr) as (Hid & Hrec & Hclk).
  split; [exact Hid|]. split; [exact Hrec|]. intros n Hn. apply Hclk. lia.
Qed.

Lemma steady_stored (clk : nat -> Z) (id : string) (r : Question) :
  steady (fun w => store_invariant clk w /\ questions w !! id = Some r).
Proof.
  intros w w' [H Hr] Hq Ht. split.
  - exact (steady_store_invariant clk w w' H Hq Ht).
  - now rewrite Hq.
Qed.

Lemma store_invariant_insert (clk : nat -> Z) (w : World) (doc : Question) (t : nat) :
  store_invariant clk w ->
  record_invariant doc ->
  (ticks w <= t)%nat ->
  (forall n, (t <= n)%nat -> (createdAt doc <= clk n)%Z) ->
  store_invariant clk (set_questions (insert (_id doc) doc) (set_ticks (fun _ => t) w)).
Proof.
  intros H Hdoc Ht Hclk id r. cbn [questions ticks set_questions set_ticks].
  rewrite lookup_insert. case_decide as Hid.
  - intros [= <-]. auto.
  - intros Hr. destruct (H id r Hr) as (Hid' & Hrec & Hn).
    split; [exact Hid'|]. split; [exact Hrec|]. intros n Hle. apply Hn. lia.
Qed.

(** Saving a document whose approval fields are consistent and whose
    creation lies in the past keeps the invariant. *)
Lemma save_triple (env : Env) (isNew : bool) (doc : Question) :
  triple
    (fun w => store_invariant (clock env) w /\ approval_invariant doc
              /\ forall n, (ticks w <= n)%nat -> (createdAt doc <= clock env n)%Z)
    (QuestionModel.save env isNew doc)
    (fun _ => store_invariant (clock env))
    (store_invariant (clock env)).
Proof.
  intros w (H & Happ & Hclk). unfold QuestionModel.save.
  assert (Hs : store_invariant (clock env) (set_ticks S w)).
  { apply (steady_store_invariant _ w); [exact H|reflexivity|simpl; lia]. }
  rewrite run_bind.
  destruct (if isNew
            then match QuestionModel.validate doc with
                 | Some e => throw e
                 | None => mret ()
                 end
            else mret ()) as [c w0] eqn:Hv at 1.
  assert (Hw0 : w0 = w /\ (forall e, c = Throws e -> True)).
  { destruct isNew; [destruct (QuestionModel.validate doc)|];
      inversion Hv; auto. }
  destruct Hw0 as [-> _]. destruct c as [[]|e]; [|exact H].
  run_io. destruct (db_save env _) as [e|]; run_io; [exact Hs|].
  destruct (isNew && _); run_io; [exact Hs|].
  cbn [_id QuestionModel.set_updatedAt].
  replace (set_ticks S w) with (set_ticks (fun _ => S (ticks w)) w) by reflexivity.
  change (_id doc) with (_id (QuestionModel.set_updatedAt (clock env (ticks w)) doc)).
  apply store_invariant_insert.
  - exact H.
  - split; [exact Happ|]. cbn [createdAt updatedAt QuestionModel.set_updatedAt].
    apply Hclk. lia.
  - lia.
  - intros n Hn. cbn [createdAt QuestionModel.set_updatedAt]. apply Hclk. lia.
Qed.

(** A new document is pending, and is created now. *)
Lemma new_triple (env : Env) (accountId accountName question : string)
    (answer : option string) (isFromImage : bool) (imageUrl : option string) :
  monotone_clock (clock env) ->
  triple
    (store_invariant (clock env))
    (QuestionModel.new env accountId accountName question answer false isFromImage imageUrl)
    (fun doc w =>
       store_invariant (clock env) w /\ approval_invariant doc
       /\ forall n, (ticks w <= n)%nat -> (createdAt doc <= clock env n)%Z)
    (store_invariant (clock env)).
Proof.
  intros Hmono w H. unfold QuestionModel.new. run_io. split; [|split].
  - apply (steady_store_invariant _ w); [exact H|reflexivity|simpl; lia].
  - unfold approval_invariant. cbn [editedAnswer isApproved approvedAt approvedBy].
    split; [congruence|]. split; split; congruence.
  - intros n Hn. cbn [createdAt]. apply Hmono. simpl in Hn. lia.
Qed.

Lemma storeQuestion_triple (env : Env) (userId : Z)
    (firstName questionText : string) (answer : option string) (isFromImage : bool)
    (imageUrl : option string) (saved : string -> string) :
  monotone_clock (clock env) ->
  triple
    (store_invariant (clock env))
    (TelegramController.storeQuestion env userId firstName questionText answer
       isFromImage imageUrl saved)
    (fun _ => store_invariant (clock env))
    (store_invariant (clock env)).
Proof.
  intros Hmono. unfold TelegramController.storeQuestion.
  apply triple_try_catch with (E' := store_invariant (clock env)).
  - eapply triple_bind; [apply new_triple; exact Hmono|]. intros doc. cbv beta.
    eapply triple_bind; [apply save_triple|]. intros doc'. cbv beta.
    apply triple_untouched; [apply steady_store_invariant|].
    unfold logger.info. untouched.
  - intros e. apply triple_untouched; [apply steady_store_invariant|].
    unfold logger.error. untouched.
Qed.

Lemma approve_at_invariant (t : Z) (reviewer : string) (r : Question) :
  approval_invariant (approve_at t reviewer r).
Proof.
  unfold approval_invariant, approve_at.
  cbn [editedAnswer isApproved approvedAt approvedBy QuestionModel.set_approvedBy
       QuestionModel.set_approvedAt QuestionModel.set_isApproved].
  split; [reflexivity|]. split; split; congruence.
Qed.

Lemma stored_is_invariant (clk : nat -> Z) (id : string) (r : Question) (w : World) :
  store_invariant clk w /\ questions w !! id = Some r -> store_invariant clk w.
Proof. now intros [H _]. Qed.

Lemma handleApproval_triple (env : Env) (p : SlackController.BlockActions)
    (r : Question) (id : string) :
  triple
    (fun w => store_invariant (clock env) w /\ questions w !! id = Some r)
    (SlackController.handleApproval env p r)
    (fun _ => store_invariant (clock env))
    (store_invariant (clock env)).
Proof.
  unfold SlackController.handleApproval.
  apply triple_try_catch with (E' := store_invariant (clock env)).
  - eapply triple_bind.
    { apply triple_frame
        with (Q := fun _ w => store_invariant (clock env) w /\ questions w !! id = Some r);
        [apply (steady_stored _ id r)|apply untouched_Date_now|auto
        |apply stored_is_invariant]. }
    intros now. cbv beta.
    eapply triple_bind.
    + eapply triple_weaken; [apply save_triple| |intros a w H; exact H|intros w H; exact H].
      intros w [H Hr]. split; [exact H|]. split; [apply approve_at_invariant|].
      destruct (H id r Hr) as (_ & _ & Hclk). exact Hclk.
    + intros doc. cbv beta.
      apply triple_untouched; [apply steady_store_invariant|]. untouched_calls.
  - intros e. apply triple_untouched; [apply steady_store_invariant|].
    unfold logger.error. untouched.
Qed.
Lemma findById_triple (env : Env) (id : string) :
  triple
    (store_invariant (clock env))
    (QuestionModel.findById env id)
    (fun found w =>
       match found with
       | Some r => store_invariant (clock env) w /\ questions w !! id = Some r
       | None => store_invariant (clock env) w
       end)
    (store_invariant (clock env)).
Proof.
  intros w H. rewrite findById_run. destruct (db_findById env id); [exact H|].
  destruct (questions w !! id) eqn:Hr; auto.
Qed.

Lemma handleViewSubmission_triple (env : Env) (v : SlackController.ViewSubmission) :
  triple
    (store_invariant (clock env))
    (SlackController.handleViewSubmission env v)
    (fun _ => store_invariant (clock env))
    (store_invariant (clock env)).
Proof.
  unfold SlackController.handleViewSubmission. cbv zeta.
  apply triple_try_catch with (E' := store_invariant (clock env)).
  - eapply triple_bind; [apply findById_triple|]. intros [r|]; cbv beta iota.
    + eapply triple_bind.
      { apply triple_frame
          with (Q := fun _ w =>
                       store_invariant (clock env) w
                       /\ questions w !! data_key (SlackController.metadata v) = Some r);
          [apply steady_stored|apply untouched_Date_now|auto|apply stored_is_invariant]. }
      intros now. cbv beta.
      eapply triple_bind.
      * eapply triple_weaken;
          [apply save_triple| |intros a w H; exact H|intros w H; exact H].
        intros w [H Hr]. split; [exact H|]. split; [apply approve_at_invariant|].
        destruct (H _ r Hr) as (_ & _ & Hclk). exact Hclk.
      * intros doc. cbv beta.
        apply triple_untouched; [apply steady_store_invariant|]. untouched_calls.
    + apply triple_untouched; [apply steady_store_invariant|]. untouched_calls.
  - intros e. apply triple_untouched; [apply steady_store_invariant|]. untouched_calls.
Qed.

Lemma handleBlockActions_triple (env : Env) (p : SlackController.BlockActions) :
  triple
    (store_invariant (clock env))
    (SlackController.handleBlockActions env p)
    (fun _ => store_invariant (clock env))
    (store_invariant (clock env)).
Proof.
  unfold SlackController.handleBlockActions.
  apply triple_try_catch with (E' := store_invariant (clock env)).
  - destruct (SlackController.actions p) as [|action rest]; [apply triple_throw|].
    cbv zeta.
    eapply triple_bind; [apply findById_triple|]. intros [r|]; cbv beta iota.
    + destruct (String.eqb _ _); [apply handleApproval_triple|].
      eapply triple_weaken with (P := store_invariant (clock env));
        [|apply stored_is_invariant|intros a w H; exact H|intros w H; exact H].
      apply triple_untouched; [apply steady_store_invariant|]. untouched_calls.
    + apply triple_untouched; [apply steady_store_invariant|]. untouched_calls.
  - intros e. apply triple_untouched; [apply steady_store_invariant|]. untouched_calls.
Qed.

Lemma handleInteraction_triple (env : Env) (req : SlackController.Request) :
  triple
    (store_invariant (clock env))
    (SlackController.handleInteraction env req)
    (fun _ => store_invariant (clock env))
    (store_invariant (clock env)).
Proof.
  unfold SlackController.handleInteraction.
  apply triple_try_catch with (E' := store_invariant (clock env)).
  - eapply triple_bind.
    { apply triple_untouched; [apply steady_store_invariant|].
      destruct req; untouched. }
    intros payload. cbv beta. eapply triple_bind.
    { apply triple_untouched; [apply steady_store_invariant|apply untouched_acknowledge]. }
    intros []. cbv beta. destruct payload as [[p|v|type]|].
    + apply handleBlockActions_triple.
    + apply handleViewSubmission_triple.
    + apply triple_untouched; [apply steady_store_invariant|]. untouched_calls.
    + apply triple_untouched; [apply steady_store_invariant|]. untouched_calls.
  - intros e. apply triple_untouched; [apply steady_store_invariant|]. untouched_calls.
Qed.

Ltac keeps_untouched :=
  apply triple_untouched; [apply steady_store_invariant|untouched_calls].

Lemma processTextMessage_triple (env : Env) (msg : TelegramController.Message)
    (questionText : string) :
  monotone_clock (clock env) ->
  triple
    (store_invariant (clock env))
    (TelegramController.processTextMessage env msg questionText)
    (fun _ => store_invariant (clock env))
    (store_invariant (clock env)).
Proof.
  intros Hmono. unfold TelegramController.processTextMessage. cbv zeta.
  apply triple_try_catch with (E' := store_invariant (clock env)); [|intros e; keeps_untouched].
  eapply triple_bind; [keeps_untouched|]. intros ?. cbv beta.
  eapply triple_bind; [keeps_untouched|]. intros ?. cbv beta.
  eapply triple_bind; [keeps_untouched|]. intros answer. cbv beta.
  eapply triple_bind; [apply storeQuestion_triple; exact Hmono|]. intros id. cbv beta.
  keeps_untouched.
Qed.

Lemma processPhotoMessage_triple (env : Env) (msg : TelegramController.Message) :
  monotone_clock (clock env) ->
  triple
    (store_invariant (clock env))
    (TelegramController.processPhotoMessage env msg)
    (fun _ => store_invariant (clock env))
    (store_invariant (clock env)).
Proof.
  intros Hmono. unfold TelegramController.processPhotoMessage. cbv zeta.
  apply triple_try_catch with (E' := store_invariant (clock env)); [|intros e; keeps_untouched].
  eapply triple_bind; [keeps_untouched|]. intros ?. cbv beta.
  eapply triple_bind; [keeps_untouched|]. intros ?. cbv beta.
  eapply triple_bind; [keeps_untouched|]. intros fileId. cbv beta.
  eapply triple_bind; [keeps_untouched|]. intros download. cbv beta.
  eapply triple_bind; [keeps_untouched|]. intros extractedText. cbv beta.
  eapply triple_bind; [keeps_untouched|]. intros answer. cbv beta.
  eapply triple_bind; [apply storeQuestion_triple; exact Hmono|]. intros id. cbv beta.
  keeps_untouched.
Qed.

Lemma processMessage_triple (env : Env) (msg : TelegramController.Message) :
  monotone_clock (clock env) ->
  triple
    (store_invariant (clock env))
    (TelegramController.processMessage env msg)
    (fun _ => store_invariant (clock env))
    (store_invariant (clock env)).
Proof.
  intros Hmono. unfold TelegramController.processMessage. cbv zeta.
  apply triple_try_catch with (E' := store_invariant (clock env)); [|intros e; keeps_untouched].
  eapply triple_bind; [keeps_untouched|]. intros ?. cbv beta.
  destruct (TelegramController.photo msg) as [|ph rest].
  - destruct (TelegramController.text msg) as [[|c s]|].
    + keeps_untouched.
    + apply processTextMessage_triple. exact Hmono.
    + keeps_untouched.
  - apply processPhotoMessage_triple. exact Hmono.
Qed.

Lemma store_invariant_empty (clk : nat -> Z) : store_invariant clk empty_world.
Proof. intros id r H. cbn in H. rewrite lookup_empty in H. discriminate. Qed.

(** C9: with a clock that does not run backwards, the operations that
    create a record (a Telegram message, text or photo) and those that
    change one (a Slack interaction: approval or edit submission) keep the
    invariants of every stored record: an edited answer only on an approved
    record, [approvedAt] and [approvedBy] set exactly when the record is
    approved, and [updatedAt] not before [createdAt]. *)
Theorem record_invariants_preserved (env : Env) (w : World) :
  monotone_clock (clock env) ->
  store_invariant (clock env) w ->
  (forall msg,
     store_invariant (clock env) (exec (TelegramController.processMessage env msg) w))
  /\ (forall req : SlackController.Request,
        store_invariant (clock env)
          (exec (SlackController.handleInteraction env req) w)).
Proof.
  intros Hmono H. split.
  - intros msg. apply (triple_exec (store_invariant (clock env))); [|exact H].
    apply processMessage_triple. exact Hmono.
  - intros req. apply (triple_exec (store_invariant (clock env))); [|exact H].
    apply handleInteraction_triple.
Qed.

Lemma sample_clock_monotone (api : nat -> ChatRequest -> AxiosReply) :
  monotone_clock (clock (sample_env api)).
Proof. intros i j H. simpl. lia. Qed.

Lemma record_invariants_preserved_witness :
  (forall msg,
     store_invariant (clock (sample_env api_down))
       (exec (TelegramController.processMessage (sample_env api_down) msg)
          (world_with sample_question)))
  /\ (forall req : SlackController.Request,
        store_invariant (clock (sample_env api_down))
          (exec (SlackController.handleInteraction (sample_env api_down) req)
             (world_with sample_question))).
Proof.
  apply (record_invariants_preserved (sample_env api_down) (world_with sample_question)).
  - intros i j H. simpl. lia.
  - intros id r. unfold world_with. cbn [questions set_questions empty_world].
    rewrite lookup_insert. case_decide as Hid; [|rewrite lookup_empty; discriminate].
    intros [= <-]. split; [exact Hid|]. split.
    + unfold record_invariant, approval_invariant. simpl.
      split; [|lia]. split; [congruence|]. split; split; congruence.
    + intros n _. simpl. lia.
Defined.

(** ** Scenarios *)

(** The API is unreachable: the student's text question gets the generic
    fallback as its answer, the record is stored pending, the review card is
    posted and the student is told to wait. *)
Example text_question_with_api_down :
  let w := exec (TelegramController.processMessage (sample_env api_down)
                   sample_text_message) empty_world in
  questions w !! "65f000000000000000000001"
  = Some {| _id := "65f000000000000000000001";
            accountId := "4242"; accountName := "Asha";
            question := "What is 2+2?";
            answer := DeepseekService.fallback_generic;
            editedAnswer := None; isApproved := false; isFromImage := false;
            imageUrl := None; createdAt := 0; updatedAt := 2;
            approvedAt := None; approvedBy := None |}
  /\ slack w
     = [ChatPostMessage "testing"
          [ContextMrkdwn "*From:* Asha | *Source:* Text";
           RichTextBold (Some "What is 2+2?");
           Divider;
           RichTextBold (Some DeepseekService.fallback_generic);
           Actions "approval_buttons"
             [{| button_text := "Approve"; button_style := "primary";
                 button_value := "65f000000000000000000001";
                 button_action_id := "approve_button" |};
              {| button_text := "Edit"; button_style := "danger";
                 button_value := "65f000000000000000000001";
                 button_action_id := "edited_button" |}]]
          "New question from Asha: What is 2+2?..."]
  /\ telegram w
     = [SendChatAction "4242" "typing";
        SendMessage "4242"
          "I've received your question and am working on it. A teacher will review the answer shortly."
          None]
  /\ length (net w) = 6.
Proof. vm_compute. repeat split. Qed.

(** A photo: the downloaded file is a [.jpg], so the question is the canned
    derivative exercise, in which the fallback finds no keyword.  The
    notification text of the card quotes the first fifty UTF-16 units of the
    question, of which the exponent is one. *)
Example photo_question_with_api_down :
  let w := exec (TelegramController.processMessage (sample_env api_down)
                   sample_photo_message) empty_world in
  (question <$> questions w !! "65f000000000000000000001")
  = Some "Find the derivative of f(x) = 3x² + 2x - 5 with respect to x."
  /\ (answer <$> questions w !! "65f000000000000000000001")
     = Some DeepseekService.fallback_generic
  /\ (imageUrl <$> questions w !! "65f000000000000000000001")
     = Some (Some "https://api.telegram.org/file/bot0000:token/photos/file_1.jpg")
  /\ match slack w with
     | [ChatPostMessage _ _ text] =>
         text = "New question from Asha: Find the derivative of f(x) = 3x² + 2x - 5 with re..."
     | _ => False
     end.
Proof. vm_compute. repeat split. Qed.

(** Two failures, then an answer: three requests, with waits of one and of
    two seconds between them, and no simplified request. *)
Example answer_at_third_attempt :
  let api := fun n (_ : ChatRequest) =>
               if (n <? 2)%nat then Rejects (Error "timeout of 30000ms exceeded")
               else Resolves (Some [Some "2 + 2 = 4"]) in
  let env := sample_env api in
  let P := Post (DeepseekService.primary_request env "What is 2+2?") in
  completion (DeepseekService.generateAnswer env "What is 2+2?") empty_world
  = Returns (Some "2 + 2 = 4")
  /\ net (exec (DeepseekService.generateAnswer env "What is 2+2?") empty_world)
     = [P; Wait 1000; P; Wait 2000; P].
Proof. vm_compute. split; reflexivity. Qed.

(** The API resolves every request with a null content: the three primary
    requests fail at the length of the content, the simplified request
    returns the null as it is; the document with a null answer is refused by
    the validator, and the card is posted with a temporary id and a null
    answer. *)
Example text_question_with_null_content :
  let env := sample_env (fun _ _ => Resolves (Some [None])) in
  let w := exec (TelegramController.processMessage env sample_text_message)
             empty_world in
  completion (DeepseekService.generateAnswer env "What is 2+2?") empty_world
  = Returns None
  /\ questions w = ∅
  /\ slack w = [review_card env "What is 2+2?" None "temp-2" "Asha" false]
  /\ In (error, "Error saving to database: Question validation failed: "
                +:+ "answer: Path `answer` is required.") (log w)
  /\ length (net w) = 6.
Proof. vm_compute. repeat split. tauto. Qed.

(** The validator names every required path that is empty. *)
Example validation_names_every_path :
  QuestionModel.validate
    {| _id := "65f000000000000000000001";
       accountId := "4242"; accountName := EmptyString;
       question := "What is 2+2?"; answer := EmptyString;
       editedAnswer := None; isApproved := false; isFromImage := false;
       imageUrl := None; createdAt := 0; updatedAt := 0;
       approvedAt := None; approvedBy := None |}
  = Some (Error ("Question validation failed: "
                 +:+ "accountName: Path `accountName` is required., "
                 +:+ "answer: Path `answer` is required.")).
Proof. reflexivity. Qed.

(** A request whose payload is not JSON is not answered. *)
Example malformed_payload_unanswered :
  SlackController.handleInteraction (sample_env api_down)
    (SlackController.malformed (Error "Unexpected token o in JSON at position 1"))
    (world_with sample_question)
  = (Returns tt,
     logged [(error, "Error handling Slack interaction: "
                     +:+ "Unexpected token o in JSON at position 1")]
       (world_with sample_question)).
Proof. reflexivity. Qed.

(** * Further properties *)

(** ** Printed integers *)

Lemma pretty_N_go_nonempty (x : N) (s : string) :
  s <> EmptyString -> pretty_N_go x s <> EmptyString.
Proof.
  revert s. induction (N.lt_wf_0 x) as [x _ IH]; intros s Hs.
  destruct (decide (0 < x)%N) as [Hx|Hx].
  - rewrite pretty_N_go_step by exact Hx. apply IH; [now apply N.div_lt | discriminate].
  - replace x with 0%N by lia. now rewrite pretty_N_go_0.
Qed.

Lemma pretty_N_nonempty (x : N) : pretty x <> EmptyString.
Proof.
  unfold pretty, pretty_N. case_decide as Hx; [discriminate|].
  rewrite pretty_N_go_step by lia. apply pretty_N_go_nonempty. discriminate.
Qed.

Lemma pretty_Z_nonempty (z : Z) : pretty z <> EmptyString.
Proof.
  destruct z as [|p|p]; [discriminate|apply pretty_N_nonempty|].
  unfold pretty, pretty_Z. discriminate.
Qed.

Lemma pretty_N_char_decimal (x : N) : decimal_char (pretty_N_char x) = true.
Proof.
  unfold pretty_N_char.
  repeat match goal with |- context [match ?y with _ => _ end] => destruct y end;
    reflexivity.
Qed.

Lemma pretty_N_go_decimal (x : N) (s : string) :
  all_chars decimal_char s = true -> all_chars decimal_char (pretty_N_go x s) = true.
Proof.
  revert s. induction (N.lt_wf_0 x) as [x _ IH]; intros s Hs.
  destruct (decide (0 < x)%N) as [Hx|Hx].
  - rewrite pretty_N_go_step by exact Hx. apply IH; [now apply N.div_lt|].
    cbn [all_chars]. now rewrite pretty_N_char_decimal, Hs.
  - replace x with 0%N by lia. now rewrite pretty_N_go_0.
Qed.

Lemma pretty_Z_decimal (z : Z) : all_chars decimal_char (pretty z) = true.
Proof.
  assert (HN : forall x : N, all_chars decimal_char (pretty x) = true).
  { intros x. unfold pretty, pretty_N. case_decide; [reflexivity|].
    now apply pretty_N_go_decimal. }
  destruct z as [|p|p]; [reflexivity|apply HN|].
  unfold pretty, pretty_Z. rewrite append_String, append_Empty.
  cbn [all_chars]. change (pretty p) with (pretty (Npos p)). now rewrite HN.
Qed.

(** ** Steps of the Telegram flows *)

Lemma call_run (env : Env) (c : TelegramCall) (w : World) :
  TelegramService.call env c w =
  match telegram_api env c with
  | Some e => (Throws e, w)
  | None => (Returns tt, set_telegram (fun cs => cs ++ [c]) w)
  end.
Proof. unfold TelegramService.call. now destruct (telegram_api env c). Qed.

Lemma slack_call_run (env : Env) (c : SlackCall) (w : World) :
  SlackService.call env c w =
  match slack_api env c with
  | Some e => (Throws e, w)
  | None => (Returns tt, set_slack (fun cs => cs ++ [c]) w)
  end.
Proof. unfold SlackService.call. now destruct (slack_api env c). Qed.

(** [generateAnswer] returns, and leaves a world that differs by log lines,
    requests and waits only. *)
Lemma generateAnswer_returns (env : Env) (question : string) (w : World) :
  exists answer l events n,
    DeepseekService.generateAnswer env question w
    = (Returns answer, logged l (neted events n w))
    /\ (1 <= n <= 4)%nat.
Proof.
  destruct (generateAnswer_run env question w) as [l H]. cbv zeta in H. rewrite H.
  rewrite _getFallbackResponse_completion.
  repeat match goal with |- context [match ?c with Some _ => _ | None => _ end] =>
    destruct c end;
    eexists _, l, _, _; (split; [reflexivity|lia]).
Qed.

(** What [generateAnswer] returns depends on the world through the number of
    the next reply only. *)
Lemma generateAnswer_completion_posts (env : Env) (question : string) (w1 w2 : World) :
  posts w1 = posts w2 ->
  completion (DeepseekService.generateAnswer env question) w1
  = completion (DeepseekService.generateAnswer env question) w2.
Proof.
  intros Hp.
  destruct (generateAnswer_run env question w1) as [l1 H1].
  destruct (generateAnswer_run env question w2) as [l2 H2].
  cbv zeta in H1, H2. unfold completion. rewrite H1, H2, Hp.
  rewrite !_getFallbackResponse_completion.
  repeat match goal with |- context [match ?c with Some _ => _ | None => _ end] =>
    destruct c end; reflexivity.
Qed.

Lemma reply_content_simplified (r : AxiosReply) (answer : string) :
  reply_content r = Some answer -> simplified_content r = Some (Some answer).
Proof. destruct r as [e|[[|[a|] rest]|]]; cbn; congruence. Qed.

Lemma contents_nonempty_primary (env : Env) (n : nat) (r : ChatRequest) (answer : string) :
  contents_nonempty env ->
  reply_content (axios_post env n r) = Some answer -> answer <> EmptyString.
Proof.
  intros Hne H. apply reply_content_simplified in H.
  destruct (Hne _ _ _ H) as (a & [= <-] & Ha). exact Ha.
Qed.

(** When the API never sends a null or an empty content, the answer is a
    string, and not the empty one. *)
Lemma generateAnswer_nonempty (env : Env) (question : string) (result : option string)
    (w : World) :
  contents_nonempty env ->
  completion (DeepseekService.generateAnswer env question) w = Returns result ->
  exists answer, result = Some answer /\ answer <> EmptyString.
Proof.
  intros Hne. destruct (generateAnswer_run env question w) as [l H]. cbv zeta in H.
  unfold completion. rewrite H. clear H.
  destruct (reply_content (axios_post env (posts w) _)) as [a0|] eqn:H0.
  { intros [= <-]. exists a0. split; [reflexivity|]. eapply contents_nonempty_primary; eauto. }
  destruct (reply_content (axios_post env (S (posts w)) _)) as [a1|] eqn:H1.
  { intros [= <-]. exists a1. split; [reflexivity|]. eapply contents_nonempty_primary; eauto. }
  destruct (reply_content (axios_post env (S (S (posts w))) _)) as [a2|] eqn:H2.
  { intros [= <-]. exists a2. split; [reflexivity|]. eapply contents_nonempty_primary; eauto. }
  destruct (simplified_content (axios_post env (S (S (S (posts w)))) _)) as [a3|] eqn:H3.
  { intros [= <-]. exact (Hne _ _ _ H3). }
  cbn [fst]. intros Hc.
  destruct (fallback_in_strings question w) as (s & Hs & Hin).
  rewrite Hs in Hc. injection Hc as <-. exists s. split; [reflexivity|].
  now apply fallback_strings_nonempty.
Qed.

Lemma or_string_nonempty (a b : string) : a <> EmptyString -> or_string (Some a) b = a.
Proof. destruct a; [contradiction|reflexivity]. Qed.

Lemma validate_pending (env : Env) (userId : Z) (firstName questionText answerText : string)
    (fromImage : bool) (image : option string) (created saved : Z) :
  firstName <> EmptyString -> questionText <> EmptyString ->
  answerText <> EmptyString ->
  QuestionModel.validate
    (pending_record env userId firstName questionText answerText fromImage image
       created saved) = None.
Proof.
  intros Hn Hq Ha. unfold QuestionModel.validate, QuestionModel.required_paths.
  cbn [accountId accountName question answer pending_record filter list_filter snd].
  pose proof (pretty_Z_nonempty userId) as Hu.
  apply String.eqb_neq in Hn, Hq, Ha, Hu.
  cbn. rewrite Hn, Hq, Ha, Hu. reflexivity.
Qed.

(** Storing a question: the store accepts the document, its [_id] is free
    and no required path is empty. *)
Lemma storeQuestion_ok (env : Env) (userId : Z) (firstName questionText answerText : string)
    (fromImage : bool) (image : option string) (saved : string -> string) (w : World) :
  firstName <> EmptyString -> questionText <> EmptyString ->
  answerText <> EmptyString ->
  (forall doc, db_save env doc = None) ->
  questions w !! new_ObjectId env = None ->
  TelegramController.storeQuestion env userId firstName questionText (Some answerText)
    fromImage image saved w
  = (Returns (new_ObjectId env),
     logged [(info, saved (new_ObjectId env))]
       (set_questions
          (insert (new_ObjectId env)
             (pending_record env userId firstName questionText answerText fromImage image
                (clock env (ticks w)) (clock env (S (S (ticks w))))))
          (set_ticks S (set_ticks S (set_ticks S w))))).
Proof.
  intros Hn Hq Ha Hsave Hfresh. unfold TelegramController.storeQuestion.
  unfold QuestionModel.new, QuestionModel.save. run_io.
  rewrite (or_string_nonempty answerText) by exact Ha.
  match goal with |- context [QuestionModel.validate ?d] =>
    change d with (pending_record env userId firstName questionText answerText fromImage
                     image (clock env (ticks w)) (clock env (S (ticks w))))
  end.
  rewrite validate_pending by assumption. run_io. rewrite Hsave.
  cbn [questions set_ticks _id QuestionModel.set_updatedAt pending_record].
  rewrite Hfresh. rewrite bool_decide_eq_false_2 by (intros [x Hx]; discriminate).
  cbn [andb]. run_io. reflexivity.
Qed.

(** Storing a question, whatever the store does: a document under the new
    [_id], or a temporary id and an unchanged collection. *)
Lemma storeQuestion_cases (env : Env) (userId : Z)
    (firstName questionText : string) (answer : option string) (fromImage : bool)
    (image : option string) (saved : string -> string) (w : World) :
  exists id w',
    TelegramController.storeQuestion env userId firstName questionText answer
      fromImage image saved w = (Returns id, w')
    /\ same_outside_store w w'
    /\ ((id = new_ObjectId env
         /\ exists doc, db_save env doc = None
                        /\ questions w' = <[new_ObjectId env := doc]> (questions w))
        \/ (questions w' = questions w /\ exists t : Z, id = "temp-" +:+ pretty t)).
Proof.
  unfold TelegramController.storeQuestion, same_outside_store.
  unfold QuestionModel.new, QuestionModel.save. run_io.
  destruct (QuestionModel.validate _); run_io.
  { eexists _, _. split; [reflexivity|]. fields. split; [repeat split|].
    right. split; [reflexivity|]. eexists. reflexivity. }
  destruct (db_save env _) eqn:Hsave; run_io.
  { eexists _, _. split; [reflexivity|]. fields. split; [repeat split|].
    right. split; [reflexivity|]. eexists. reflexivity. }
  destruct (true && _); run_io.
  { eexists _, _. split; [reflexivity|]. fields. split; [repeat split|].
    right. split; [reflexivity|]. eexists. reflexivity. }
  eexists _, _. split; [reflexivity|]. fields. split; [repeat split|].
  left. split; [reflexivity|]. eexists. split; [exact Hsave|reflexivity].
Qed.

Lemma sendQuestionForApproval_run (env : Env)
    (questionText : string) (answer : option string) (recordId studentName : string)
    (fromImage : bool) (w : World) :
  SlackService.sendQuestionForApproval env questionText answer recordId studentName
    fromImage w
  = match slack_api env
            (review_card env questionText answer recordId studentName fromImage) with
    | None =>
        (Returns tt,
         set_slack
           (fun cs => cs ++ [review_card env questionText answer recordId
                               studentName fromImage]) w)
    | Some e =>
        (Throws (Error ("Failed to send message to Slack: " +:+ message e)),
         logged [(error, "Error sending message to Slack: " +:+ message e)] w)
    end.
Proof.
  unfold SlackService.sendQuestionForApproval. rewrite run_try_catch, slack_call_run.
  change (ChatPostMessage _ _ _)
    with (review_card env questionText answer recordId studentName fromImage).
  destruct (slack_api env _); run_io; reflexivity.
Qed.

(** ** The text flow *)

Ltac telegram_flow :=
  unfold TelegramController.bot_sendChatAction, TelegramController.bot_sendMessage;
  cbv zeta; run_io.

Ltac world_fields :=
  cbn [questions telegram slack sheet sheets_initialized log net posts ticks responses
       set_questions set_telegram set_slack set_sheet set_sheets_initialized set_log
       set_net set_ticks set_responses logged neted posted waited acknowledged].

Ltac world_fields_in H :=
  cbn [questions telegram slack sheet sheets_initialized log net posts ticks responses
       set_questions set_telegram set_slack set_sheet set_sheets_initialized set_log
       set_net set_ticks set_responses logged neted posted waited acknowledged] in H.

(** X1: a text question when Telegram, the store and Slack accept their
    calls, the API never sends a null or an empty content, the new [_id] is
    free and the student has a name: the collection gains the pending record
    of the question with the answer [generateAnswer] returned, under the new
    [_id]; the review card of that record is posted, with the source Text,
    the question and that answer, that [_id] on both buttons and the first
    fifty UTF-16 units of the question in its notification text; the student
    sees the typing indicator and then the acknowledgement. *)
Theorem text_question_pending (env : Env) (msg : TelegramController.Message)
    (questionText : string) (w : World) :
  telegram_accepts env ->
  (forall doc, db_save env doc = None) ->
  (forall c, slack_api env c = None) ->
  contents_nonempty env ->
  TelegramController.first_name msg <> EmptyString ->
  questionText <> EmptyString ->
  questions w !! new_ObjectId env = None ->
  exists answerText w',
    TelegramController.processTextMessage env msg questionText w = (Returns tt, w')
    /\ completion (DeepseekService.generateAnswer env questionText) w
       = Returns (Some answerText)
    /\ questions w'
       = <[new_ObjectId env :=
             pending_record env (TelegramController.from_id msg)
               (TelegramController.first_name msg) questionText answerText false None
               (clock env (ticks w)) (clock env (S (S (ticks w))))]> (questions w)
    /\ slack w'
       = slack w ++ [review_card env questionText (Some answerText) (new_ObjectId env)
                       (TelegramController.first_name msg) false]
    /\ telegram w'
       = telegram w ++ [typing (TelegramController.chat_id msg);
                        reply (TelegramController.chat_id msg) text_acknowledgement].
Proof.
  intros Htg Hsave Hslack Hne Hname Htext Hfresh.
  unfold TelegramController.processTextMessage.
  telegram_flow. rewrite call_run, Htg. run_io.
  match goal with |- context [DeepseekService.generateAnswer env questionText ?w1] =>
    destruct (generateAnswer_returns env questionText w1)
      as (result & l & events & n & Hg & _);
    pose proof (generateAnswer_completion_posts env questionText w1 w eq_refl) as Hc
  end.
  unfold completion in Hc at 1. rewrite Hg in Hc. cbn [fst] in Hc.
  destruct (generateAnswer_nonempty env questionText result w Hne (eq_sym Hc))
    as (answerText & -> & Hanswer).
  exists answerText. rewrite Hg. run_io.
  rewrite storeQuestion_ok; try assumption.
  run_io. rewrite sendQuestionForApproval_run, Hslack. run_io.
  rewrite call_run, Htg. run_io.
  eexists. split; [reflexivity|]. split; [now symmetry|]. world_fields.
  split; [reflexivity|]. split; [reflexivity|]. now rewrite <- app_assoc.
Qed.

Lemma text_question_pending_witness :
  exists answerText w',
    TelegramController.processTextMessage (sample_env (api_answers "2 + 2 = 4"))
      sample_text_message "What is 2+2?" empty_world = (Returns tt, w')
    /\ completion (DeepseekService.generateAnswer (sample_env (api_answers "2 + 2 = 4"))
                     "What is 2+2?") empty_world = Returns (Some answerText)
    /\ questions w'
       = <["65f000000000000000000001" :=
             pending_record (sample_env (api_answers "2 + 2 = 4")) 4242 "Asha"
               "What is 2+2?" answerText false None 0 2]> ∅
    /\ slack w'
       = [] ++ [review_card (sample_env (api_answers "2 + 2 = 4")) "What is 2+2?"
                  (Some answerText) "65f000000000000000000001" "Asha" false]
    /\ telegram w' = [] ++ [typing 4242; reply 4242 text_acknowledgement].
Proof.
  apply (text_question_pending (sample_env (api_answers "2 + 2 = 4"))
           sample_text_message "What is 2+2?" empty_world).
  - intros c. reflexivity.
  - intros doc. reflexivity.
  - intros c. reflexivity.
  - intros n r content [= <-]. eexists. split; [reflexivity|discriminate].
  - discriminate.
  - discriminate.
  - reflexivity.
Defined.

(** X2: when Telegram accepts its calls, a text question is acknowledged
    whatever the API, the store and Slack do: the student gets the typing
    indicator and the acknowledgement, nothing else, and the handler
    returns. *)
Theorem text_question_acknowledged (env : Env) (msg : TelegramController.Message)
    (questionText : string) (w : World) :
  telegram_accepts env ->
  exists w',
    TelegramController.processTextMessage env msg questionText w = (Returns tt, w')
    /\ telegram w'
       = telegram w ++ [typing (TelegramController.chat_id msg);
                        reply (TelegramController.chat_id msg) text_acknowledgement].
Proof.
  intros Htg. unfold TelegramController.processTextMessage.
  telegram_flow. rewrite call_run, Htg. run_io.
  match goal with |- context [DeepseekService.generateAnswer env questionText ?w1] =>
    destruct (generateAnswer_returns env questionText w1)
      as (answerText & l & events & n & -> & _)
  end.
  run_io.
  match goal with |- context [TelegramController.storeQuestion env ?u ?f ?q ?a ?i ?img ?s ?w2] =>
    destruct (storeQuestion_cases env u f q a i img s w2)
      as (id & w3 & -> & (Ht & _) & _)
  end.
  world_fields_in Ht. run_io. rewrite sendQuestionForApproval_run.
  destruct (slack_api env _); run_io; rewrite call_run, Htg; run_io;
    (eexists; split; [reflexivity|]); world_fields; rewrite Ht;
    now rewrite <- app_assoc.
Qed.

Lemma text_question_acknowledged_witness :
  exists w',
    TelegramController.processTextMessage slack_down_env sample_text_message
      "What is 2+2?" empty_world = (Returns tt, w')
    /\ telegram w' = [] ++ [typing 4242; reply 4242 text_acknowledgement].
Proof.
  apply (text_question_acknowledged slack_down_env sample_text_message
           "What is 2+2?" empty_world).
  intros c. reflexivity.
Defined.



(** X4: when Telegram refuses the typing indicator, the question goes
    nowhere: no request is sent to the API, nothing is stored, no card is
    posted.  The student gets the apology if Telegram accepts it; if not, the
    error leaves [processTextMessage]. *)
Theorem text_question_typing_refused (env : Env) (msg : TelegramController.Message)
    (questionText : string) (w : World) (e : JsError) :
  telegram_api env (typing (TelegramController.chat_id msg)) = Some e ->
  exists c w',
    TelegramController.processTextMessage env msg questionText w = (c, w')
    /\ questions w' = questions w /\ slack w' = slack w
    /\ net w' = net w /\ posts w' = posts w
    /\ match telegram_api env (reply (TelegramController.chat_id msg) text_apology) with
       | None =>
           c = Returns tt
           /\ telegram w'
              = telegram w ++ [reply (TelegramController.chat_id msg) text_apology]
       | Some e' => c = Throws e' /\ telegram w' = telegram w
       end.
Proof.
  intros Htyping. unfold TelegramController.processTextMessage.
  telegram_flow. rewrite call_run.
  change (SendChatAction _ _) with (typing (TelegramController.chat_id msg)).
  rewrite Htyping. run_io. rewrite call_run.
  change (SendMessage _ _ _) with (reply (TelegramController.chat_id msg) text_apology).
  destruct (telegram_api env (reply _ _)); eexists _, _;
    (split; [reflexivity|]); world_fields; repeat split; reflexivity.
Qed.

Lemma text_question_typing_refused_witness :
  exists c w',
    TelegramController.processTextMessage typing_refused_env sample_text_message
      "What is 2+2?" empty_world = (c, w')
    /\ questions w' = ∅ /\ slack w' = []
    /\ net w' = [] /\ posts w' = 0%nat
    /\ match telegram_api typing_refused_env (reply 4242 text_apology) with
       | None => c = Returns tt /\ telegram w' = [] ++ [reply 4242 text_apology]
       | Some e' => c = Throws e' /\ telegram w' = []
       end.
Proof.
  apply (text_question_typing_refused typing_refused_env sample_text_message
           "What is 2+2?" empty_world (Error "ETELEGRAM: 429 Too Many Requests")).
  reflexivity.
Defined.

(** ** The entry point of the Telegram controller *)

(** X5: [processMessage] returns for every message and in every
    environment: what its flows throw is caught and logged, and so is a
    failure to tell the student. *)
Theorem processMessage_returns (env : Env) (msg : TelegramController.Message) (w : World) :
  completion (TelegramController.processMessage env msg) w = Returns tt.
Proof.
  unfold completion, TelegramController.processMessage. rewrite run_try_catch.
  match goal with |- context [match ?body w with _ => _ end] =>
    destruct (body w) as [[[]|e] w1] end; [reflexivity|].
  unfold TelegramController.bot_sendMessage. run_io. rewrite call_run.
  destruct (telegram_api env _); run_io; reflexivity.
Qed.

(** X6: a message with neither photo nor text (or with an empty text) is
    not a question: no request is sent to the API, nothing is stored and no
    card is posted; the student is told that only text and images are
    processed, when Telegram accepts that reply. *)
Theorem unsupported_message (env : Env) (msg : TelegramController.Message) (w : World) :
  TelegramController.photo msg = [] ->
  TelegramController.text msg = None \/ TelegramController.text msg = Some EmptyString ->
  exists w',
    TelegramController.processMessage env msg w = (Returns tt, w')
    /\ questions w' = questions w /\ slack w' = slack w
    /\ net w' = net w /\ posts w' = posts w
    /\ (telegram_api env (reply (TelegramController.chat_id msg) unsupported_reply) = None ->
        telegram w'
        = telegram w ++ [reply (TelegramController.chat_id msg) unsupported_reply]).
Proof.
  intros Hphoto Htext. unfold TelegramController.processMessage. rewrite Hphoto.
  assert (Hbranch :
    match TelegramController.text msg with
    | Some (String c s) => TelegramController.processTextMessage env msg (String c s)
    | _ => TelegramController.bot_sendMessage env (TelegramController.chat_id msg)
             unsupported_reply
    end
    = TelegramController.bot_sendMessage env (TelegramController.chat_id msg)
        unsupported_reply)
    by (destruct Htext as [-> | ->]; reflexivity).
  cbv zeta. fold unsupported_reply. rewrite Hbranch.
  unfold TelegramController.bot_sendMessage. run_io. rewrite call_run.
  change (SendMessage _ unsupported_reply None)
    with (reply (TelegramController.chat_id msg) unsupported_reply).
  destruct (telegram_api env (reply _ unsupported_reply)) eqn:Hreply; run_io.
  - rewrite call_run.
    match goal with |- context [telegram_api env ?c] =>
      destruct (telegram_api env c) end;
      run_io; (eexists; split; [reflexivity|]); world_fields; repeat split;
      discriminate.
  - eexists. split; [reflexivity|]. world_fields. repeat split.
Qed.

Lemma unsupported_message_witness :
  exists w',
    TelegramController.processMessage (sample_env api_down) sample_sticker_message
      empty_world = (Returns tt, w')
    /\ questions w' = ∅ /\ slack w' = []
    /\ net w' = [] /\ posts w' = 0%nat
    /\ (telegram_api (sample_env api_down) (reply 4242 unsupported_reply) = None ->
        telegram w' = [] ++ [reply 4242 unsupported_reply]).
Proof.
  apply (unsupported_message (sample_env api_down) sample_sticker_message empty_world).
  - reflexivity.
  - left. reflexivity.
Defined.

(** ** Paths *)

Lemma all_chars_app (p : ascii -> bool) (a b : string) :
  all_chars p (a +:+ b) = all_chars p a && all_chars p b.
Proof.
  induction a as [|c a IH]; [reflexivity|].
  rewrite append_String. cbn [all_chars]. now rewrite IH, andb_assoc.
Qed.

Lemma all_chars_impl (p q : ascii -> bool) (s : string) :
  (forall c, p c = true -> q c = true) ->
  all_chars p s = true -> all_chars q s = true.
Proof.
  intros Hpq. induction s as [|c s IH]; [reflexivity|]. cbn [all_chars].
  rewrite !andb_true_iff. intros [Hc Hs]. auto.
Qed.

Lemma after_last_absent (c : ascii) (s : string) :
  all_chars (fun d => negb (Ascii.eqb c d)) s = true -> after_last c s = None.
Proof.
  induction s as [|d s IH]; [reflexivity|]. cbn [all_chars after_last].
  rewrite andb_true_iff, negb_true_iff. intros [Hd Hs]. now rewrite (IH Hs), Hd.
Qed.

Lemma after_last_app (c : ascii) (a b : string) :
  after_last c b = None -> after_last c (a +:+ String c b) = Some b.
Proof.
  intros Hb. induction a as [|d a IH].
  - rewrite append_Empty. cbn [after_last]. now rewrite Hb, Ascii.eqb_refl.
  - rewrite append_String. cbn [after_last]. now rewrite IH.
Qed.

Lemma decimal_char_not (c d : ascii) :
  decimal_char c = false -> decimal_char d = true -> negb (Ascii.eqb c d) = true.
Proof.
  intros Hc Hd. apply negb_true_iff, Ascii.eqb_neq. congruence.
Qed.

(** The files [downloadPhoto] writes are [.jpg] files. *)
Lemma basename_temp_path (env : Env) (t : Z) :
  basename (temp_path env t) = pretty t +:+ ".jpg".
Proof.
  unfold basename.
  change (temp_path env t)
    with ((app_dir env +:+ "/" +:+ "temp") +:+ String "/" (pretty t +:+ ".jpg")).
  rewrite (after_last_app "/" (app_dir env +:+ "/" +:+ "temp") (pretty t +:+ ".jpg")).
  - reflexivity.
  - apply after_last_absent. rewrite all_chars_app. apply andb_true_iff. split.
    + apply (all_chars_impl decimal_char); [|apply pretty_Z_decimal].
      intros d. now apply decimal_char_not.
    + reflexivity.
Qed.

Lemma extname_temp_path (env : Env) (t : Z) : extname (temp_path env t) = ".jpg".
Proof.
  unfold extname. rewrite basename_temp_path.
  pose proof (pretty_Z_nonempty t) as Hne. pose proof (pretty_Z_decimal t) as Hdec.
  destruct (pretty t) as [|c0 rest]; [congruence|].
  rewrite append_String. cbn [all_chars] in Hdec.
  apply andb_true_iff in Hdec as [_ Hrest].
  change (rest +:+ ".jpg") with (rest +:+ String "." "jpg").
  rewrite after_last_app by reflexivity. reflexivity.
Qed.

(** ** The photo flow *)

Lemma getPhotoUrl_run (env : Env) (fileId : string) (w : World) :
  TelegramController.getPhotoUrl env fileId w =
  match bot_getFile env fileId with
  | inl e =>
      (Throws (Error ("Failed to get file from Telegram: " +:+ message e)),
       logged [(error, "Error getting file from Telegram: " +:+ message e)] w)
  | inr file_path => (Returns (photo_url env file_path), w)
  end.
Proof.
  unfold TelegramController.getPhotoUrl. rewrite run_try_catch.
  destruct (bot_getFile env fileId); run_io; reflexivity.
Qed.

Lemma downloadPhoto_ok (env : Env) (url : string) (w : World) :
  files_ok env ->
  TelegramController.downloadPhoto env url w
  = (Returns (temp_path env (clock env (ticks w))), set_ticks S w).
Proof.
  intros (Hget & Hmkdir & Hwrite & _). unfold TelegramController.downloadPhoto.
  cbv zeta. run_io. rewrite Hget. run_io.
  destruct (negb (fs_existsSync env _)); [rewrite Hmkdir|]; run_io;
    fold (temp_path env (clock env (ticks w))); rewrite Hwrite; reflexivity.
Qed.

Lemma downloadPhoto_unreachable (env : Env) (url : string) (w : World) (e : JsError) :
  http_get env url = Some e ->
  TelegramController.downloadPhoto env url w
  = (Throws (Error ("Failed to download photo: " +:+ message e)),
     logged [(error, "Error downloading photo: " +:+ message e)] w).
Proof.
  intros Hget. unfold TelegramController.downloadPhoto. cbv zeta. run_io.
  rewrite Hget. run_io. reflexivity.
Qed.

(** The mock extractor, run: when its debug copy succeeds the text depends
    on the lower-cased extension of the path alone; when the copy fails it
    is the extractor's fallback text. *)
Lemma extractTextFromImage_run (env : Env) (imagePath : string) (w : World) :
  exists l,
    GeminiService.extractTextFromImage env imagePath w
    = (Returns
         (if debug_copy_ok env imagePath
          then
            let ext := toLowerCase (extname imagePath) in
            if String.eqb ext ".jpg" || String.eqb ext ".jpeg" then derivative_question
            else if String.eqb ext ".png" then circle_question
            else equation_question
          else extraction_fallback),
       logged l w).
Proof.
  unfold GeminiService.extractTextFromImage, debug_copy_ok. cbv zeta. run_io.
  destruct (fs_existsSync env _); cbn [negb orb andb].
  - run_io. destruct (fs_copyFileSync env _ _) as [e|]; run_io.
    + rewrite bool_decide_eq_false_2 by discriminate. rewrite !logged_logged.
      eexists. reflexivity.
    + rewrite bool_decide_eq_true_2 by reflexivity. rewrite !logged_logged.
      unfold derivative_question, circle_question, equation_question.
      repeat match goal with |- context [if ?c then _ else _] => destruct c end;
        eexists; reflexivity.
  - destruct (fs_mkdirSync env _) as [e|]; run_io.
    + rewrite bool_decide_eq_false_2 by discriminate. cbn [andb].
      rewrite !logged_logged. eexists. reflexivity.
    + rewrite (bool_decide_eq_true_2 (None = None)) by reflexivity. cbn [andb].
      destruct (fs_copyFileSync env _ _) as [e|]; run_io.
      * rewrite bool_decide_eq_false_2 by discriminate. rewrite !logged_logged.
        eexists. reflexivity.
      * rewrite bool_decide_eq_true_2 by reflexivity. rewrite !logged_logged.
        unfold derivative_question, circle_question, equation_question.
        repeat match goal with |- context [if ?c then _ else _] => destruct c end;
          eexists; reflexivity.
Qed.

(** X7: the mock extractor never throws: whatever the file system does, it
    returns one of its three canned questions or its fallback text.  It
    calls neither the store, Telegram, Slack and the spreadsheet nor the API;
    what it writes is on the disk, the debug directory and the copy of the
    image, which the world of this development does not hold. *)
Theorem extractTextFromImage_total (env : Env) (imagePath : string) (w : World) :
  exists text w',
    GeminiService.extractTextFromImage env imagePath w = (Returns text, w')
    /\ In text [derivative_question; circle_question; equation_question;
                extraction_fallback]
    /\ questions w' = questions w /\ telegram w' = telegram w /\ slack w' = slack w
    /\ sheet w' = sheet w /\ net w' = net w.
Proof.
  destruct (extractTextFromImage_run env imagePath w) as [l H].
  eexists. eexists. split; [exact H|]. split.
  - destruct (debug_copy_ok env imagePath); cbv zeta; cbn [In];
      repeat match goal with |- context [if ?c then _ else _] => destruct c end; auto.
  - split; [reflexivity|]. split; [reflexivity|]. split; [reflexivity|].
    split; reflexivity.
Qed.

(** X8: the files [downloadPhoto] writes are named [<time>.jpg], so in the
    photo flow the extractor always sees the extension [.jpg]: for every
    path [downloadPhoto] returns, the extracted text is the derivative
    question when the debug copy succeeds, whatever the photo shows. *)
Theorem downloaded_photo_text (env : Env) (url imagePath : string) (w w1 w2 : World) :
  TelegramController.downloadPhoto env url w = (Returns imagePath, w1) ->
  debug_copy_ok env imagePath = true ->
  completion (GeminiService.extractTextFromImage env imagePath) w2
  = Returns derivative_question.
Proof.
  intros Hdl Hcopy.
  assert (Hpath : exists t, imagePath = temp_path env t).
  { revert Hdl. unfold TelegramController.downloadPhoto. cbv zeta. run_io.
    destruct (http_get env url); run_io; [discriminate|].
    destruct (negb (fs_existsSync env _)); [destruct (fs_mkdirSync env _)|];
      run_io; try discriminate;
      fold (temp_path env (clock env (ticks w)));
      (destruct (write_stream env _); [discriminate|]);
      intros [= <- _]; eexists; reflexivity. }
  destruct Hpath as [t ->].
  destruct (extractTextFromImage_run env (temp_path env t) w2) as [l H].
  unfold completion. rewrite H, Hcopy, extname_temp_path. reflexivity.
Qed.

Lemma downloaded_photo_text_witness :
  completion
    (GeminiService.extractTextFromImage (sample_env api_down) "/app/temp/0.jpg")
    empty_world
  = Returns derivative_question.
Proof.
  apply (downloaded_photo_text (sample_env api_down) "https://example.org/file"
           "/app/temp/0.jpg" empty_world (set_ticks S empty_world) empty_world).
  - reflexivity.
  - reflexivity.
Defined.

Lemma debug_copy_ok_files (env : Env) (imagePath : string) :
  files_ok env -> debug_copy_ok env imagePath = true.
Proof.
  intros (_ & Hmkdir & _ & Hcopy). unfold debug_copy_ok. cbv zeta.
  rewrite Hmkdir, Hcopy. rewrite !bool_decide_eq_true_2 by reflexivity.
  now rewrite orb_true_r.
Qed.

Lemma temp_path_nonempty (env : Env) (t : Z) :
  String.eqb (temp_path env t) EmptyString = false.
Proof.
  unfold temp_path, path_join.
  destruct (app_dir env +:+ "/" +:+ "temp") eqn:E.
  - destruct (app_dir env); discriminate.
  - reflexivity.
Qed.

(** X9: a photo that cannot be fetched: when Telegram accepts its calls and
    either Telegram has no file for the photo or the download is refused, the
    student gets the typing indicator and then the apology; no record is
    stored, nothing is posted to Slack and the API is not called. *)
Theorem photo_download_failure (env : Env) (msg : TelegramController.Message)
    (w : World) :
  telegram_accepts env ->
  (forall f, exists e, bot_getFile env f = inl e) \/ (forall u, http_get env u <> None) ->
  exists w',
    TelegramController.processPhotoMessage env msg w = (Returns tt, w')
    /\ questions w' = questions w /\ slack w' = slack w
    /\ net w' = net w /\ posts w' = posts w
    /\ telegram w'
       = telegram w ++ [typing (TelegramController.chat_id msg);
                        reply (TelegramController.chat_id msg) photo_apology].
Proof.
  intros Htg Hfail. unfold TelegramController.processPhotoMessage.
  telegram_flow. rewrite call_run, Htg. run_io.
  destruct (last (TelegramController.photo msg)) as [ph|]; run_io.
  - rewrite getPhotoUrl_run.
    destruct (bot_getFile env (TelegramController.file_id ph)) as [e|file_path] eqn:Hfile.
    + run_io. rewrite call_run, Htg. run_io.
      eexists. split; [reflexivity|]. world_fields.
      repeat (split; [reflexivity|]). now rewrite <- app_assoc.
    + destruct Hfail as [Hfail|Hfail].
      { destruct (Hfail (TelegramController.file_id ph)) as [e He]. congruence. }
      run_io. destruct (http_get env (photo_url env file_path)) as [e|] eqn:Hget.
      2:{ now destruct (Hfail (photo_url env file_path)). }
      rewrite (downloadPhoto_unreachable _ _ _ e Hget). run_io.
      rewrite call_run, Htg. run_io.
      eexists. split; [reflexivity|]. world_fields.
      repeat (split; [reflexivity|]). now rewrite <- app_assoc.
  - rewrite call_run, Htg. run_io.
    eexists. split; [reflexivity|]. world_fields.
    repeat (split; [reflexivity|]). now rewrite <- app_assoc.
Qed.

Lemma photo_download_failure_witness :
  exists w',
    TelegramController.processPhotoMessage no_file_env sample_photo_message empty_world
    = (Returns tt, w')
    /\ questions w' = ∅ /\ slack w' = [] /\ net w' = [] /\ posts w' = 0
    /\ telegram w' = [] ++ [typing 4242; reply 4242 photo_apology].
Proof.
  apply (photo_download_failure no_file_env sample_photo_message empty_world).
  - intros c. reflexivity.
  - left. intros f. eexists. reflexivity.
Defined.

(** X10: a photo question when every call succeeds, the API never sends a
    null or an empty content, the new [_id] is free and the student has a
    name: the stored record is marked as coming from an image, keeps the
    Telegram URL of the largest photo, and its question is the derivative
    question; the review card of that record is posted, with the source
    Image, the derivative question and the answer, the new [_id] on both
    buttons and the first fifty UTF-16 units of the question in its
    notification text; the student sees the typing indicator and then the
    acknowledgement. *)
Theorem photo_question_pending (env : Env) (msg : TelegramController.Message)
    (ph : TelegramController.PhotoSize) (file_path : string) (w : World) :
  telegram_accepts env ->
  (forall doc, db_save env doc = None) ->
  (forall c, slack_api env c = None) ->
  contents_nonempty env ->
  files_ok env ->
  TelegramController.first_name msg <> EmptyString ->
  questions w !! new_ObjectId env = None ->
  last (TelegramController.photo msg) = Some ph ->
  bot_getFile env (TelegramController.file_id ph) = inr file_path ->
  exists answerText w',
    TelegramController.processPhotoMessage env msg w = (Returns tt, w')
    /\ completion (DeepseekService.generateAnswer env derivative_question) w
       = Returns (Some answerText)
    /\ questions w'
       = <[new_ObjectId env :=
             pending_record env (TelegramController.from_id msg)
               (TelegramController.first_name msg) derivative_question answerText true
               (Some (photo_url env file_path))
               (clock env (S (ticks w))) (clock env (S (S (S (ticks w)))))]> (questions w)
    /\ slack w'
       = slack w ++ [review_card env derivative_question (Some answerText)
                       (new_ObjectId env) (TelegramController.first_name msg) true]
    /\ telegram w'
       = telegram w ++ [typing (TelegramController.chat_id msg);
                        reply (TelegramController.chat_id msg) photo_acknowledgement].
Proof.
  intros Htg Hsave Hslack Hne Hfiles Hname Hfresh Hlast Hfile.
  unfold TelegramController.processPhotoMessage.
  telegram_flow. rewrite call_run, Htg. run_io. rewrite Hlast. run_io.
  rewrite getPhotoUrl_run, Hfile. run_io.
  rewrite downloadPhoto_ok by assumption. run_io. cbn [fst snd].
  match goal with |- context [GeminiService.extractTextFromImage env ?p ?w1] =>
    destruct (extractTextFromImage_run env p w1) as [lx Hx]; rewrite Hx; clear Hx
  end.
  rewrite debug_copy_ok_files by assumption. cbv zeta.
  rewrite extname_temp_path. change (toLowerCase ".jpg") with ".jpg".
  cbn [String.eqb Ascii.eqb Bool.eqb orb]. run_io.
  match goal with |- context [DeepseekService.generateAnswer env derivative_question ?w1] =>
    destruct (generateAnswer_returns env derivative_question w1)
      as (result & l & events & n & Hg & _);
    pose proof (generateAnswer_completion_posts env derivative_question w1 w eq_refl) as Hc
  end.
  unfold completion in Hc at 1. rewrite Hg in Hc. cbn [fst] in Hc.
  destruct (generateAnswer_nonempty env derivative_question result w Hne (eq_sym Hc))
    as (answerText & -> & Hanswer).
  exists answerText. rewrite Hg. run_io.
  rewrite storeQuestion_ok; try assumption; try discriminate.
  run_io. rewrite sendQuestionForApproval_run, Hslack. run_io.
  rewrite call_run, Htg. run_io. rewrite temp_path_nonempty. cbn [negb]. run_io.
  destruct (fs_unlinkSync env _); run_io;
    (eexists; split; [reflexivity|]; split; [now symmetry|]); world_fields;
    (split; [reflexivity|]; split; [reflexivity|]; now rewrite <- app_assoc).
Qed.

Lemma photo_question_pending_witness :
  exists answerText w',
    TelegramController.processPhotoMessage (sample_env (api_answers "f'(x) = 6x + 2"))
      sample_photo_message empty_world = (Returns tt, w')
    /\ completion (DeepseekService.generateAnswer (sample_env (api_answers "f'(x) = 6x + 2"))
                     derivative_question) empty_world = Returns (Some answerText)
    /\ questions w'
       = <["65f000000000000000000001" :=
             pending_record (sample_env (api_answers "f'(x) = 6x + 2")) 4242 "Asha"
               derivative_question answerText true
               (Some "https://api.telegram.org/file/bot0000:token/photos/file_1.jpg")
               1 3]> ∅
    /\ slack w'
       = [] ++ [review_card (sample_env (api_answers "f'(x) = 6x + 2"))
                  derivative_question (Some answerText) "65f000000000000000000001"
                  "Asha" true]
    /\ telegram w' = [] ++ [typing 4242; reply 4242 photo_acknowledgement].
Proof.
  apply (photo_question_pending (sample_env (api_answers "f'(x) = 6x + 2"))
           sample_photo_message {| TelegramController.file_id := "AgACAgQ-large" |}
           "photos/file_1.jpg" empty_world).
  - intros c. reflexivity.
  - intros doc. reflexivity.
  - intros c. reflexivity.
  - intros n r content [= <-]. eexists. split; [reflexivity|discriminate].
  - split; [|split; [|split]]; intros; reflexivity.
  - discriminate.
  - reflexivity.
  - reflexivity.
  - reflexivity.
Defined.

(** ** Parts of the world a computation leaves alone *)

Lemma keeps_ret {A B} (f : World -> B) (a : A) : keeps f (mret a : Async A).
Proof. intros w. reflexivity. Qed.

Lemma keeps_throw {A B} (f : World -> B) (e : JsError) : keeps f (throw (A:=A) e).
Proof. intros w. reflexivity. Qed.

Lemma keeps_bind {A A' B} (f : World -> B) (m : Async A) (k : A -> Async A') :
  keeps f m -> (forall a, keeps f (k a)) -> keeps f (m ≫= k).
Proof.
  intros Hm Hk w. specialize (Hm w). unfold exec in *. rewrite run_bind.
  destruct (m w) as [[a|e] w1]; simpl in Hm; [|exact Hm].
  specialize (Hk a w1). unfold exec in Hk. congruence.
Qed.

Lemma keeps_try_catch {A B} (f : World -> B) (m : Async A) (h : JsError -> Async A) :
  keeps f m -> (forall e, keeps f (h e)) -> keeps f (try_catch m h).
Proof.
  intros Hm Hh w. specialize (Hm w). unfold exec in *. rewrite run_try_catch.
  destruct (m w) as [[a|e] w1]; simpl in Hm; [exact Hm|].
  specialize (Hh e w1). unfold exec in Hh. congruence.
Qed.

Lemma keeps_modify {B} (f : World -> B) (g : World -> World) :
  (forall w, f (g w) = f w) -> keeps f (modify g).
Proof. intros H w. apply H. Qed.

Lemma keeps_Date_now {B} (f : World -> B) (env : Env) :
  (forall w, f (set_ticks S w) = f w) -> keeps f (Date_now env).
Proof. intros H w. apply H. Qed.

Lemma keeps_get {B} (f : World -> B) : keeps f get.
Proof. intros w. reflexivity. Qed.

Lemma keeps_post {B} (f : World -> B) (env : Env) (r : ChatRequest) :
  (forall w, f (posted r w) = f w) -> keeps f (DeepseekService.post env r).
Proof.
  intros H w. unfold exec. rewrite run_post.
  destruct (axios_post env (posts w) r); apply H.
Qed.

Ltac keeps_step :=
  first
    [ apply keeps_ret
    | apply keeps_throw
    | apply keeps_get
    | apply keeps_modify; intros ?; reflexivity
    | apply keeps_Date_now; intros ?; reflexivity
    | apply keeps_post; intros ?; reflexivity
    | apply keeps_bind; [|intros ?]
    | apply keeps_try_catch; [|intros ?]
    | assumption
    | match goal with
      | |- keeps _ (match ?x with _ => _ end) => destruct x
      | |- keeps _ (let _ := _ in _) => cbv zeta
      end ].

Ltac keeps_all :=
  unfold SlackController.handleInteraction, SlackController.handleBlockActions,
    SlackController.handleViewSubmission, SlackController.handleApproval,
    SlackController.handleEditRequest, SlackController.acknowledge,
    TelegramController.processMessage, TelegramController.processTextMessage,
    TelegramController.processPhotoMessage, TelegramController.storeQuestion,
    TelegramController.bot_sendMessage, TelegramController.bot_sendChatAction,
    TelegramController.getPhotoUrl, TelegramController.downloadPhoto,
    GeminiService.extractTextFromImage,
    QuestionModel.findById, QuestionModel.save, QuestionModel.new,
    SlackService.sendQuestionForApproval, SlackService.updateMessage,
    SlackService.openEditModal, SlackService.call,
    TelegramService.sendMessage, TelegramService.call,
    GoogleSheetsService.saveRecord, GoogleSheetsService.initialize,
    GoogleSheetsService.append,
    logger.info, logger.warn, logger.error, logger.write;
  repeat keeps_step.

Lemma keeps_handleBlockActions_responses (env : Env) (p : SlackController.BlockActions) :
  keeps responses (SlackController.handleBlockActions env p).
Proof. keeps_all. Qed.

Lemma keeps_handleViewSubmission_responses (env : Env) (v : SlackController.ViewSubmission) :
  keeps responses (SlackController.handleViewSubmission env v).
Proof. keeps_all. Qed.

(** ** The review in Slack *)

(** X11: a request whose payload parses is acknowledged exactly once, with
    an empty 200, whatever the payload is (be it [null]) and whatever the
    store, Slack, Telegram and the spreadsheet do afterwards.  A request
    whose payload [JSON.parse] rejects gets no response at all: the error of
    the parser is logged and nothing else happens.  In every case
    [handleInteraction] returns. *)
Theorem interaction_acknowledged_once (env : Env) (req : SlackController.Request)
    (w : World) :
  exists w',
    SlackController.handleInteraction env req w = (Returns tt, w')
    /\ match req with
       | SlackController.malformed e =>
           w' = logged [(error, "Error handling Slack interaction: " +:+ message e)] w
       | _ => responses w' = responses w ++ [(200, EmptyString)]
       end.
Proof.
  destruct req as [payload| |e].
  - pose proof (handleInteraction_returns env payload w) as Hc. unfold completion in Hc.
    destruct (SlackController.handleInteraction env payload w) as [c w'] eqn:Hrun.
    cbn [fst] in Hc. subst c. exists w'. split; [reflexivity|].
    change w' with (snd (Returns tt, w')). rewrite <- Hrun.
    unfold SlackController.handleInteraction.
    rewrite run_try_catch, run_bind, run_ret. cbv beta iota.
    rewrite run_bind. unfold SlackController.acknowledge at 1.
    rewrite run_modify. fold (acknowledged w).
    destruct payload as [p|v|type].
    + pose proof (keeps_handleBlockActions_responses env p (acknowledged w)) as Hk.
      pose proof (handleBlockActions_returns env p (acknowledged w)) as Hr.
      unfold exec in Hk. unfold completion in Hr.
      destruct (SlackController.handleBlockActions env p (acknowledged w)) as [c w1].
      cbn [fst] in Hr. subst c. exact Hk.
    + pose proof (keeps_handleViewSubmission_responses env v (acknowledged w)) as Hk.
      pose proof (handleViewSubmission_returns env v (acknowledged w)) as Hr.
      unfold exec in Hk. unfold completion in Hr.
      destruct (SlackController.handleViewSubmission env v (acknowledged w)) as [c w1].
      cbn [fst] in Hr. subst c. exact Hk.
    + run. reflexivity.
  - unfold SlackController.handleInteraction, SlackController.acknowledge. run_io.
    eexists. split; reflexivity.
  - unfold SlackController.handleInteraction. run_io.
    eexists. split; reflexivity.
Qed.

Lemma openEditModal_run (env : Env)
    (triggerId recordId channelId messageTs questionText answerText : string) (w : World) :
  SlackService.openEditModal env triggerId recordId channelId messageTs questionText
    answerText w
  = match slack_api env
            (ViewsOpen triggerId
               (SlackService.edit_view recordId channelId messageTs questionText
                  answerText)) with
    | None =>
        (Returns tt,
         set_slack
           (fun cs => cs ++ [ViewsOpen triggerId
                               (SlackService.edit_view recordId channelId messageTs
                                  questionText answerText)]) w)
    | Some e =>
        (Throws (Error ("Failed to open edit modal: " +:+ message e)),
         logged [(error, "Error opening edit modal: " +:+ message e)] w)
    end.
Proof.
  unfold SlackService.openEditModal. rewrite run_try_catch, slack_call_run.
  destruct (slack_api env _); run_io; reflexivity.
Qed.

(** A click on a card whose record is found, up to the choice of the
    handler. *)
Lemma handleInteraction_found (env : Env) (p : SlackController.BlockActions)
    (r : Question) (button id : string) (w : World) :
  clicks p button id ->
  db_findById env id = None ->
  questions w !! id = Some r ->
  SlackController.handleInteraction env (SlackController.block_actions p) w
  = (if String.eqb button "approve_button"
     then SlackController.handleApproval env p r
     else if String.eqb button "edited_button"
          then SlackController.handleEditRequest env p r
          else mret tt) (acknowledged w).
Proof.
  intros (a & rest & Ha & Hbutton & Hid) Hfind Hr.
  rewrite handleInteraction_block_actions.
  unfold SlackController.handleBlockActions.
  assert (Hrun : forall w1, questions w1 = questions w ->
            (match SlackController.actions p with
             | [] => throw (Error "Cannot read properties of undefined (reading 'value')")
             | action :: _ =>
                 let recordId := SlackController.value action in
                 questionRecord ← QuestionModel.findById env recordId;
                 match questionRecord with
                 | None => logger.error ("Question record not found: " +:+ recordId)
                 | Some questionRecord =>
                     if String.eqb (SlackController.action_id action) "approve_button"
                     then SlackController.handleApproval env p questionRecord
                     else if String.eqb (SlackController.action_id action) "edited_button"
                          then SlackController.handleEditRequest env p questionRecord
                          else mret tt
                 end
             end) w1
            = (if String.eqb button "approve_button"
               then SlackController.handleApproval env p r
               else if String.eqb button "edited_button"
                    then SlackController.handleEditRequest env p r
                    else mret tt) w1).
  { intros w1 Hq. rewrite Ha. cbv zeta.
    rewrite run_bind, findById_run, Hid, Hfind, Hq, Hr, Hbutton. reflexivity. }
  rewrite (try_catch_returns _ _ _ tt).
  - apply Hrun. reflexivity.
  - unfold completion. rewrite Hrun by reflexivity.
    destruct (String.eqb button "approve_button"); [apply handleApproval_returns|].
    destruct (String.eqb button "edited_button"); [apply handleEditRequest_returns|].
    reflexivity.
Qed.

(** X12: a click on Edit on the card of a stored record, when Slack accepts
    the call: one call is made to Slack, which opens a modal with the trigger
    of the click, the callback id [edit_response_modal], a section that shows
    the record's question, one text input [edited_response]/[response_text]
    filled with the record's original answer, and as metadata the channel
    and the timestamp of the card and the record's [_id]; no record changes,
    nothing is sent to the student and nothing is archived. *)
Theorem edit_click_opens_modal (env : Env) (p : SlackController.BlockActions)
    (r : Question) (id : string) (w : World) :
  clicks p "edited_button" id ->
  db_findById env id = None ->
  questions w !! id = Some r ->
  slack_api env (edit_modal p r) = None ->
  exists w',
    SlackController.handleInteraction env (SlackController.block_actions p) w
    = (Returns tt, w')
    /\ questions w' = questions w /\ telegram w' = telegram w /\ sheet w' = sheet w
    /\ slack w' = slack w ++ [edit_modal p r].
Proof.
  intros Hclick Hfind Hr Hslack.
  rewrite (handleInteraction_found env p r "edited_button" id w Hclick Hfind Hr).
  cbn [String.eqb Ascii.eqb Bool.eqb].
  unfold SlackController.handleEditRequest. run_io.
  rewrite openEditModal_run. change (ViewsOpen _ _) with (edit_modal p r).
  rewrite Hslack. run_io.
  eexists. split; [reflexivity|]. world_fields.
  split; [reflexivity|]. split; [reflexivity|]. split; reflexivity.
Qed.

Lemma edit_click_opens_modal_witness :
  exists w',
    SlackController.handleInteraction (sample_env api_down)
      (SlackController.block_actions sample_edit_click) (world_with sample_question)
    = (Returns tt, w')
    /\ questions w' = questions (world_with sample_question)
    /\ telegram w' = [] /\ sheet w' = []
    /\ slack w' = [] ++ [edit_modal sample_edit_click sample_question].
Proof.
  apply (edit_click_opens_modal (sample_env api_down) sample_edit_click sample_question
           "65f000000000000000000001" (world_with sample_question)).
  - eexists. eexists. split; [reflexivity|]. split; reflexivity.
  - reflexivity.
  - reflexivity.
  - reflexivity.
Defined.

(** X13: a click on a button that is neither Approve nor Edit, on the card
    of a stored record, is acknowledged and otherwise ignored: nothing
    changes and nothing is logged. *)
Theorem unknown_action_ignored (env : Env) (p : SlackController.BlockActions)
    (r : Question) (button id : string) (w : World) :
  clicks p button id ->
  button <> "approve_button" -> button <> "edited_button" ->
  db_findById env id = None ->
  questions w !! id = Some r ->
  SlackController.handleInteraction env (SlackController.block_actions p) w
  = (Returns tt, acknowledged w).
Proof.
  intros Hclick Hna Hne Hfind Hr.
  rewrite (handleInteraction_found env p r button id w Hclick Hfind Hr).
  apply String.eqb_neq in Hna, Hne. rewrite Hna, Hne. reflexivity.
Qed.

Lemma unknown_action_ignored_witness :
  SlackController.handleInteraction (sample_env api_down)
    (SlackController.block_actions sample_unknown_click) (world_with sample_question)
  = (Returns tt, acknowledged (world_with sample_question)).
Proof.
  apply (unknown_action_ignored (sample_env api_down) sample_unknown_click
           sample_question "reject_button" "65f000000000000000000001"
           (world_with sample_question)).
  - eexists. eexists. split; [reflexivity|]. split; reflexivity.
  - discriminate.
  - discriminate.
  - reflexivity.
  - reflexivity.
Defined.

(** X14: the edit, from the click to the submission, when every call
    succeeds: after a click on Edit on the card of a stored record and the
    submission of the form with the metadata that click wrote, Slack has got
    the opening of the form and then one update, addressed to the channel of
    the reviews (not to the channel of the click, which the metadata carries
    and the handler does not use) and to the timestamp of the card that was
    clicked, with the heading, the submitted text and the approval mark as
    its blocks; the student of the record is sent that text; and the record
    is approved by the submitter, with the text as its edited answer and its
    original answer kept. *)
Theorem edit_click_then_submit (env : Env) (p : SlackController.BlockActions)
    (r : Question) (reviewer text : string) (w : World) :
  all_calls_succeed env ->
  questions w !! _id r = Some r ->
  clicks p "edited_button" (_id r) ->
  exists w1 w2 doc,
    SlackController.handleInteraction env (SlackController.block_actions p) w
    = (Returns tt, w1)
    /\ SlackController.handleInteraction env
         (SlackController.view_submission (submission_of p r reviewer text)) w1
       = (Returns tt, w2)
    /\ slack w2
       = slack w ++ [edit_modal p r;
                     card_update env (SlackController.message_ts_ p) text]
    /\ telegram w2 = telegram w ++ [delivery (accountId r) text]
    /\ questions w2 !! _id r = Some doc
    /\ isApproved doc = true /\ approvedBy doc = Some reviewer
    /\ editedAnswer doc = Some text /\ answer doc = answer r.
Proof.
  intros Hall Hr Hclick. pose proof Hall as (Hfind & _ & Hslack & _).
  rewrite (handleInteraction_found env p r "edited_button" (_id r) w Hclick (Hfind _) Hr).
  cbn [String.eqb Ascii.eqb Bool.eqb].
  unfold SlackController.handleEditRequest. run_io.
  rewrite openEditModal_run. change (ViewsOpen _ _) with (edit_modal p r).
  rewrite Hslack. run_io.
  pose proof (handleInteraction_returns env
                (SlackController.view_submission (submission_of p r reviewer text))) as Hret.
  match goal with |- exists w1 w2 doc, (Returns tt, ?w0) = _ /\ _ =>
    exists w0; specialize (Hret w0);
    pose proof (handleViewSubmission_ok env (submission_of p r reviewer text) r
                  (acknowledged w0) Hall Hr) as Hok
  end.
  cbv zeta in Hok. unfold exec in Hok.
  rewrite <- handleInteraction_view_submission in Hok.
  unfold completion in Hret.
  destruct (SlackController.handleInteraction env
              (SlackController.view_submission (submission_of p r reviewer text)) _)
    as [c w2].
  cbn [fst] in Hret. subst c. cbn [snd] in Hok.
  destruct Hok as (Hq & Hs & Ht & _).
  exists w2. eexists. split; [reflexivity|]. split; [reflexivity|].
  rewrite Hq, Hs, Ht. world_fields.
  split; [now rewrite <- app_assoc|]. split; [reflexivity|].
  split; [apply lookup_insert_eq|]. fields. repeat split; reflexivity.
Qed.

Lemma edit_click_then_submit_witness :
  exists w1 w2 doc,
    SlackController.handleInteraction (sample_env api_down)
      (SlackController.block_actions sample_edit_click) (world_with sample_question)
    = (Returns tt, w1)
    /\ SlackController.handleInteraction (sample_env api_down)
         (SlackController.view_submission
            (submission_of sample_edit_click sample_question "U07TEACHER" "x = 4, since 2x = 8"))
         w1
       = (Returns tt, w2)
    /\ slack w2
       = [] ++ [edit_modal sample_edit_click sample_question;
                card_update (sample_env api_down) "1711111111.000100" "x = 4, since 2x = 8"]
    /\ telegram w2 = [] ++ [delivery "4242" "x = 4, since 2x = 8"]
    /\ questions w2 !! "65f000000000000000000001" = Some doc
    /\ isApproved doc = true /\ approvedBy doc = Some "U07TEACHER"
    /\ editedAnswer doc = Some "x = 4, since 2x = 8" /\ answer doc = "x = 4".
Proof.
  apply (edit_click_then_submit (sample_env api_down) sample_edit_click sample_question
           "U07TEACHER" "x = 4, since 2x = 8" (world_with sample_question)).
  - split; [|split; [|split; [|split; [|split]]]]; try (intros; reflexivity).
    intros row. eexists. reflexivity.
  - reflexivity.
  - eexists. eexists. split; [reflexivity|]. split; reflexivity.
Defined.

(** ** Records an operation leaves alone *)

Lemma steady_record_kept (id : string) (o : option Question) : steady (record_kept id o).
Proof. intros w w' H Hq _. unfold record_kept in *. now rewrite Hq. Qed.

Lemma steady_keyed_record_kept (id : string) (o : option Question) :
  steady (fun w => keyed_by_id w /\ record_kept id o w).
Proof.
  intros w w' [Hk H] Hq _. unfold keyed_by_id, record_kept in *. rewrite Hq. auto.
Qed.

Lemma untouched_new (env : Env) (accountId accountName question : string)
    (answer : option string) (isApproved isFromImage : bool) (imageUrl : option string) :
  touches_no_record
    (QuestionModel.new env accountId accountName question answer isApproved isFromImage
       imageUrl).
Proof. unfold QuestionModel.new. untouched. Qed.

(** Saving a document leaves the records under other ids alone; saving a
    new document leaves every stored record alone. *)
Lemma save_keeps_record (env : Env) (isNew : bool) (doc : Question) (id : string)
    (o : option Question) :
  (_id doc <> id \/ (isNew = true /\ o <> None)) ->
  triple (record_kept id o) (QuestionModel.save env isNew doc)
    (fun _ => record_kept id o) (record_kept id o).
Proof.
  intros Hid w H. unfold QuestionModel.save, record_kept in *.
  rewrite run_bind.
  destruct (if isNew
            then match QuestionModel.validate doc with
                 | Some e => throw e
                 | None => mret ()
                 end
            else mret ()) as [c w0] eqn:Hv at 1.
  assert (Hw0 : w0 = w).
  { destruct isNew; [destruct (QuestionModel.validate doc)|]; now inversion Hv. }
  subst w0. destruct c as [[]|e]; [|exact H].
  run_io. destruct (db_save env _) as [e|]; run_io; [exact H|].
  cbn [_id QuestionModel.set_updatedAt questions set_ticks].
  destruct (isNew && bool_decide (is_Some (questions w !! _id doc))) eqn:Hdup;
    run_io; [exact H|].
  cbn [questions set_questions set_ticks].
  destruct (decide (_id doc = id)) as [Heq|Hne].
  - destruct Hid as [Hid|[-> Ho]]; [contradiction|].
    cbn [andb] in Hdup. apply bool_decide_eq_false_1 in Hdup.
    exfalso. apply Hdup. rewrite Heq, H. destruct o; [eauto|contradiction].
  - rewrite lookup_insert_ne by exact Hne. exact H.
Qed.

Lemma storeQuestion_keeps_record (env : Env) (userId : Z)
    (firstName questionText : string) (answer : option string) (isFromImage : bool)
    (imageUrl : option string) (saved : string -> string) (id : string) (r : Question) :
  triple (record_kept id (Some r))
    (TelegramController.storeQuestion env userId firstName questionText answer
       isFromImage imageUrl saved)
    (fun _ => record_kept id (Some r)) (record_kept id (Some r)).
Proof.
  unfold TelegramController.storeQuestion.
  apply triple_try_catch with (E' := record_kept id (Some r)).
  - eapply triple_bind.
    { apply triple_untouched; [apply steady_record_kept|apply untouched_new]. }
    intros doc. cbv beta.
    eapply triple_bind; [apply save_keeps_record; right; split; [reflexivity|discriminate]|].
    intros doc'. cbv beta.
    apply triple_untouched; [apply steady_record_kept|].
    unfold logger.info. untouched.
  - intros e. apply triple_untouched; [apply steady_record_kept|].
    unfold logger.error. untouched.
Qed.

Ltac keeps_record :=
  apply triple_untouched; [apply steady_record_kept|untouched_calls].

Lemma processTextMessage_keeps_record (env : Env) (msg : TelegramController.Message)
    (questionText : string) (id : string) (r : Question) :
  triple (record_kept id (Some r))
    (TelegramController.processTextMessage env msg questionText)
    (fun _ => record_kept id (Some r)) (record_kept id (Some r)).
Proof.
  unfold TelegramController.processTextMessage. cbv zeta.
  apply triple_try_catch with (E' := record_kept id (Some r)); [|intros e; keeps_record].
  eapply triple_bind; [keeps_record|]. intros ?. cbv beta.
  eapply triple_bind; [keeps_record|]. intros ?. cbv beta.
  eapply triple_bind; [keeps_record|]. intros answer. cbv beta.
  eapply triple_bind; [apply storeQuestion_keeps_record|]. intros id'. cbv beta.
  keeps_record.
Qed.

Lemma processPhotoMessage_keeps_record (env : Env) (msg : TelegramController.Message)
    (id : string) (r : Question) :
  triple (record_kept id (Some r))
    (TelegramController.processPhotoMessage env msg)
    (fun _ => record_kept id (Some r)) (record_kept id (Some r)).
Proof.
  unfold TelegramController.processPhotoMessage. cbv zeta.
  apply triple_try_catch with (E' := record_kept id (Some r)); [|intros e; keeps_record].
  eapply triple_bind; [keeps_record|]. intros ?. cbv beta.
  eapply triple_bind; [keeps_record|]. intros ?. cbv beta.
  eapply triple_bind; [keeps_record|]. intros fileId. cbv beta.
  eapply triple_bind; [keeps_record|]. intros download. cbv beta.
  eapply triple_bind; [keeps_record|]. intros extractedText. cbv beta.
  eapply triple_bind; [keeps_record|]. intros answer. cbv beta.
  eapply triple_bind; [apply storeQuestion_keeps_record|]. intros id'. cbv beta.
  keeps_record.
Qed.

(** X15: a Telegram message never changes a record that is already stored:
    whatever the message is and whatever the API, the store, Slack and
    Telegram do, every record of the collection is still there, unchanged,
    when [processMessage] is done.  A new document whose [_id] is taken is
    refused, not written over the old one. *)
Theorem message_keeps_stored_records (env : Env) (msg : TelegramController.Message)
    (id : string) (r : Question) (w : World) :
  questions w !! id = Some r ->
  questions (exec (TelegramController.processMessage env msg) w) !! id = Some r.
Proof.
  intros Hr.
  apply (triple_exec (record_kept id (Some r)) (record_kept id (Some r))); [|exact Hr].
  unfold TelegramController.processMessage. cbv zeta.
  apply triple_try_catch with (E' := record_kept id (Some r)); [|intros e; keeps_record].
  eapply triple_bind; [keeps_record|]. intros ?. cbv beta.
  destruct (TelegramController.photo msg) as [|ph rest].
  - destruct (TelegramController.text msg) as [[|c s]|].
    + keeps_record.
    + apply processTextMessage_keeps_record.
    + keeps_record.
  - apply processPhotoMessage_keeps_record.
Qed.

Lemma message_keeps_stored_records_witness :
  questions
    (exec (TelegramController.processMessage (sample_env api_down) sample_text_message)
       (world_with sample_question)) !! "65f000000000000000000001"
  = Some sample_question.
Proof.
  apply (message_keeps_stored_records (sample_env api_down) sample_text_message
           "65f000000000000000000001" sample_question (world_with sample_question)).
  reflexivity.
Defined.

Lemma triple_pure {A} (P : World -> Prop) (fact : Prop) (m : Async A)
    (Q : A -> World -> Prop) (E : World -> Prop) :
  (forall w, P w -> fact) -> (fact -> triple P m Q E) -> triple P m Q E.
Proof. intros Hfact Hm w HP. exact (Hm (Hfact w HP) w HP). Qed.

Lemma findById_found (env : Env) (rid : string) (P : World -> Prop) :
  triple P (QuestionModel.findById env rid)
    (fun found w => P w /\ questions w !! rid = found) P.
Proof.
  intros w H. rewrite findById_run. destruct (db_findById env rid); [exact H|].
  split; [exact H|reflexivity].
Qed.

Ltac keeps_other :=
  apply triple_untouched; [apply steady_record_kept|untouched_calls].

Lemma handleApproval_keeps_record (env : Env) (p : SlackController.BlockActions)
    (r : Question) (id : string) (o : option Question) :
  _id r <> id ->
  triple (record_kept id o) (SlackController.handleApproval env p r)
    (fun _ => record_kept id o) (record_kept id o).
Proof.
  intros Hid. unfold SlackController.handleApproval.
  apply triple_try_catch with (E' := record_kept id o); [|intros e; keeps_other].
  eapply triple_bind; [keeps_other|]. intros now. cbv beta.
  eapply triple_bind; [apply save_keeps_record; left; exact Hid|].
  intros doc. cbv beta. keeps_other.
Qed.

Lemma found_elsewhere (id rid : string) (o : option Question) (r : Question) (w : World) :
  rid <> id ->
  (keyed_by_id w /\ record_kept id o w) /\ questions w !! rid = Some r ->
  _id r <> id.
Proof. intros Hne [[Hk _] Hr]. rewrite (Hk rid r Hr). exact Hne. Qed.

Lemma keyed_record_kept (id : string) (o : option Question) (w : World) :
  keyed_by_id w /\ record_kept id o w -> record_kept id o w.
Proof. now intros [_ H]. Qed.

Lemma found_record_kept (id rid : string) (o found : option Question) (w : World) :
  (keyed_by_id w /\ record_kept id o w) /\ questions w !! rid = found -> record_kept id o w.
Proof. now intros [[_ H] _]. Qed.

Lemma handleBlockActions_keeps_record (env : Env) (p : SlackController.BlockActions)
    (id : string) (o : option Question) :
  named_record (SlackController.block_actions p) <> Some id ->
  triple (fun w => keyed_by_id w /\ record_kept id o w)
    (SlackController.handleBlockActions env p)
    (fun _ => record_kept id o) (record_kept id o).
Proof.
  intros Hid. unfold SlackController.handleBlockActions. cbn [named_record] in Hid.
  apply triple_try_catch with (E' := record_kept id o); [|intros e; keeps_other].
  destruct (SlackController.actions p) as [|action rest].
  { intros w [_ H]. exact H. }
  cbv zeta.
  eapply triple_bind.
  { eapply triple_weaken;
      [apply findById_found|intros w H; exact H|intros a w H; exact H
      |apply keyed_record_kept]. }
  intros [r|]; cbv beta iota.
  - apply (triple_pure _ (_id r <> id)).
    { intros w H. eapply found_elsewhere; [|exact H]. congruence. }
    intros Hr.
    eapply triple_weaken with (P := record_kept id o);
      [|apply found_record_kept|intros a w H; exact H|intros w H; exact H].
    destruct (String.eqb _ _); [apply handleApproval_keeps_record; exact Hr|].
    keeps_other.
  - eapply triple_weaken with (P := record_kept id o);
      [|apply found_record_kept|intros a w H; exact H|intros w H; exact H].
    keeps_other.
Qed.

Lemma handleViewSubmission_keeps_record (env : Env) (v : SlackController.ViewSubmission)
    (id : string) (o : option Question) :
  named_record (SlackController.view_submission v) <> Some id ->
  triple (fun w => keyed_by_id w /\ record_kept id o w)
    (SlackController.handleViewSubmission env v)
    (fun _ => record_kept id o) (record_kept id o).
Proof.
  intros Hid. unfold SlackController.handleViewSubmission. cbn [named_record] in Hid.
  cbv zeta.
  apply triple_try_catch with (E' := record_kept id o); [|intros e; keeps_other].
  eapply triple_bind.
  { eapply triple_weaken;
      [apply findById_found|intros w H; exact H|intros a w H; exact H
      |apply keyed_record_kept]. }
  intros [r|]; cbv beta iota.
  - apply (triple_pure _ (_id r <> id)).
    { intros w H. eapply found_elsewhere; [|exact H]. congruence. }
    intros Hr.
    eapply triple_weaken with (P := record_kept id o);
      [|apply found_record_kept|intros a w H; exact H|intros w H; exact H].
    eapply triple_bind; [keeps_other|]. intros now. cbv beta.
    eapply triple_bind; [apply save_keeps_record; left; exact Hr|].
    intros doc. cbv beta. keeps_other.
  - eapply triple_weaken with (P := record_kept id o);
      [|apply found_record_kept|intros a w H; exact H|intros w H; exact H].
    keeps_other.
Qed.

Lemma triple_ret_bind {A B} (P : World -> Prop) (a : A) (k : A -> Async B)
    (Q : B -> World -> Prop) (E : World -> Prop) :
  triple P (k a) Q E -> triple P (mret a ≫= k) Q E.
Proof. intros H w HP. rewrite run_bind, run_ret. exact (H w HP). Qed.

(** X16: in a collection where every record is stored under its [_id], an
    interaction changes the record its payload names at most: the record
    under any other id is the same before and after, whatever the payload
    is and whatever the calls do. *)
Theorem interaction_keeps_other_records (env : Env) (payload : SlackController.Payload)
    (id : string) (w : World) :
  keyed_by_id w ->
  named_record payload <> Some id ->
  questions (exec (SlackController.handleInteraction env payload) w) !! id
  = questions w !! id.
Proof.
  intros Hk Hid.
  apply (triple_exec (fun w' => keyed_by_id w' /\ record_kept id (questions w !! id) w')
           (record_kept id (questions w !! id))); [|split; [exact Hk|reflexivity]].
  unfold SlackController.handleInteraction.
  apply triple_try_catch with (E' := record_kept id (questions w !! id));
    [|intros e; keeps_other].
  apply triple_ret_bind. cbv beta iota.
  eapply triple_bind.
  { apply triple_frame
      with (Q := fun _ w' => keyed_by_id w' /\ record_kept id (questions w !! id) w');
      [apply steady_keyed_record_kept|apply untouched_acknowledge|auto
      |apply keyed_record_kept]. }
  intros []. cbv beta. destruct payload as [p|v|type].
  - apply handleBlockActions_keeps_record. exact Hid.
  - apply handleViewSubmission_keeps_record. exact Hid.
  - eapply triple_weaken with (P := record_kept id (questions w !! id));
      [|apply keyed_record_kept|intros a w' H; exact H|intros w' H; exact H].
    keeps_other.
Qed.

Lemma interaction_keeps_other_records_witness :
  questions (exec (SlackController.handleInteraction (sample_env api_down) sample_click)
               two_questions) !! "65f000000000000000000002"
  = questions two_questions !! "65f000000000000000000002".
Proof.
  apply (interaction_keeps_other_records (sample_env api_down) sample_click
           "65f000000000000000000002" two_questions).
  - intros id r. unfold two_questions, world_with.
    cbn [questions set_questions empty_world].
    rewrite lookup_insert. case_decide as Hid; [now intros [= <-]|].
    rewrite lookup_insert. case_decide as Hid'; [now intros [= <-]|].
    rewrite lookup_empty. discriminate.
  - discriminate.
Defined.

(** ** The spreadsheet *)

(** X17: a failed initialization of the spreadsheet client is retried by the
    next save.  When the client is not initialized and the credentials are
    refused, [saveRecord] throws, with both failures in the message, and
    appends nothing; a later [saveRecord], once the credentials are accepted,
    initializes the client and appends its row to the sheet as it was. *)
Theorem saveRecord_retries_initialization (env1 env2 : Env)
    (record1 record2 : GoogleSheetsService.Record_) (w : World) (e : JsError) :
  sheets_initialized w = false ->
  sheets_auth env1 = Some e ->
  sheets_auth env2 = None ->
  sheet_accepts env2 ->
  exists w1 w2,
    GoogleSheetsService.saveRecord env1 record1 w
    = (Throws (Error ("Failed to save to Google Sheets: "
                      +:+ "Failed to initialize Google Sheets: " +:+ message e)), w1)
    /\ sheet w1 = sheet w /\ sheets_initialized w1 = false
    /\ GoogleSheetsService.saveRecord env2 record2 w1 = (Returns tt, w2)
    /\ sheets_initialized w2 = true
    /\ sheet w2 = sheet w ++ [row_of (clock env2 (ticks w)) record2].
Proof.
  intros Hinit Hauth1 Hauth2 Happend.
  rewrite (saveRecord_run_uninitialized env1 record1 w e Hinit Hauth1).
  eexists.
  match goal with |- exists w2, (_, ?w0) = _ /\ _ =>
    destruct (saveRecord_run env2 record2 w0 (or_intror Hauth2)) as (l & w3 & Hw3 & Hrun);
    destruct (Happend (row_of (clock env2 (ticks w0)) record2)) as [range Hrange];
    rewrite Hrange in Hrun
  end.
  eexists. split; [reflexivity|]. split; [reflexivity|]. split; [exact Hinit|].
  split; [exact Hrun|]. subst w3. world_fields. split; reflexivity.
Qed.

Lemma saveRecord_retries_initialization_witness :
  exists w1 w2,
    GoogleSheetsService.saveRecord no_credentials_env (archive_record sample_question None)
      empty_world
    = (Throws (Error ("Failed to save to Google Sheets: "
                      +:+ "Failed to initialize Google Sheets: "
                      +:+ "ENOENT: no such file, open '/etc/secrets/google-credentials.json'")),
       w1)
    /\ sheet w1 = [] /\ sheets_initialized w1 = false
    /\ GoogleSheetsService.saveRecord (sample_env api_down)
         (archive_record sample_question None) w1 = (Returns tt, w2)
    /\ sheets_initialized w2 = true
    /\ sheet w2 = [] ++ [row_of 0 (archive_record sample_question None)].
Proof.
  apply (saveRecord_retries_initialization no_credentials_env (sample_env api_down)
           (archive_record sample_question None) (archive_record sample_question None)
           empty_world
           (Error "ENOENT: no such file, open '/etc/secrets/google-credentials.json'")).
  - reflexivity.
  - reflexivity.
  - reflexivity.
  - intros row. eexists. reflexivity.
Defined.

(** X18: the spreadsheet client is initialized once.  After a [saveRecord]
    that succeeded, a later [saveRecord] does not read the credentials
    again: it appends its row whether or not they would still be accepted,
    and the sheet holds the two rows in the order of the calls. *)
Theorem saveRecord_initializes_once (env1 env2 : Env)
    (record1 record2 : GoogleSheetsService.Record_) (w : World) :
  sheets_initialized w = true \/ sheets_auth env1 = None ->
  sheet_accepts env1 ->
  sheet_accepts env2 ->
  exists w1 w2,
    GoogleSheetsService.saveRecord env1 record1 w = (Returns tt, w1)
    /\ GoogleSheetsService.saveRecord env2 record2 w1 = (Returns tt, w2)
    /\ sheet w2 = sheet w ++ [row_of (clock env1 (ticks w)) record1;
                              row_of (clock env2 (S (ticks w))) record2].
Proof.
  intros Hinit Happend1 Happend2.
  destruct (saveRecord_run env1 record1 w Hinit) as (l1 & w1 & Hw1 & Hrun1).
  destruct (Happend1 (row_of (clock env1 (ticks w)) record1)) as [range1 Hrange1].
  rewrite Hrange1 in Hrun1. rewrite Hrun1. eexists.
  match goal with |- exists w2, (_, ?w0) = _ /\ _ =>
    assert (Hinit2 : sheets_initialized w0 = true) by (subst w1; reflexivity);
    assert (Hticks : ticks w0 = S (ticks w)) by (subst w1; reflexivity);
    destruct (saveRecord_run env2 record2 w0 (or_introl Hinit2))
      as (l2 & w2 & Hw2 & Hrun2);
    destruct (Happend2 (row_of (clock env2 (ticks w0)) record2)) as [range2 Hrange2];
    rewrite Hrange2 in Hrun2
  end.
  eexists. split; [reflexivity|]. split; [exact Hrun2|].
  rewrite Hticks. subst w2 w1. world_fields. now rewrite <- app_assoc.
Qed.

Lemma saveRecord_initializes_once_witness :
  exists w1 w2,
    GoogleSheetsService.saveRecord (sample_env api_down)
      (archive_record sample_question None) empty_world = (Returns tt, w1)
    /\ GoogleSheetsService.saveRecord no_credentials_env
         (archive_record other_question None) w1 = (Returns tt, w2)
    /\ sheet w2 = [] ++ [row_of 0 (archive_record sample_question None);
                         row_of 1 (archive_record other_question None)].
Proof.
  apply (saveRecord_initializes_once (sample_env api_down) no_credentials_env
           (archive_record sample_question None) (archive_record other_question None)
           empty_world).
  - right. reflexivity.
  - intros row. eexists. reflexivity.
  - intros row. eexists. reflexivity.
Defined.

Lemma assign_from_absent (i : nat) (headers row : list string)
    (record : gmap string string) (h : string) :
  h ∉ headers -> GoogleSheetsService.assign_from i headers row record !! h = record !! h.
Proof.
  revert i record. induction headers as [|header rest IH]; intros i record Hh;
    cbn [GoogleSheetsService.assign_from]; [reflexivity|].
  apply not_elem_of_cons in Hh as [Hne Hrest]. rewrite IH by exact Hrest.
  unfold GoogleSheetsService.assign. destruct (String.eqb header "__proto__"); [reflexivity|].
  now rewrite lookup_insert_ne by congruence.
Qed.

Lemma assign_from_present (i j : nat) (headers row : list string)
    (record : gmap string string) (h : string) :
  NoDup headers -> headers !! j = Some h -> h <> "__proto__" ->
  GoogleSheetsService.assign_from i headers row record !! h
  = Some (or_string (row !! (i + j)%nat) EmptyString).
Proof.
  revert i j record. induction headers as [|header rest IH]; intros i j record Hnd Hj Hh;
    [discriminate|].
  apply NoDup_cons in Hnd as [Hnotin Hnd]. cbn [GoogleSheetsService.assign_from].
  destruct j as [|j]; cbn in Hj.
  - injection Hj as ->. rewrite assign_from_absent by exact Hnotin.
    unfold GoogleSheetsService.assign. apply String.eqb_neq in Hh. rewrite Hh.
    rewrite lookup_insert_eq. now rewrite Nat.add_0_r.
  - rewrite (IH (S i) j) by assumption. do 3 f_equal. lia.
Qed.

Lemma getAllRecords_run (env : Env) (values : option (list (list string))) (w : World) :
  sheets_initialized w = true \/ sheets_auth env = None ->
  exists l,
    GoogleSheetsService.getAllRecords env (inr values) w
    = (Returns
         (map (GoogleSheetsService.record_of
                 match default [] values with
                 | row :: _ => row
                 | [] => GoogleSheetsService.default_headers
                 end)
              (tail (default [] values))),
       logged l (set_sheets_initialized true w)).
Proof.
  intros H. unfold GoogleSheetsService.getAllRecords. run_io.
  destruct (sheets_initialized w) eqn:Hinit; cbn [negb].
  - exists []. rewrite logged_nil.
    replace (set_sheets_initialized true w) with w
      by (clear - Hinit; destruct w; simpl in Hinit; now subst).
    run_io. reflexivity.
  - destruct H as [H|H]; [discriminate|].
    unfold GoogleSheetsService.initialize. rewrite H. run_io.
    eexists [_]. reflexivity.
Qed.

(** X19: [getAllRecords] on a sheet whose first row holds distinct column
    names, none of them [__proto__], once the client is initialized or when
    its credentials are accepted: it returns one record per row after the
    first, in the order of the rows; each record has exactly the names of
    the first row as its keys, and under the name of column [j] the cell [j]
    of its row, or the empty string when the row is too short.  The sheet
    and the collection are unchanged. *)
Theorem getAllRecords_records (env : Env) (header_row : list string)
    (rows : list (list string)) (w : World) :
  sheets_initialized w = true \/ sheets_auth env = None ->
  NoDup header_row ->
  "__proto__" ∉ header_row ->
  exists records w',
    GoogleSheetsService.getAllRecords env (inr (Some (header_row :: rows))) w
    = (Returns records, w')
    /\ sheet w' = sheet w /\ questions w' = questions w
    /\ length records = length rows
    /\ forall i row record,
         rows !! i = Some row -> records !! i = Some record ->
         (forall j h, header_row !! j = Some h ->
                      record !! h = Some (or_string (row !! j) EmptyString))
         /\ (forall h, h ∉ header_row -> record !! h = None).
Proof.
  intros Hinit Hnd Hproto.
  destruct (getAllRecords_run env (Some (header_row :: rows)) w Hinit) as [l Hrun].
  cbn [default from_option id tail] in Hrun. rewrite Hrun. eexists. eexists.
  split; [reflexivity|]. world_fields. split; [reflexivity|]. split; [reflexivity|].
  split; [apply length_map|].
  intros i row record Hrow Hrecord.
  change (map ?f rows) with (f <$> rows) in Hrecord.
  rewrite list_lookup_fmap, Hrow in Hrecord. injection Hrecord as <-.
  unfold GoogleSheetsService.record_of. split.
  - intros j h Hj. rewrite (assign_from_present 0 j) by
      (try assumption; intros ->; apply Hproto; eapply list_elem_of_lookup_2; eassumption).
    reflexivity.
  - intros h Hh. rewrite assign_from_absent by exact Hh. apply lookup_empty.
Qed.

Lemma getAllRecords_records_witness :
  exists records w',
    GoogleSheetsService.getAllRecords (sample_env api_down)
      (inr (Some (sample_header :: sample_rows))) empty_world
    = (Returns records, w')
    /\ sheet w' = [] /\ questions w' = ∅
    /\ length records = 2
    /\ forall i row record,
         sample_rows !! i = Some row -> records !! i = Some record ->
         (forall j h, sample_header !! j = Some h ->
                      record !! h = Some (or_string (row !! j) EmptyString))
         /\ (forall h, h ∉ sample_header -> record !! h = None).
Proof.
  apply (getAllRecords_records (sample_env api_down) sample_header sample_rows
           empty_world).
  - right. reflexivity.
  - apply (bool_decide_unpack _). vm_compute. exact I.
  - apply (bool_decide_unpack _). vm_compute. exact I.
Defined.

(** X20: [getAllRecords] always takes the first row of the range for the
    column names: whatever the range holds, it returns one record per row
    after the first, so none for a range that is absent, empty or of one
    row. *)
Theorem getAllRecords_count (env : Env) (values : option (list (list string)))
    (w : World) :
  sheets_initialized w = true \/ sheets_auth env = None ->
  exists records w',
    GoogleSheetsService.getAllRecords env (inr values) w = (Returns records, w')
    /\ length records = pred (length (default [] values)).
Proof.
  intros Hinit. destruct (getAllRecords_run env values w Hinit) as [l Hrun].
  rewrite Hrun. eexists. eexists. split; [reflexivity|].
  rewrite length_map. now destruct (default [] values).
Qed.

Lemma getAllRecords_count_witness :
  exists records w',
    GoogleSheetsService.getAllRecords (sample_env api_down) (inr (Some [sample_header]))
      empty_world = (Returns records, w')
    /\ length records = pred (length (default [] (Some [sample_header]))).
Proof.
  apply (getAllRecords_count (sample_env api_down) (Some [sample_header]) empty_world).
  right. reflexivity.
Defined.

(** X21: whatever makes [getAllRecords] fail, the credentials or the read
    of the range, the error it throws says so: its message starts with
    [Failed to get records from Google Sheets: ], and neither the sheet nor
    the collection has changed. *)
Theorem getAllRecords_failure (env : Env)
    (values_get : JsError + option (list (list string))) (w : World) (e : JsError) :
  completion (GoogleSheetsService.getAllRecords env values_get) w = Throws e ->
  (exists cause, message e = "Failed to get records from Google Sheets: " +:+ cause)
  /\ sheet (exec (GoogleSheetsService.getAllRecords env values_get) w) = sheet w
  /\ questions (exec (GoogleSheetsService.getAllRecords env values_get) w) = questions w.
Proof.
  unfold completion, exec, GoogleSheetsService.getAllRecords. run_io.
  destruct (sheets_initialized w); cbn [negb]; run_io.
  - destruct values_get as [e'|values]; run_io; cbn [fst snd].
    + intros [= <-]. split; [eexists; reflexivity|]. split; reflexivity.
    + discriminate.
  - unfold GoogleSheetsService.initialize. destruct (sheets_auth env) as [e'|]; run_io.
    + cbn [fst snd]. intros [= <-]. split; [eexists; reflexivity|]. split; reflexivity.
    + destruct values_get as [e'|values]; run_io; cbn [fst snd].
      * intros [= <-]. split; [eexists; reflexivity|]. split; reflexivity.
      * discriminate.
Qed.

Lemma getAllRecords_failure_witness :
  (exists cause,
     message (Error ("Failed to get records from Google Sheets: " +:+ "Quota exceeded"))
     = "Failed to get records from Google Sheets: " +:+ cause)
  /\ sheet (exec (GoogleSheetsService.getAllRecords (sample_env api_down)
                    (inl (Error "Quota exceeded"))) empty_world) = sheet empty_world
  /\ questions (exec (GoogleSheetsService.getAllRecords (sample_env api_down)
                        (inl (Error "Quota exceeded"))) empty_world)
     = questions empty_world.
Proof.
  apply (getAllRecords_failure (sample_env api_down) (inl (Error "Quota exceeded"))
           empty_world
           (Error ("Failed to get records from Google Sheets: " +:+ "Quota exceeded"))).
  reflexivity.
Defined.

(** ** From the question to the approval *)

(** X22: a text question and then a click on Approve on its card, when
    every call succeeds, the API never sends a null or an empty content, the
    new [_id] is free and the student has a name.  The student's chat gets
    the typing indicator and the acknowledgement; the answer [generateAnswer]
    returned is then delivered to the sender's user id, in HTML mode; Slack
    gets the review card (source Text, the question and the answer, the new
    [_id] on both buttons) and then the update that shows the answer as
    approved, addressed to the channel of the reviews and the timestamp of
    the click; one row is archived, with that answer in both answer columns;
    and the stored record is approved by the reviewer who clicked. *)
Theorem question_then_approval (env : Env) (msg : TelegramController.Message)
    (questionText : string) (p : SlackController.BlockActions) (w : World) :
  all_calls_succeed env ->
  contents_nonempty env ->
  TelegramController.first_name msg <> EmptyString ->
  questionText <> EmptyString ->
  questions w !! new_ObjectId env = None ->
  clicks p "approve_button" (new_ObjectId env) ->
  exists answerText w1 w2 doc,
    TelegramController.processTextMessage env msg questionText w = (Returns tt, w1)
    /\ SlackController.handleInteraction env (SlackController.block_actions p) w1
       = (Returns tt, w2)
    /\ completion (DeepseekService.generateAnswer env questionText) w
       = Returns (Some answerText)
    /\ telegram w2
       = telegram w ++ [typing (TelegramController.chat_id msg);
                        reply (TelegramController.chat_id msg) text_acknowledgement;
                        delivery (pretty (TelegramController.from_id msg)) answerText]
    /\ slack w2
       = slack w ++ [review_card env questionText (Some answerText) (new_ObjectId env)
                       (TelegramController.first_name msg) false;
                     card_update env (SlackController.message_ts_ p) answerText]
    /\ sheet w2
       = sheet w ++ [{| row_timestamp := clock env (5 + ticks w);
                        row_accountName := TelegramController.first_name msg;
                        row_question := questionText;
                        row_answer := answerText;
                        row_editedAnswer := answerText |}]
    /\ questions w2 !! new_ObjectId env = Some doc
    /\ isApproved doc = true
    /\ approvedBy doc = Some (SlackController.user_id p)
    /\ editedAnswer doc = None.
Proof.
  intros Hall Hne Hname Htext Hfresh Hclick.
  pose proof Hall as (Hfind & Hsave & Hslack & Htg & _).
  unfold TelegramController.processTextMessage.
  telegram_flow. rewrite call_run, Htg. run_io.
  match goal with |- context [DeepseekService.generateAnswer env questionText ?w1] =>
    destruct (generateAnswer_returns env questionText w1)
      as (result & l & events & n & Hg & _);
    pose proof (generateAnswer_completion_posts env questionText w1 w eq_refl) as Hc
  end.
  unfold completion in Hc at 1. rewrite Hg in Hc. cbn [fst] in Hc.
  destruct (generateAnswer_nonempty env questionText result w Hne (eq_sym Hc))
    as (answerText & -> & Hanswer).
  exists answerText. rewrite Hg. run_io.
  rewrite storeQuestion_ok; try assumption.
  run_io. rewrite sendQuestionForApproval_run, Hslack. run_io.
  rewrite call_run, Htg. run_io.
  match goal with |- exists w1 w2 doc, (Returns tt, ?w0) = _ /\ _ =>
    exists w0;
    assert (Hr : questions w0 !! new_ObjectId env
                 = Some (pending_record env (TelegramController.from_id msg)
                           (TelegramController.first_name msg) questionText answerText
                           false None (clock env (ticks w)) (clock env (S (S (ticks w))))))
      by (world_fields; apply lookup_insert_eq);
    rewrite (handleInteraction_found env p _ "approve_button" (new_ObjectId env) w0
               Hclick (Hfind _) Hr);
    pose proof (handleApproval_returns env p
                  (pending_record env (TelegramController.from_id msg)
                     (TelegramController.first_name msg) questionText answerText
                     false None (clock env (ticks w)) (clock env (S (S (ticks w)))))
                  (acknowledged w0)) as Hret;
    pose proof (handleApproval_ok env p
                  (pending_record env (TelegramController.from_id msg)
                     (TelegramController.first_name msg) questionText answerText
                     false None (clock env (ticks w)) (clock env (S (S (ticks w)))))
                  (acknowledged w0) Hall) as Hok
  end.
  cbn [String.eqb Ascii.eqb Bool.eqb].
  cbv zeta in Hok. unfold exec in Hok. unfold completion in Hret.
  destruct (SlackController.handleApproval env p _ _) as [c w2].
  cbn [fst] in Hret. subst c. cbn [snd] in Hok.
  destruct Hok as (Hq & Hs & Ht & Hsh).
  exists w2. eexists. split; [reflexivity|]. split; [reflexivity|].
  split; [now symmetry|].
  rewrite Hq, Hs, Ht, Hsh. world_fields. cbn [pending_record accountId answer _id].
  split; [now rewrite <- !app_assoc|]. split; [now rewrite <- !app_assoc|].
  split; [reflexivity|].
  split; [apply lookup_insert_eq|]. fields. repeat split; reflexivity.
Qed.

Lemma question_then_approval_witness :
  exists answerText w1 w2 doc,
    TelegramController.processTextMessage (sample_env (api_answers "2 + 2 = 4"))
      sample_text_message "What is 2+2?" empty_world = (Returns tt, w1)
    /\ SlackController.handleInteraction (sample_env (api_answers "2 + 2 = 4"))
         (SlackController.block_actions sample_actions) w1 = (Returns tt, w2)
    /\ completion (DeepseekService.generateAnswer (sample_env (api_answers "2 + 2 = 4"))
                     "What is 2+2?") empty_world = Returns (Some answerText)
    /\ telegram w2
       = [] ++ [typing 4242; reply 4242 text_acknowledgement;
                delivery (pretty 4242%Z) answerText]
    /\ slack w2
       = [] ++ [review_card (sample_env (api_answers "2 + 2 = 4")) "What is 2+2?"
                  (Some answerText) "65f000000000000000000001" "Asha" false;
                card_update (sample_env (api_answers "2 + 2 = 4")) "1711111111.000100"
                  answerText]
    /\ sheet w2
       = [] ++ [{| row_timestamp := 5;
                   row_accountName := "Asha";
                   row_question := "What is 2+2?";
                   row_answer := answerText;
                   row_editedAnswer := answerText |}]
    /\ questions w2 !! "65f000000000000000000001" = Some doc
    /\ isApproved doc = true
    /\ approvedBy doc = Some "U07TEACHER"
    /\ editedAnswer doc = None.
Proof.
  apply (question_then_approval (sample_env (api_answers "2 + 2 = 4"))
           sample_text_message "What is 2+2?" sample_actions empty_world).
  - split; [|split; [|split; [|split; [|split]]]]; try (intros; reflexivity).
    intros row. eexists. reflexivity.
  - intros n r content [= <-]. eexists. split; [reflexivity|discriminate].
  - discriminate.
  - discriminate.
  - reflexivity.
  - eexists. eexists. split; [reflexivity|]. split; reflexivity.
Defined.



(** ** What a student is sent before the review *)

Ltac keeps_answer :=
  unfold DeepseekService._makeRequest, DeepseekService._makeSimplifiedRequest,
    DeepseekService._getFallbackResponse, DeepseekService.sleep,
    logger.info, logger.warn, logger.error, logger.write;
  repeat keeps_step.

Lemma keeps_generateAnswer_telegram (env : Env) (question : string) :
  keeps telegram (DeepseekService.generateAnswer env question).
Proof.
  assert (Hloop : forall left retries,
            keeps telegram (DeepseekService.retry_loop env question left retries)).
  { induction left as [|left IH]; intros retries; cbn [DeepseekService.retry_loop].
    - apply keeps_ret.
    - keeps_answer. apply IH. }
  unfold DeepseekService.generateAnswer. apply keeps_bind; [apply Hloop|].
  intros result. keeps_answer.
Qed.

Lemma keeps_generateAnswer_sheet (env : Env) (question : string) :
  keeps sheet (DeepseekService.generateAnswer env question).
Proof.
  assert (Hloop : forall left retries,
            keeps sheet (DeepseekService.retry_loop env question left retries)).
  { induction left as [|left IH]; intros retries; cbn [DeepseekService.retry_loop].
    - apply keeps_ret.
    - keeps_answer. apply IH. }
  unfold DeepseekService.generateAnswer. apply keeps_bind; [apply Hloop|].
  intros result. keeps_answer.
Qed.

Lemma canned_kept {A} (chatId : Z) (before : list TelegramCall) (m : Async A) :
  keeps telegram m ->
  triple (only_canned chatId before) m
    (fun _ => only_canned chatId before) (only_canned chatId before).
Proof.
  intros Hm w (sent & Hsent & Hall). specialize (Hm w). unfold exec in Hm.
  destruct (m w) as [[a|e] w1]; cbn [snd] in Hm; exists sent; split; congruence.
Qed.

Lemma canned_call (env : Env) (chatId : Z) (before : list TelegramCall)
    (c : TelegramCall) :
  canned chatId c ->
  triple (only_canned chatId before) (TelegramService.call env c)
    (fun _ => only_canned chatId before) (only_canned chatId before).
Proof.
  intros Hc w (sent & Hsent & Hall). rewrite call_run.
  destruct (telegram_api env c); [exists sent; split; assumption|].
  exists (sent ++ [c]). cbn [telegram set_telegram]. split.
  - rewrite Hsent. now rewrite app_assoc.
  - apply Forall_app. split; [exact Hall|]. now apply Forall_singleton.
Qed.

Lemma canned_sendMessage (env : Env) (chatId : Z) (before : list TelegramCall)
    (text : string) :
  In text canned_texts ->
  triple (only_canned chatId before) (TelegramController.bot_sendMessage env chatId text)
    (fun _ => only_canned chatId before) (only_canned chatId before).
Proof.
  intros Hin. apply canned_call. right. exists text. split; [reflexivity|exact Hin].
Qed.

Lemma canned_sendChatAction (env : Env) (chatId : Z) (before : list TelegramCall) :
  triple (only_canned chatId before)
    (TelegramController.bot_sendChatAction env chatId "typing")
    (fun _ => only_canned chatId before) (only_canned chatId before).
Proof. apply canned_call. left. reflexivity. Qed.

Lemma canned_bind {A B} (chatId : Z) (before : list TelegramCall)
    (m : Async A) (k : A -> Async B) :
  triple (only_canned chatId before) m
    (fun _ => only_canned chatId before) (only_canned chatId before) ->
  (forall a, triple (only_canned chatId before) (k a)
               (fun _ => only_canned chatId before) (only_canned chatId before)) ->
  triple (only_canned chatId before) (m ≫= k)
    (fun _ => only_canned chatId before) (only_canned chatId before).
Proof. intros Hm Hk. eapply triple_bind; [exact Hm|exact Hk]. Qed.

Lemma canned_try_catch {A} (chatId : Z) (before : list TelegramCall)
    (m : Async A) (h : JsError -> Async A) :
  triple (only_canned chatId before) m
    (fun _ => only_canned chatId before) (only_canned chatId before) ->
  (forall e, triple (only_canned chatId before) (h e)
               (fun _ => only_canned chatId before) (only_canned chatId before)) ->
  triple (only_canned chatId before) (try_catch m h)
    (fun _ => only_canned chatId before) (only_canned chatId before).
Proof. intros Hm Hh. eapply triple_try_catch; [exact Hm|exact Hh]. Qed.

Ltac keeps_telegram :=
  first [ apply keeps_generateAnswer_telegram
        | unfold TelegramController.storeQuestion,
            TelegramController.getPhotoUrl, TelegramController.downloadPhoto,
            GeminiService.extractTextFromImage,
            QuestionModel.save, QuestionModel.new,
            SlackService.sendQuestionForApproval, SlackService.call,
            logger.info, logger.warn, logger.error, logger.write;
          repeat keeps_step ].

Ltac canned_step :=
  first
    [ apply canned_sendChatAction
    | apply canned_sendMessage; unfold canned_texts; cbn [In]; tauto
    | apply canned_kept; solve [keeps_telegram]
    | apply canned_bind; [|intros ?]
    | apply canned_try_catch; [|intros ?]
    | match goal with
      | |- triple _ (match ?x with _ => _ end) _ _ => destruct x
      | |- triple _ (let _ := _ in _) _ _ => cbv zeta
      end ].

(** X24: nothing but the typing indicator and the controller's fixed texts
    is sent to a student by [processMessage], whatever the message is and
    whatever the calls do; they go to the chat of the message.  The answer
    the API generated is not among them. *)
Theorem unreviewed_answer_never_sent (env : Env) (msg : TelegramController.Message)
    (w : World) :
  exists sent,
    telegram (exec (TelegramController.processMessage env msg) w) = telegram w ++ sent
    /\ Forall (canned (TelegramController.chat_id msg)) sent.
Proof.
  apply (triple_exec (only_canned (TelegramController.chat_id msg) (telegram w))
           (only_canned (TelegramController.chat_id msg) (telegram w))).
  2:{ exists []. split; [now rewrite app_nil_r|constructor]. }
  unfold TelegramController.processMessage, TelegramController.processTextMessage,
    TelegramController.processPhotoMessage.
  cbv zeta. repeat canned_step.
Qed.

(** X25: a Telegram message archives nothing: whatever the message is and
    whatever the calls do, [processMessage] leaves the spreadsheet as it
    is. *)
Theorem message_archives_nothing (env : Env) (msg : TelegramController.Message)
    (w : World) :
  sheet (exec (TelegramController.processMessage env msg) w) = sheet w.
Proof.
  revert w. change (keeps sheet (TelegramController.processMessage env msg)).
  unfold TelegramController.processMessage, TelegramController.processTextMessage,
    TelegramController.processPhotoMessage, TelegramController.storeQuestion,
    TelegramController.bot_sendMessage, TelegramController.bot_sendChatAction,
    TelegramController.getPhotoUrl, TelegramController.downloadPhoto,
    GeminiService.extractTextFromImage,
    QuestionModel.save, QuestionModel.new,
    SlackService.sendQuestionForApproval, SlackService.call, TelegramService.call,
    logger.info, logger.warn, logger.error, logger.write.
  repeat first [apply keeps_generateAnswer_sheet | keeps_step].
Qed.

(** X26: the review never asks the API again: whatever the request is,
    with a payload that parses or not, and whatever the calls do,
    [handleInteraction] sends no request and waits for none. *)
Theorem interaction_sends_no_request (env : Env) (req : SlackController.Request)
    (w : World) :
  net (exec (SlackController.handleInteraction env req) w) = net w
  /\ posts (exec (SlackController.handleInteraction env req) w) = posts w.
Proof.
  split; revert w.
  - change (keeps net (SlackController.handleInteraction env req)). keeps_all.
  - change (keeps posts (SlackController.handleInteraction env req)). keeps_all.
Qed.
